(** * Excel Agent frontend: the streaming reducer of the two chat clients

    A shallow embedding of the message handling of
    [src/frontend/app.js] (class [ExcelAgentWithSSE], the EventSource client)
    and of the WebSocket client (class [ExcelAgent] with [connectWebSocket]).
    Both classes carry the same content handlers and section renderers,
    method for method; they differ in their [onmessage] callbacks, in the
    guard at the top of the message handler and in [finishStreaming].

    The client object is a record threaded through a state-and-exception
    monad: a method either returns normally or throws, and in both cases the
    mutations done so far stay (JavaScript has no rollback).  The part of the
    DOM the handlers write to is a store of section containers addressed by
    creation index, so that the references held in [activeComponents] alias
    the nodes they point to.

    Outside the model: scrolling, [Prism.highlightElement] (it recolours the
    code element and leaves its text), the chat bubbles of [addMessage], the
    copy and export actions behind the buttons, voice recording, and the
    transport's own events ([onopen], [onerror], [onclose]). *)

From Stdlib Require Import QArith Ascii.
From stdpp Require Import base option list strings numbers pretty.

Close Scope Q_scope.
Set Warnings "-register-all".
Local Open Scope string_scope.
Local Open Scope list_scope.

(** ** JavaScript values *)

(** The values [JSON.parse] produces, and [undefined] for a property that is
    absent.  A number is given by the exact rational value of the double
    (both zeros are [0]); the non-finite numbers an overflowing literal
    yields are not represented.  An object lists its own properties in the
    order [Object.keys] enumerates them, each key once. *)
Inductive JSValue : Type :=
| JUndefined
| JNull
| JBool (b : bool)
| JNumber (q : Q)
| JString (s : string)
| JArray (items : list JSValue)
| JObject (props : list (string * JSValue)).

Inductive Exn : Type := TypeError | SyntaxError.

(** [typeof v] *)
Definition typeof (v : JSValue) : string :=
  match v with
  | JUndefined => "undefined"
  | JNull => "object"
  | JBool _ => "boolean"
  | JNumber _ => "number"
  | JString _ => "string"
  | JArray _ => "object"
  | JObject _ => "object"
  end.

(** [Array.isArray(v)] *)
Definition Array_isArray (v : JSValue) : bool :=
  match v with JArray _ => true | _ => false end.

(** ToBoolean, as [if], [!] and [||] apply it. *)
Definition truthy (v : JSValue) : bool :=
  match v with
  | JUndefined | JNull => false
  | JBool b => b
  | JNumber q => negb (Qeq_bool q (inject_Z 0))
  | JString s => negb (String.eqb s "")
  | JArray _ | JObject _ => true
  end.

(** [v === 'lit'] for a string literal *)
Definition is_string (v : JSValue) (lit : string) : bool :=
  match v with JString s => String.eqb s lit | _ => false end.

(** [v === n] for a number literal *)
Definition is_number (v : JSValue) (n : Z) : bool :=
  match v with JNumber q => Qeq_bool q (inject_Z n) | _ => false end.

(** [cell || ''] *)
Definition or_empty (cell : JSValue) : JSValue :=
  if truthy cell then cell else JString "".

Fixpoint lookup_prop (k : string) (props : list (string * JSValue)) : JSValue :=
  match props with
  | [] => JUndefined
  | (k', v) :: rest => if String.eqb k k' then v else lookup_prop k rest
  end.

(** [v.k] for the property names the clients read ([code], [data], [answer],
    [finished], [content_type], [content_status]); none of them lives on a
    prototype, so a primitive or an array answers [undefined]; reading a
    property of [null] or [undefined] is a TypeError ([None]). *)
Definition get_prop (v : JSValue) (k : string) : option JSValue :=
  match v with
  | JUndefined | JNull => None
  | JObject props => Some (lookup_prop k props)
  | _ => Some JUndefined
  end.

(** The index keys ["0"], ["1"], ... of an array of length [n]. *)
Definition index_keys (n : nat) : list string := pretty <$> seq 0 n.

(** [Object.keys(v)]; [None] is the TypeError on [null] and [undefined].
    The clients call it on values whose [typeof] is ['object'] only; the
    string case (one key per character) is there for completeness. *)
Definition Object_keys (v : JSValue) : option (list string) :=
  match v with
  | JUndefined | JNull => None
  | JObject props => Some (fst <$> props)
  | JArray items => Some (index_keys (length items))
  | JString s => Some (index_keys (String.length s))
  | JBool _ | JNumber _ => Some []
  end.

(** [Object.values(v)] *)
Definition Object_values (v : JSValue) : option (list JSValue) :=
  match v with
  | JUndefined | JNull => None
  | JObject props => Some (snd <$> props)
  | JArray items => Some items
  | JString s => Some ((fun c => JString (String c "")) <$> String.list_ascii_of_string s)
  | JBool _ | JNumber _ => Some []
  end.

(** ** Strings and the two regular-expression rewrites

    A string is its UTF-8 byte sequence.  The patterns below only name ASCII
    characters, so matching on bytes and matching on code units agree. *)

Definition quote_char : ascii := "034"%char.
Definition LF : string := String "010"%char "".
Definition CR : string := String "013"%char "".
Definition LS : string := String "226"%char (String "128"%char (String "168"%char "")).
Definition PS : string := String "226"%char (String "128"%char (String "169"%char "")).

Fixpoint strip_prefix (p s : string) : option string :=
  match p with
  | EmptyString => Some s
  | String a p' =>
      match s with
      | EmptyString => None
      | String b s' => if Ascii.eqb a b then strip_prefix p' s' else None
      end
  end.

Definition starts_with (p s : string) : bool :=
  match strip_prefix p s with Some _ => true | None => false end.

(** The characters the regex [.] refuses: LF, CR, U+2028 and U+2029. *)
Definition at_line_terminator (s : string) : bool :=
  starts_with LF s || starts_with CR s || starts_with LS s || starts_with PS s.

(** [(.*?)d] from the start of [s]: the shortest run of [.] characters that
    is followed by the delimiter [d]; the run and what follows [d]. *)
Fixpoint lazy_until (d s : string) : option (string * string) :=
  match strip_prefix d s with
  | Some rest => Some ("", rest)
  | None =>
      match s with
      | EmptyString => None
      | String c s' =>
          if at_line_terminator s then None
          else match lazy_until d s' with
               | Some (t, rest) => Some (String c t, rest)
               | None => None
               end
      end
  end.

(** [s.replace(/d(.*?)d/g, open + '$1' + close)] for a literal delimiter [d];
    [fuel] bounds the scan positions. *)
Fixpoint replace_delimited (fuel : nat) (d open close s : string) : string :=
  match fuel with
  | O => s
  | S fuel' =>
      match s with
      | EmptyString => ""
      | String c s' =>
          match strip_prefix d s with
          | Some body =>
              match lazy_until d body with
              | Some (t, rest) =>
                  open ++ t ++ close ++ replace_delimited fuel' d open close rest
              | None => String c (replace_delimited fuel' d open close s')
              end
          | None => String c (replace_delimited fuel' d open close s')
          end
      end
  end.

(** [s.replace(/\n/g, '<br>')] *)
Fixpoint replace_newlines (s : string) : string :=
  match s with
  | EmptyString => ""
  | String c s' =>
      if Ascii.eqb c "010"%char then "<br>" ++ replace_newlines s'
      else String c (replace_newlines s')
  end.

(** [formatText(text)] on a string. *)
Definition formatText_string (text : string) : string :=
  let bold := replace_delimited (String.length text) "**" "<strong>" "</strong>" text in
  let italic := replace_delimited (String.length bold) "*" "<em>" "</em>" bold in
  replace_newlines italic.

Definition fence_python : string := "```python".
Definition fence : string := "```".

(** One match of [/```python\n?|\n?```/] at the start of [s]: what follows. *)
Definition match_fence (s : string) : option string :=
  match strip_prefix fence_python s with
  | Some r => Some (match strip_prefix LF r with Some r' => r' | None => r end)
  | None =>
      match strip_prefix (LF ++ fence) s with
      | Some r => Some r
      | None => strip_prefix fence s
      end
  end.

(** [code.replace(/```python\n?|\n?```/g, '')] on a string. *)
Fixpoint strip_fences (fuel : nat) (s : string) : string :=
  match fuel with
  | O => s
  | S fuel' =>
      match s with
      | EmptyString => ""
      | String c s' =>
          match match_fence s with
          | Some rest => strip_fences fuel' rest
          | None => String c (strip_fences fuel' s')
          end
      end
  end.

Definition cleanCode_string (code : string) : string :=
  strip_fences (String.length code) code.

(** A method call [v.replace(...)]: only a string has the method. *)
Definition as_string (v : JSValue) : option string :=
  match v with JString s => Some s | _ => None end.

(** ** The document and the client object *)

(** An element appended below a section's template. *)
Inductive Child : Type :=
| Div (className innerHTML : string)
| Button (className : string).

(** One section container: the [div] an [initialize...] method creates from
    its template, with the parts of it the renderers write to. *)
Record SectionNode : Type := {
  className : string;                 (* container.className *)
  classList : list string;            (* classes added by classList.add *)
  textContent : string;               (* of the <code> element *)
  header : list (list string);        (* rows of <thead>, the text of each <th> *)
  body : list (list JSValue);         (* rows of <tbody>, the value given to each <td> *)
  content : list Child;               (* children of .result-content, .error-content, .text-content *)
  appended : list Child               (* children appended to the container itself *)
}.

(** The content [div] of one streaming bot message; [children] are the
    section containers appended to it, by store index. *)
Record StreamingMessage : Type := {
  contentClasses : list string;
  children : list nat
}.

(** [activeComponents.data] *)
Record DataTable : Type := {
  container : nat;
  headerInitialized : bool
}.

(** [this.activeComponents]: the object is only ever read and written
    through these five property names, so it is a record; a property is
    [None] when absent or deleted.  [code], [result], [error] and [text] hold
    an element of a section container and are given by that container's
    index. *)
Record ActiveComponents : Type := {
  code : option nat;
  data : option DataTable;
  result : option nat;
  error : option nat;
  text : option nat
}.

(** The promise [streamQueryResults] returns. *)
Inductive Promise : Type := Pending | Resolved | Rejected (e : Exn).

Record ExcelAgent : Type := {
  messages : list StreamingMessage;        (* streaming messages appended to #messages *)
  sections : list SectionNode;             (* the section containers created so far *)
  currentStreamingMessage : option nat;
  activeComponents : ActiveComponents;
  loading : bool;                          (* loadingIndicator shown *)
  eventSource : bool;                      (* this.eventSource is an open EventSource *)
  promise : Promise;
  console : list string                    (* console.error lines *)
}.

Definition emptyComponents : ActiveComponents :=
  {| code := None; data := None; result := None; error := None; text := None |}.

(** The object after its constructor ran. *)
Definition newAgent : ExcelAgent :=
  {| messages := []; sections := []; currentStreamingMessage := None;
     activeComponents := emptyComponents; loading := false;
     eventSource := false; promise := Pending; console := [] |}.

Definition set_messages (f : list StreamingMessage -> list StreamingMessage) (s : ExcelAgent) : ExcelAgent :=
  {| messages := f (messages s); sections := sections s;
     currentStreamingMessage := currentStreamingMessage s;
     activeComponents := activeComponents s; loading := loading s;
     eventSource := eventSource s; promise := promise s; console := console s |}.

Definition set_sections (f : list SectionNode -> list SectionNode) (s : ExcelAgent) : ExcelAgent :=
  {| messages := messages s; sections := f (sections s);
     currentStreamingMessage := currentStreamingMessage s;
     activeComponents := activeComponents s; loading := loading s;
     eventSource := eventSource s; promise := promise s; console := console s |}.

Definition set_currentStreamingMessage (m : option nat) (s : ExcelAgent) : ExcelAgent :=
  {| messages := messages s; sections := sections s;
     currentStreamingMessage := m;
     activeComponents := activeComponents s; loading := loading s;
     eventSource := eventSource s; promise := promise s; console := console s |}.

Definition set_activeComponents (f : ActiveComponents -> ActiveComponents) (s : ExcelAgent) : ExcelAgent :=
  {| messages := messages s; sections := sections s;
     currentStreamingMessage := currentStreamingMessage s;
     activeComponents := f (activeComponents s); loading := loading s;
     eventSource := eventSource s; promise := promise s; console := console s |}.

Definition set_loading (b : bool) (s : ExcelAgent) : ExcelAgent :=
  {| messages := messages s; sections := sections s;
     currentStreamingMessage := currentStreamingMessage s;
     activeComponents := activeComponents s; loading := b;
     eventSource := eventSource s; promise := promise s; console := console s |}.

Definition set_eventSource (b : bool) (s : ExcelAgent) : ExcelAgent :=
  {| messages := messages s; sections := sections s;
     currentStreamingMessage := currentStreamingMessage s;
     activeComponents := activeComponents s; loading := loading s;
     eventSource := b; promise := promise s; console := console s |}.

Definition set_promise (p : Promise) (s : ExcelAgent) : ExcelAgent :=
  {| messages := messages s; sections := sections s;
     currentStreamingMessage := currentStreamingMessage s;
     activeComponents := activeComponents s; loading := loading s;
     eventSource := eventSource s; promise := p; console := console s |}.

Definition set_console (f : list string -> list string) (s : ExcelAgent) : ExcelAgent :=
  {| messages := messages s; sections := sections s;
     currentStreamingMessage := currentStreamingMessage s;
     activeComponents := activeComponents s; loading := loading s;
     eventSource := eventSource s; promise := promise s; console := f (console s) |}.

Definition set_code (v : option nat) (a : ActiveComponents) : ActiveComponents :=
  {| code := v; data := data a; result := result a; error := error a; text := text a |}.
Definition set_data (v : option DataTable) (a : ActiveComponents) : ActiveComponents :=
  {| code := code a; data := v; result := result a; error := error a; text := text a |}.
Definition set_result (v : option nat) (a : ActiveComponents) : ActiveComponents :=
  {| code := code a; data := data a; result := v; error := error a; text := text a |}.
Definition set_error (v : option nat) (a : ActiveComponents) : ActiveComponents :=
  {| code := code a; data := data a; result := result a; error := v; text := text a |}.
Definition set_text (v : option nat) (a : ActiveComponents) : ActiveComponents :=
  {| code := code a; data := data a; result := result a; error := error a; text := v |}.

(** Writes to one section container. *)
Definition add_textContent (t : string) (n : SectionNode) : SectionNode :=
  {| className := className n; classList := classList n;
     textContent := textContent n ++ t; header := header n; body := body n;
     content := content n; appended := appended n |}.
Definition add_header_row (r : list string) (n : SectionNode) : SectionNode :=
  {| className := className n; classList := classList n;
     textContent := textContent n; header := header n ++ [r]; body := body n;
     content := content n; appended := appended n |}.
Definition add_body_row (r : list JSValue) (n : SectionNode) : SectionNode :=
  {| className := className n; classList := classList n;
     textContent := textContent n; header := header n; body := body n ++ [r];
     content := content n; appended := appended n |}.
Definition add_content (c : Child) (n : SectionNode) : SectionNode :=
  {| className := className n; classList := classList n;
     textContent := textContent n; header := header n; body := body n;
     content := content n ++ [c]; appended := appended n |}.
Definition add_appended (c : Child) (n : SectionNode) : SectionNode :=
  {| className := className n; classList := classList n;
     textContent := textContent n; header := header n; body := body n;
     content := content n; appended := appended n ++ [c] |}.
(** [classList.add(c)]: a class list holds a class once. *)
Definition add_class (c : string) (n : SectionNode) : SectionNode :=
  {| className := className n;
     classList := if bool_decide (c ∈ classList n) then classList n else classList n ++ [c];
     textContent := textContent n; header := header n; body := body n;
     content := content n; appended := appended n |}.

(** A container as its template leaves it. *)
Definition template (cls : string) : SectionNode :=
  {| className := cls; classList := []; textContent := ""; header := [];
     body := []; content := []; appended := [] |}.

(** ** The monad of methods *)

Inductive Outcome (A : Type) : Type :=
| Done (a : A) (s : ExcelAgent)
| Thrown (e : Exn) (s : ExcelAgent).
Arguments Done {A} a s.
Arguments Thrown {A} e s.

Definition M (A : Type) : Type := ExcelAgent -> Outcome A.

Definition state_of {A} (o : Outcome A) : ExcelAgent :=
  match o with Done _ s => s | Thrown _ s => s end.

Definition returns {A} (o : Outcome A) : bool :=
  match o with Done _ _ => true | Thrown _ _ => false end.

Definition ret {A} (a : A) : M A := fun s => Done a s.

Definition bind {A B} (m : M A) (k : A -> M B) : M B :=
  fun s => match m s with
           | Done a s' => k a s'
           | Thrown e s' => Thrown e s'
           end.

Definition throw {A} (e : Exn) : M A := fun s => Thrown e s.

(** [try { m } catch (e) { h e }] *)
Definition try_catch {A} (m : M A) (h : Exn -> M A) : M A :=
  fun s => match m s with
           | Done a s' => Done a s'
           | Thrown e s' => h e s'
           end.

Definition get : M ExcelAgent := fun s => Done s s.
Definition modify (f : ExcelAgent -> ExcelAgent) : M unit := fun s => Done tt (f s).

(** A builtin that throws a TypeError where it answers [None]. *)
Definition or_TypeError {A} (o : option A) : M A :=
  match o with Some a => ret a | None => throw TypeError end.

Global Instance M_ret : MRet M := @ret.
Global Instance M_bind : MBind M := fun A B k m => bind m k.

(** [list.forEach(f)] *)
Fixpoint forEach {A} (l : list A) (f : A -> M unit) : M unit :=
  match l with
  | [] => ret tt
  | x :: rest => f x ;; forEach rest f
  end.

(** ** DOM primitives *)

Definition add_child (id : nat) (m : StreamingMessage) : StreamingMessage :=
  {| contentClasses := contentClasses m; children := children m ++ [id] |}.

Definition remove_class (c : string) (m : StreamingMessage) : StreamingMessage :=
  {| contentClasses := filter (fun c' => c' ≠ c) (contentClasses m);
     children := children m |}.

(** [document.createElement('div')] filled from the template of class [cls],
    then [this.currentStreamingMessage.appendChild(...)]: the index of the
    new container.  With no current streaming message the call is a
    TypeError and the detached element is lost. *)
Definition appendSection (cls : string) : M nat :=
  fun s =>
    match currentStreamingMessage s with
    | None => Thrown TypeError s
    | Some m =>
        Done (length (sections s))
             (set_messages (alter (add_child (length (sections s))) m)
                (set_sections (fun l => l ++ [template cls]) s))
    end.

(** A write to the section container of index [i]. *)
Definition updateSection (i : nat) (f : SectionNode -> SectionNode) : M unit :=
  modify (set_sections (alter f i)).

Definition getComponents : M ActiveComponents :=
  fun s => Done (activeComponents s) s.

Definition setComponent (f : ActiveComponents -> ActiveComponents) : M unit :=
  modify (set_activeComponents f).

(** [formatText(text)]: [text.replace] exists on strings only. *)
Definition formatText (text : JSValue) : M string :=
  s ← or_TypeError (as_string text); mret (formatText_string s).

(** [createStreamingMessage()]: the index of the new content [div]. *)
Definition createStreamingMessage : M nat :=
  fun s =>
    Done (length (messages s))
         (set_messages
            (fun l => l ++ [{| contentClasses := ["message-content"; "streaming-content"];
                               children := [] |}]) s).

Definition hideLoading : M unit := modify (set_loading false).
Definition showLoading : M unit := modify (set_loading true).

Section Client.

(** [JSON.parse] applied to a value, as the builtin does it (its argument is
    converted to a string first); [None] when it throws. *)
Variable JSON_parse : JSValue -> option JSValue.

(** ** Code block lifecycle methods *)

Definition initializeCodeBlock : M unit :=
  codeContainer ← appendSection "streaming-code-container";
  setComponent (set_code (Some codeContainer)).

(** [Prism.highlightElement] is left out: it reads the element's text and
    writes it back as markup, which gives the same text again unless the text
    holds a carriage return, a NUL or a no-break space. *)
Definition appendToCodeBlock (code_ : JSValue) : M unit :=
  ac ← getComponents;
  (if code ac is None then initializeCodeBlock else mret tt);;
  source ← or_TypeError (as_string code_);
  let cleanCode := cleanCode_string source in
  ac ← getComponents;
  el ← or_TypeError (code ac);
  updateSection el (add_textContent cleanCode).

Definition finalizeCodeBlock : M unit :=
  ac ← getComponents;
  match code ac with
  | Some el =>
      updateSection el (add_appended (Button "copy-button"));;
      setComponent (set_code None)
  | None => mret tt
  end.

(** ** Data table lifecycle methods *)

Definition initializeDataTable : M unit :=
  tableContainer ← appendSection "streaming-data-container";
  setComponent (set_data (Some {| container := tableContainer; headerInitialized := false |})).

(** [this.activeComponents.data.headerInitialized = true] *)
Definition setHeaderInitialized : M unit :=
  fun s =>
    match data (activeComponents s) with
    | Some current =>
        Done tt (set_activeComponents
                   (set_data (Some {| container := container current;
                                      headerInitialized := true |})) s)
    | None => Thrown TypeError s
    end.

(** The header block shared by the two branches of [renderDataTable]:
    one [tr] of [th] cells from [Object.keys(v)] appended to the captured
    [header] element, then the flag is set. *)
Definition initializeHeader (v : JSValue) (table : DataTable) : M unit :=
  headers ← or_TypeError (Object_keys v);
  updateSection (container table) (add_header_row headers);;
  setHeaderInitialized.

(** One pass of the [data.forEach(row => ...)] body.  A cell is kept as the
    value assigned to [td.textContent]; turning it into text is left out
    (total on scalars; an object or array cell is converted by its own
    [toString], which may throw). *)
Definition renderRow (table : DataTable) (row : JSValue) : M unit :=
  cells ←
    match row with
    | JArray cells => mret (or_empty <$> cells)
    | _ =>
        if String.eqb (typeof row) "object"
        then vals ← or_TypeError (Object_values row); mret (or_empty <$> vals)
        else mret []
    end;
  updateSection (container table) (add_body_row cells).

Definition renderDataTable (data_ : JSValue) : M unit :=
  ac ← getComponents;
  table ← or_TypeError (data ac);
  match data_ with
  | JArray items =>
      match items with
      | first :: _ =>
          (if negb (headerInitialized table) && String.eqb (typeof first) "object"
           then initializeHeader first table else mret tt);;
          forEach items (renderRow table)
      | [] => mret tt
      end
  | _ =>
      if String.eqb (typeof data_) "object" then
        (if negb (headerInitialized table)
         then initializeHeader data_ table else mret tt);;
        vals ← or_TypeError (Object_values data_);
        updateSection (container table) (add_body_row (or_empty <$> vals))
      else mret tt
  end.

Definition renderDataTableAsText (text_ : JSValue) : M unit :=
  html ← formatText text_;
  ac ← getComponents;
  table ← or_TypeError (data ac);
  updateSection (container table) (add_appended (Div "data-text" html)).

Definition appendToDataTable (data_ : JSValue) : M unit :=
  ac ← getComponents;
  (if data ac is None then initializeDataTable else mret tt);;
  try_catch
    (match JSON_parse data_ with
     | Some parsedData => renderDataTable parsedData
     | None => throw SyntaxError
     end)
    (fun _ => renderDataTableAsText data_).

Definition finalizeDataTable : M unit :=
  ac ← getComponents;
  match data ac with
  | Some table =>
      updateSection (container table) (add_appended (Button "export-button"));;
      setComponent (set_data None)
  | None => mret tt
  end.

(** ** Result section lifecycle methods *)

Definition initializeResultSection : M unit :=
  resultContainer ← appendSection "streaming-result-container";
  setComponent (set_result (Some resultContainer)).

Definition appendToResultSection (result_ : JSValue) : M unit :=
  ac ← getComponents;
  (if result ac is None then initializeResultSection else mret tt);;
  html ← formatText result_;
  ac ← getComponents;
  el ← or_TypeError (result ac);
  updateSection el (add_content (Div "result-text" html)).

Definition finalizeResultSection : M unit :=
  ac ← getComponents;
  match result ac with
  | Some el =>
      updateSection el (add_class "completed");;
      setComponent (set_result None)
  | None => mret tt
  end.

(** ** Error section lifecycle methods *)

Definition initializeErrorSection : M unit :=
  errorContainer ← appendSection "streaming-error-container";
  setComponent (set_error (Some errorContainer)).

Definition appendToErrorSection (error_ : JSValue) : M unit :=
  ac ← getComponents;
  (if error ac is None then initializeErrorSection else mret tt);;
  html ← formatText error_;
  ac ← getComponents;
  el ← or_TypeError (error ac);
  updateSection el (add_content (Div "error-text" html)).

Definition finalizeErrorSection : M unit :=
  ac ← getComponents;
  match error ac with
  | Some _ => setComponent (set_error None)
  | None => mret tt
  end.

(** ** Text section lifecycle methods *)

Definition initializeTextSection : M unit :=
  textContainer ← appendSection "streaming-text-container";
  setComponent (set_text (Some textContainer)).

Definition appendToTextSection (text_ : JSValue) : M unit :=
  ac ← getComponents;
  (if text ac is None then initializeTextSection else mret tt);;
  html ← formatText text_;
  ac ← getComponents;
  el ← or_TypeError (text ac);
  updateSection el (add_content (Div "text-segment" html)).

Definition finalizeTextSection : M unit :=
  ac ← getComponents;
  match text ac with
  | Some _ => setComponent (set_text None)
  | None => mret tt
  end.

(** ** Content type handlers with status lifecycle management *)

Definition handleCodeContent (answer status : JSValue) : M unit :=
  if is_string status "start" then initializeCodeBlock
  else if is_string status "in_progress" then appendToCodeBlock answer
  else if is_string status "end" then finalizeCodeBlock
  else appendToCodeBlock answer.

Definition handleDataContent (answer status : JSValue) : M unit :=
  if is_string status "start" then initializeDataTable
  else if is_string status "in_progress" then appendToDataTable answer
  else if is_string status "end" then finalizeDataTable
  else appendToDataTable answer.

Definition handleResultContent (answer status : JSValue) : M unit :=
  if is_string status "start" then initializeResultSection
  else if is_string status "in_progress" then appendToResultSection answer
  else if is_string status "end" then finalizeResultSection
  else appendToResultSection answer.

Definition handleErrorContent (answer status : JSValue) : M unit :=
  if is_string status "start" then initializeErrorSection
  else if is_string status "in_progress" then appendToErrorSection answer
  else if is_string status "end" then finalizeErrorSection
  else appendToErrorSection answer.

Definition handleTextContent (answer status : JSValue) : M unit :=
  if is_string status "start" then initializeTextSection
  else if is_string status "in_progress" then appendToTextSection answer
  else if is_string status "end" then finalizeTextSection
  else appendToTextSection answer.

(** The [switch (content_type)] both message handlers carry. *)
Definition dispatch (content_type answer content_status : JSValue) : M unit :=
  if is_string content_type "code" then handleCodeContent answer content_status
  else if is_string content_type "data" then handleDataContent answer content_status
  else if is_string content_type "result" then handleResultContent answer content_status
  else if is_string content_type "error" then handleErrorContent answer content_status
  else handleTextContent answer content_status.

(** [const { answer, finished, content_type, content_status } = data] *)
Definition destructure (data_ : JSValue) : M (JSValue * JSValue * JSValue * JSValue) :=
  answer ← or_TypeError (get_prop data_ "answer");
  finished ← or_TypeError (get_prop data_ "finished");
  content_type ← or_TypeError (get_prop data_ "content_type");
  content_status ← or_TypeError (get_prop data_ "content_status");
  mret (answer, finished, content_type, content_status).

(** [this.currentStreamingMessage.classList.remove('streaming-message')] *)
Definition removeStreamingClass : M unit :=
  s ← get;
  m ← or_TypeError (currentStreamingMessage s);
  modify (set_messages (alter (remove_class "streaming-message") m)).

End Client.

(** ** The EventSource client ([ExcelAgentWithSSE]) *)

Module SSE.
Section WithParser.
Variable JSON_parse : JSValue -> option JSValue.

Definition finishStreaming : M unit :=
  hideLoading;;
  removeStreamingClass;;
  modify (set_currentStreamingMessage None);;
  s ← get;
  if eventSource s then modify (set_eventSource false) else mret tt.

Definition handleStreamingMessage (data_ : JSValue) : M unit :=
  s ← get;
  if currentStreamingMessage s is None then mret tt
  else
    '(answer, finished, content_type, content_status) ← destructure data_;
    dispatch JSON_parse content_type answer content_status;;
    if is_number finished 1 then finishStreaming else mret tt.

(** [resolve()] and [reject(error)]: a promise settles once.  The rejection
    is what [sendQuestion] awaits in its [try]; its [catch] hides the loading
    indicator (and shows the error in a chat bubble, outside this model). *)
Definition resolve : M unit :=
  s ← get;
  if promise s is Pending then modify (set_promise Resolved) else mret tt.

Definition reject (e : Exn) : M unit :=
  s ← get;
  if promise s is Pending
  then modify (set_promise (Rejected e));; hideLoading
  else mret tt.

(** [this.eventSource.onmessage], given [event.data]. *)
Definition onmessage (event_data : string) : M unit :=
  try_catch
    (data_ ← match JSON_parse (JString event_data) with
             | Some v => mret v
             | None => throw SyntaxError
             end;
     code_ ← or_TypeError (get_prop data_ "code");
     if is_number code_ 0 then
       inner ← or_TypeError (get_prop data_ "data");
       handleStreamingMessage inner;;
       inner ← or_TypeError (get_prop data_ "data");
       finished ← or_TypeError (get_prop inner "finished");
       if is_number finished 1 then resolve else mret tt
     else mret tt)
    (fun e =>
       modify (set_console (fun l => l ++ ["Error parsing SSE data:"]));;
       reject e).

(** [streamQueryResults(question)] up to the point where the callbacks are
    installed: a fresh promise, a new streaming message, an open
    EventSource. *)
Definition streamQueryResults : M unit :=
  modify (set_promise Pending);;
  m ← createStreamingMessage;
  modify (set_currentStreamingMessage (Some m));;
  modify (set_eventSource true).

(** [sendQuestion()] for a non-blank question (the user's chat bubble is not
    part of this model). *)
Definition sendQuestion : M unit :=
  showLoading;;
  streamQueryResults.

(** What happens to the client: the user submits a question, or the
    EventSource delivers a frame. *)
Inductive Event : Type :=
| Ask
| Receive (event_data : string).

(** [showLoading] disables the send button and the input, so a question is
    submitted only while nothing is loading; a closed EventSource delivers
    nothing.  The state holds one EventSource and one promise, those of the
    latest question: frames of an earlier EventSource that was left open are
    not told apart from frames of the latest one. *)
Definition step (s : ExcelAgent) (e : Event) : ExcelAgent :=
  match e with
  | Ask => if loading s then s else state_of (sendQuestion s)
  | Receive event_data =>
      if eventSource s then state_of (onmessage event_data s) else s
  end.

Definition run (events : list Event) (s : ExcelAgent) : ExcelAgent :=
  foldl step s events.

End WithParser.
End SSE.

(** ** The WebSocket client ([ExcelAgent]) *)

Module WS.
Section WithParser.
Variable JSON_parse : JSValue -> option JSValue.

Definition finishStreaming : M unit :=
  hideLoading;;
  removeStreamingClass;;
  modify (set_currentStreamingMessage None).

Definition handleWebSocketMessage (data_ : JSValue) : M unit :=
  s ← get;
  (if currentStreamingMessage s is None
   then m ← createStreamingMessage; modify (set_currentStreamingMessage (Some m))
   else mret tt);;
  '(answer, finished, content_type, content_status) ← destructure data_;
  dispatch JSON_parse content_type answer content_status;;
  if is_number finished 1 then finishStreaming else mret tt.

(** [this.websocket.onmessage], given the text of [event.data]. *)
Definition onmessage (event_data : string) : M unit :=
  try_catch
    (data_ ← match JSON_parse (JString event_data) with
             | Some v => mret v
             | None => throw SyntaxError
             end;
     code_ ← or_TypeError (get_prop data_ "code");
     if is_number code_ 0 then
       inner ← or_TypeError (get_prop data_ "data");
       handleWebSocketMessage inner
     else mret tt)
    (fun e => modify (set_console (fun l => l ++ ["Error parsing WebSocket message:"]))).

(** The socket delivers text frames one after the other.  ([sendQuestion]
    sends the request and shows the loading indicator; it writes nothing the
    message handlers read.) *)
Definition run (frames : list string) (s : ExcelAgent) : ExcelAgent :=
  foldl (fun s event_data => state_of (onmessage event_data s)) s frames.

End WithParser.
End WS.

(** ** A reference [JSON.parse]

    The clients are stated over any behaviour of the builtin.  To run them on
    concrete frames this module reads JSON text (ECMA-404) by recursive
    descent.  A number literal is taken at its exact decimal value, which is
    the value of the double whenever the literal is representable (every
    integer below 2^53, for one). *)

Module JSON.

Local Open Scope Z_scope.

Definition is_ws (c : ascii) : bool :=
  let n := nat_of_ascii c in
  (n =? 32)%nat || (n =? 9)%nat || (n =? 10)%nat || (n =? 13)%nat.

Fixpoint skip_ws (s : string) : string :=
  match s with
  | String c s' => if is_ws c then skip_ws s' else s
  | EmptyString => s
  end.

Definition digit_of (c : ascii) : option Z :=
  let n := Z.of_nat (nat_of_ascii c) in
  if (48 <=? n) && (n <=? 57) then Some (n - 48) else None.

Definition hex_of (c : ascii) : option Z :=
  let n := Z.of_nat (nat_of_ascii c) in
  if (48 <=? n) && (n <=? 57) then Some (n - 48)
  else if (65 <=? n) && (n <=? 70) then Some (n - 55)
  else if (97 <=? n) && (n <=? 102) then Some (n - 87)
  else None.

(** The longest run of digits: its value, its length, the rest. *)
Fixpoint read_digits (s : string) (acc : Z) (count : Z) : Z * Z * string :=
  match s with
  | String c s' =>
      match digit_of c with
      | Some d => read_digits s' (acc * 10 + d) (count + 1)
      | None => (acc, count, s)
      end
  | EmptyString => (acc, count, s)
  end.

(** [m * 10^e] *)
Definition decimal (m e : Z) : Q :=
  if 0 <=? e then inject_Z (m * 10 ^ e) else Qmake m (Z.to_pos (10 ^ (- e))).

Definition read_exponent (s : string) : option (Z * string) :=
  match s with
  | String c r =>
      if Ascii.eqb c "e" || Ascii.eqb c "E" then
        let '(sign, r1) :=
          match r with
          | String c1 r' =>
              if Ascii.eqb c1 "-" then (-1, r')
              else if Ascii.eqb c1 "+" then (1, r') else (1, r)
          | EmptyString => (1, r)
          end in
        let '(e, n, r2) := read_digits r1 0 0 in
        if n =? 0 then None else Some (sign * e, r2)
      else Some (0, s)
  | EmptyString => Some (0, s)
  end.

Definition read_fraction (s : string) : option (Z * Z * string) :=
  match s with
  | String c r =>
      if Ascii.eqb c "." then
        let '(f, n, r1) := read_digits r 0 0 in
        if n =? 0 then None else Some (f, n, r1)
      else Some (0, 0, s)
  | EmptyString => Some (0, 0, s)
  end.

(** A number literal, at its exact decimal value (the builtin rounds to the
    nearest double). *)
Definition read_number (s : string) : option (Q * string) :=
  let '(sign, s1) :=
    match s with
    | String c r => if Ascii.eqb c "-" then (-1, r) else (1, s)
    | EmptyString => (1, s)
    end in
  match s1 with
  | String c r =>
      match digit_of c with
      | None => None
      | Some d =>
          let '(i, _, s2) := if d =? 0 then (0, 1, r) else read_digits s1 0 0 in
          '(f, k, s3) ← read_fraction s2;
          '(e, s4) ← read_exponent s3;
          Some (decimal (sign * (i * 10 ^ k + f)) (e - k), s4)
      end
  | EmptyString => None
  end.

Definition byte (n : Z) : ascii := ascii_of_nat (Z.to_nat n).

(** The UTF-8 bytes of a code point (a lone surrogate is written like any
    other three-byte code point). *)
Definition utf8 (cp : Z) : string :=
  if cp <? 128 then String (byte cp) ""
  else if cp <? 2048 then
    String (byte (192 + cp / 64)) (String (byte (128 + cp mod 64)) "")
  else if cp <? 65536 then
    String (byte (224 + cp / 4096))
      (String (byte (128 + (cp / 64) mod 64)) (String (byte (128 + cp mod 64)) ""))
  else
    String (byte (240 + cp / 262144))
      (String (byte (128 + (cp / 4096) mod 64))
         (String (byte (128 + (cp / 64) mod 64)) (String (byte (128 + cp mod 64)) ""))).

(** Four hex digits: a UTF-16 code unit. *)
Definition read_hex4 (s : string) : option (Z * string) :=
  match s with
  | String a (String b (String c (String d r))) =>
      ha ← hex_of a; hb ← hex_of b; hc ← hex_of c; hd ← hex_of d;
      Some (ha * 4096 + hb * 256 + hc * 16 + hd, r)
  | _ => None
  end.

(** What follows [\u]: one code unit, or a surrogate pair. *)
Definition read_unicode (s : string) : option (string * string) :=
  '(u, r) ← read_hex4 s;
  if (55296 <=? u) && (u <=? 56319) then
    match r with
    | String b (String c r1) =>
        if Ascii.eqb b "\" && Ascii.eqb c "u" then
          match read_hex4 r1 with
          | Some (l, r2) =>
              if (56320 <=? l) && (l <=? 57343)
              then Some (utf8 (65536 + (u - 55296) * 1024 + (l - 56320)), r2)
              else Some (utf8 u, r)
          | None => Some (utf8 u, r)
          end
        else Some (utf8 u, r)
    | _ => Some (utf8 u, r)
    end
  else Some (utf8 u, r).

Definition read_escape (s : string) : option (string * string) :=
  match s with
  | String c r =>
      if Ascii.eqb c quote_char then Some (String c "", r)
      else if Ascii.eqb c "\" then Some (String c "", r)
      else if Ascii.eqb c "/" then Some (String c "", r)
      else if Ascii.eqb c "b" then Some (String (byte 8) "", r)
      else if Ascii.eqb c "f" then Some (String (byte 12) "", r)
      else if Ascii.eqb c "n" then Some (String (byte 10) "", r)
      else if Ascii.eqb c "r" then Some (String (byte 13) "", r)
      else if Ascii.eqb c "t" then Some (String (byte 9) "", r)
      else if Ascii.eqb c "u" then read_unicode r
      else None
  | EmptyString => None
  end.

(** The characters of a string literal after its opening quote. *)
Fixpoint read_string (fuel : nat) (s : string) : option (string * string) :=
  match fuel with
  | O => None
  | S fuel' =>
      match s with
      | EmptyString => None
      | String c r =>
          if Ascii.eqb c quote_char then Some ("", r)
          else if Ascii.eqb c "\" then
            '(t, r1) ← read_escape r;
            '(u, r2) ← read_string fuel' r1;
            Some (t +:+ u, r2)
          else if (nat_of_ascii c <? 32)%nat then None
          else
            '(u, r1) ← read_string fuel' r;
            Some (String c u, r1)
      end
  end.

Fixpoint all_digits (s : string) : bool :=
  match s with
  | EmptyString => true
  | String c r => match digit_of c with Some _ => all_digits r | None => false end
  end.

(** The array index a property key spells, if it is one: a canonical
    numeric string below 2^32 - 1. *)
Definition array_index (k : string) : option Z :=
  match k with
  | EmptyString => None
  | String c r =>
      if all_digits k && (negb (Ascii.eqb c "0") || String.eqb r "") then
        let '(n, _, _) := read_digits k 0 0 in
        if n <? 4294967295 then Some n else None
      else None
  end.

Fixpoint has_key (k : string) (props : list (string * JSValue)) : bool :=
  match props with
  | [] => false
  | (k', _) :: rest => String.eqb k k' || has_key k rest
  end.

Fixpoint replace_value (k : string) (v : JSValue) (props : list (string * JSValue))
  : list (string * JSValue) :=
  match props with
  | [] => []
  | (k', v') :: rest =>
      if String.eqb k k' then (k', v) :: rest else (k', v') :: replace_value k v rest
  end.

(** A new index key goes before the first key that is no index or a larger
    index. *)
Fixpoint insert_index (n : Z) (k : string) (v : JSValue) (props : list (string * JSValue))
  : list (string * JSValue) :=
  match props with
  | [] => [(k, v)]
  | (k', v') :: rest =>
      match array_index k' with
      | Some n' => if n' <? n then (k', v') :: insert_index n k v rest
                   else (k, v) :: props
      | None => (k, v) :: props
      end
  end.

(** Defining the property [k] on an object: a key that exists keeps its
    place and takes the new value; index keys enumerate first, in ascending
    order; other keys in the order they were created. *)
Definition define_property (k : string) (v : JSValue) (props : list (string * JSValue))
  : list (string * JSValue) :=
  if has_key k props then replace_value k v props
  else match array_index k with
       | Some n => insert_index n k v props
       | None => props ++ [(k, v)]
       end.

Definition read_key (s : string) : option (string * string) :=
  match s with
  | String c r =>
      if Ascii.eqb c quote_char then
        '(k, r1) ← read_string (S (String.length r)) r;
        match skip_ws r1 with
        | String c1 r2 => if Ascii.eqb c1 ":" then Some (k, r2) else None
        | EmptyString => None
        end
      else None
  | EmptyString => None
  end.

Fixpoint read_value (fuel : nat) (s : string) : option (JSValue * string) :=
  match fuel with
  | O => None
  | S fuel' =>
      match skip_ws s with
      | EmptyString => None
      | String c r as s0 =>
          if Ascii.eqb c "[" then
            match skip_ws r with
            | String c1 r1 as r0 =>
                if Ascii.eqb c1 "]" then Some (JArray [], r1)
                else '(v, r2) ← read_value fuel' r0; read_elements fuel' r2 [v]
            | EmptyString => None
            end
          else if Ascii.eqb c "{" then
            match skip_ws r with
            | String c1 r1 as r0 =>
                if Ascii.eqb c1 "}" then Some (JObject [], r1)
                else
                  '(k, r2) ← read_key r0;
                  '(v, r3) ← read_value fuel' r2;
                  read_members fuel' r3 (define_property k v [])
            | EmptyString => None
            end
          else if Ascii.eqb c quote_char then
            '(t, r1) ← read_string (S (String.length r)) r; Some (JString t, r1)
          else
            match strip_prefix "true" s0, strip_prefix "false" s0, strip_prefix "null" s0 with
            | Some r1, _, _ => Some (JBool true, r1)
            | _, Some r1, _ => Some (JBool false, r1)
            | _, _, Some r1 => Some (JNull, r1)
            | _, _, _ => '(q, r1) ← read_number s0; Some (JNumber q, r1)
            end
      end
  end
with read_elements (fuel : nat) (s : string) (acc : list JSValue)
  : option (JSValue * string) :=
  match fuel with
  | O => None
  | S fuel' =>
      match skip_ws s with
      | String c r =>
          if Ascii.eqb c "]" then Some (JArray (rev acc), r)
          else if Ascii.eqb c "," then
            '(v, r1) ← read_value fuel' r; read_elements fuel' r1 (v :: acc)
          else None
      | EmptyString => None
      end
  end
with read_members (fuel : nat) (s : string) (acc : list (string * JSValue))
  : option (JSValue * string) :=
  match fuel with
  | O => None
  | S fuel' =>
      match skip_ws s with
      | String c r =>
          if Ascii.eqb c "}" then Some (JObject acc, r)
          else if Ascii.eqb c "," then
            '(k, r1) ← read_key (skip_ws r);
            '(v, r2) ← read_value fuel' r1;
            read_members fuel' r2 (define_property k v acc)
          else None
      | EmptyString => None
      end
  end.

(** [JSON.parse(text)] for a string. *)
Definition parse_text (text : string) : option JSValue :=
  '(v, r) ← read_value (S (String.length text)) text;
  if String.eqb (skip_ws r) "" then Some v else None.

Fixpoint zeros (n : nat) : string :=
  match n with O => "" | S n' => String "0" (zeros n') end.

Fixpoint strip_trailing_zeros (s : string) : string :=
  match s with
  | EmptyString => ""
  | String c r =>
      match strip_trailing_zeros r with
      | EmptyString => if Ascii.eqb c "0" then "" else String c ""
      | t => String c t
      end
  end.

(** Number::toString in plain decimal notation (the builtin switches to
    exponent notation from 1e21 on and below 1e-6). *)
Definition Number_toString (q : Q) : string :=
  let d := Zpos (Qden q) in
  let k := Z.log2 d in
  let scaled := (Z.abs (Qnum q) * 10 ^ k) / d in
  let int_part := pretty (Z.to_N (scaled / 10 ^ k)) in
  let frac := pretty (Z.to_N (scaled mod 10 ^ k)) in
  let digits :=
    strip_trailing_zeros (zeros (Z.to_nat k - String.length frac) +:+ frac) in
  (if (Qnum q <? 0) && negb (scaled =? 0) then "-" else "")
  +:+ int_part
  +:+ (if String.eqb digits "" then "" else "." +:+ digits).

(** ToString; [None] where it throws (an object whose own [toString]
    shadows the inherited method with a value that cannot be called). *)
Fixpoint ToString (v : JSValue) : option string :=
  match v with
  | JUndefined => Some "undefined"
  | JNull => Some "null"
  | JBool b => Some (if b then "true" else "false")
  | JNumber q => Some (Number_toString q)
  | JString s => Some s
  | JObject props => if has_key "toString" props then None else Some "[object Object]"
  | JArray items =>
      (fix join (l : list JSValue) : option string :=
         match l with
         | [] => Some ""
         | x :: rest =>
             e ← match x with
                 | JUndefined | JNull => Some ""
                 | _ => ToString x
                 end;
             match rest with
             | [] => Some e
             | _ => t ← join rest; Some (e +:+ "," +:+ t)
             end
         end) items
  end.

(** [JSON.parse(value)] *)
Definition parse (value : JSValue) : option JSValue :=
  ToString value ≫= parse_text.

End JSON.

(** ** Vocabulary of the specification *)

(** The five content types, each with its slot in [activeComponents]. *)
Inductive ContentType : Type := Code | Data | Result | Error | Text.

Global Instance ContentType_eq_dec : EqDecision ContentType.
Proof. solve_decision. Defined.

(** Content-type normalization in the words of the specification: the four
    names select their slot, anything else is text. *)
Definition normalize (content_type : JSValue) : ContentType :=
  match content_type with
  | JString s =>
      if String.eqb s "code" then Code
      else if String.eqb s "data" then Data
      else if String.eqb s "result" then Result
      else if String.eqb s "error" then Error
      else Text
  | _ => Text
  end.

(** The section a slot is accumulating into: [None] when the slot is Absent
    or Finalized (the clients do not tell the two apart). *)
Definition slot (t : ContentType) (a : ActiveComponents) : option nat :=
  match t with
  | Code => code a
  | Data => container <$> data a
  | Result => result a
  | Error => error a
  | Text => text a
  end.

Definition class_of (t : ContentType) : string :=
  match t with
  | Code => "streaming-code-container"
  | Data => "streaming-data-container"
  | Result => "streaming-result-container"
  | Error => "streaming-error-container"
  | Text => "streaming-text-container"
  end.

Definition is_button (c : Child) : bool :=
  match c with Button _ => true | Div _ _ => false end.

(** The copy and export buttons a section carries: the visible finalize
    side effects. *)
Definition finalize_marks (n : SectionNode) : nat :=
  length (filter is_button (appended n)).

(** The error sections of the document. *)
Definition error_sections (s : ExcelAgent) : list SectionNode :=
  filter (fun n => className n = class_of Error) (sections s).

Section Vocabulary.
Variable JSON_parse : JSValue -> option JSValue.

(** The content handler of a slot. *)
Definition handleContent (t : ContentType) : JSValue -> JSValue -> M unit :=
  match t with
  | Code => handleCodeContent
  | Data => handleDataContent JSON_parse
  | Result => handleResultContent
  | Error => handleErrorContent
  | Text => handleTextContent
  end.

(** The [initialize...] method of a slot. *)
Definition initialize (t : ContentType) : M unit :=
  match t with
  | Code => initializeCodeBlock
  | Data => initializeDataTable
  | Result => initializeResultSection
  | Error => initializeErrorSection
  | Text => initializeTextSection
  end.

(** The [appendTo...] method of a slot. *)
Definition append (t : ContentType) : JSValue -> M unit :=
  match t with
  | Code => appendToCodeBlock
  | Data => appendToDataTable JSON_parse
  | Result => appendToResultSection
  | Error => appendToErrorSection
  | Text => appendToTextSection
  end.

(** The guard that opens [appendToDataTable]:
    [if (!this.activeComponents.data) this.initializeDataTable()]. *)
Definition ensureDataTable : M unit :=
  ac ← getComponents;
  if data ac is None then initializeDataTable else mret tt.

(** The [finalize...] method of a slot. *)
Definition finalize (t : ContentType) : M unit :=
  match t with
  | Code => finalizeCodeBlock
  | Data => finalizeDataTable
  | Result => finalizeResultSection
  | Error => finalizeErrorSection
  | Text => finalizeTextSection
  end.

End Vocabulary.

(** The JSON scalars: number, string, boolean, null. *)
Definition is_scalar (v : JSValue) : bool :=
  match v with
  | JNumber _ | JString _ | JBool _ | JNull => true
  | _ => false
  end.

(** References are typed and an accumulating section carries no finalize
    mark; no section carries more than one. *)
Record Inv (s : ExcelAgent) : Prop := {
  inv_typed : forall t el, slot t (activeComponents s) = Some el ->
      exists n, sections s !! el = Some n /\ className n = class_of t /\ finalize_marks n = 0;
  inv_once : forall j n, sections s !! j = Some n -> finalize_marks n <= 1
}.

(** The section of index [i] reads [x] and no slot refers to it. *)
Definition Detached (i : nat) (x : SectionNode) (s : ExcelAgent) : Prop :=
  sections s !! i = Some x /\ forall t, slot t (activeComponents s) <> Some i.

(** What the invariants run over: [Inv], and for a watched section [i]
    with contents [x] also [Detached i x]. *)
Definition Kept (F : option (nat * SectionNode)) (s : ExcelAgent) : Prop :=
  Inv s /\ match F with
           | Some (i, x) => Detached i x s
           | None => True
           end.

(** The index [el] is not the watched one. *)
Definition avoids (F : option (nat * SectionNode)) (el : nat) : Prop :=
  match F with Some (i, _) => el <> i | None => True end.

(** A write to a section that leaves its class and its finalize marks. *)
Definition benign (f : SectionNode -> SectionNode) : Prop :=
  forall n, className (f n) = className n /\ finalize_marks (f n) = finalize_marks n.

(** A method keeps [P], whether it returns or throws. *)
Definition preserves {A} (P : ExcelAgent -> Prop) (m : M A) : Prop :=
  forall s, P s -> P (state_of (m s)).

(** A method stays inside the relation [R], whether it returns or throws. *)
Definition stable {A} (R : relation ExcelAgent) (m : M A) : Prop :=
  forall s, R s (state_of (m s)).

(** Slots and the number of sections stay as they are. *)
Definition same_slots (s s' : ExcelAgent) : Prop :=
  (forall t, slot t (activeComponents s') = slot t (activeComponents s))
  /\ length (sections s') = length (sections s).

(** Headers of all sections and the active components stay as they are. *)
Definition same_headers (s s' : ExcelAgent) : Prop :=
  activeComponents s' = activeComponents s
  /\ (header <$> sections s') = (header <$> sections s).

(** No accumulating slot stops accumulating. *)
Definition no_slot_cleared (s s' : ExcelAgent) : Prop :=
  forall t, is_Some (slot t (activeComponents s)) ->
            is_Some (slot t (activeComponents s')).

(** ** Scenarios *)

(** An open streaming message with nothing in it. *)
Definition probe : ExcelAgent :=
  set_currentStreamingMessage (Some 0)
    (set_messages (fun _ => [{| contentClasses := []; children := [] |}]) newAgent).

(** The EventSource client after a question was submitted. *)
Definition asked : ExcelAgent := SSE.run JSON.parse [SSE.Ask] newAgent.

(** [s] between double quotes. *)
Definition quoted (s : string) : string :=
  String quote_char s +:+ String quote_char "".

(** The text of an envelope with the given code, whose data holds the four
    message fields; [answer] is text without quotes or backslashes. *)
Definition frame (code_ content_type content_status answer finished : string) : string :=
  "{" +:+ quoted "code" +:+ ":" +:+ code_ +:+ ","
  +:+ quoted "data" +:+ ":{"
  +:+ quoted "answer" +:+ ":" +:+ quoted answer +:+ ","
  +:+ quoted "finished" +:+ ":" +:+ finished +:+ ","
  +:+ quoted "content_type" +:+ ":" +:+ quoted content_type +:+ ","
  +:+ quoted "content_status" +:+ ":" +:+ quoted content_status +:+ "}}".

(** An envelope that signals an upstream failure. *)
Definition upstream_failure : string :=
  frame "1" "text" "in_progress" "quota exceeded" "0".

(** The two fragments of the header example and what they parse to. *)
Definition fragment_ab (x y : string) : string :=
  "[{" +:+ quoted "a" +:+ ":" +:+ x +:+ "," +:+ quoted "b" +:+ ":" +:+ y +:+ "}]".
Definition fragment_ab12 : string := fragment_ab "1" "2".
Definition fragment_ab34 : string := fragment_ab "3" "4".
Definition records_ab (x y : Z) : JSValue :=
  JArray [JObject [("a", JNumber (inject_Z x)); ("b", JNumber (inject_Z y))]].

(** One session of the EventSource client that leaves its code section
    open: a question, a code section with one fragment, and a text message
    that carries [finished: 1]. *)
Definition unfinished_code_session : list SSE.Event :=
  [ SSE.Ask;
    SSE.Receive (frame "0" "code" "start" "" "0");
    SSE.Receive (frame "0" "code" "in_progress" "a=1" "0");
    SSE.Receive (frame "0" "text" "in_progress" "done" "1") ].

(** A second question, answered by a code fragment with no 'start' before
    it. *)
Definition next_session_fragment : list SSE.Event :=
  [ SSE.Ask;
    SSE.Receive (frame "0" "code" "in_progress" "b=2" "0") ].

(** A session whose code section is closed by its own 'end', and that
    section as the session leaves it. *)
Definition finalized_code_session : list SSE.Event :=
  [ SSE.Ask;
    SSE.Receive (frame "0" "code" "start" "" "0");
    SSE.Receive (frame "0" "code" "in_progress" "a=1" "0");
    SSE.Receive (frame "0" "code" "end" "" "0") ].

Definition finalized_code_section : SectionNode :=
  {| className := "streaming-code-container"; classList := [];
     textContent := "a=1"; header := []; body := []; content := [];
     appended := [Button "copy-button"] |}.

(** ** Vocabulary for the text rewrites *)

(** The character [c] does not occur in [s]. *)
Fixpoint no_char (c : ascii) (s : string) : bool :=
  match s with
  | EmptyString => true
  | String a s' => negb (Ascii.eqb a c) && no_char c s'
  end.

(** No line terminator (LF, CR, U+2028, U+2029) starts anywhere in [s]. *)
Fixpoint one_line (s : string) : bool :=
  match s with
  | EmptyString => true
  | String _ s' => negb (at_line_terminator s) && one_line s'
  end.

Definition star : ascii := "*"%char.
Definition backtick : ascii := "`"%char.
Definition line_feed : ascii := "010"%char.

(** ** Vocabulary for sequences of fragments *)

(** The strings of [l] one after the other. *)
Definition joined (l : list string) : string := foldr String.append "" l.

(** Several children appended to the content element, in order. *)
Definition add_contents (cs : list Child) (n : SectionNode) : SectionNode :=
  {| className := className n; classList := classList n;
     textContent := textContent n; header := header n; body := body n;
     content := content n ++ cs; appended := appended n |}.

(** Several rows appended to the table body, in order. *)
Definition add_body_rows (rows : list (list JSValue)) (n : SectionNode) : SectionNode :=
  {| className := className n; classList := classList n;
     textContent := textContent n; header := header n; body := body n ++ rows;
     content := content n; appended := appended n |}.

(** The class of the block a result, error or text fragment becomes. *)
Definition block_class (t : ContentType) : option string :=
  match t with
  | Result => Some "result-text"
  | Error => Some "error-text"
  | Text => Some "text-segment"
  | Code | Data => None
  end.

(** The cells of the table row an array element becomes: the values of a
    record or an inner array, each through [cell || ''], and no cell at all
    for a number, a string or a boolean. *)
Definition cells_of (row : JSValue) : list JSValue :=
  match row with
  | JArray cells => or_empty <$> cells
  | JObject props => or_empty <$> (snd <$> props)
  | _ => []
  end.

(** What [renderDataTable] makes of a section when it is handed an array
    with no [null] in it: a header row from the keys of the first element if
    the header is not there yet and that element is an object or an array,
    then one body row per element. *)
Definition rendered_array (initialized : bool) (items : list JSValue)
    (n : SectionNode) : SectionNode :=
  add_body_rows (cells_of <$> items)
    match items with
    | first :: _ =>
        if negb initialized && String.eqb (typeof first) "object"
        then match Object_keys first with
             | Some keys => add_header_row keys n
             | None => n
             end
        else n
    | [] => n
    end.

(** The [headerInitialized] flag after such a call. *)
Definition header_after (initialized : bool) (items : list JSValue) : bool :=
  initialized
  || match items with
     | first :: _ => String.eqb (typeof first) "object"
     | [] => false
     end.

(** Two data fragments: an array that mixes an object, an array and a
    number, and an array with a [null] in the middle; and the data table
    they are appended to, just opened. *)
Definition fragment_mixed : string := "[{" +:+ quoted "a" +:+ ":1},[2,3],4]".
Definition rows_mixed : list JSValue :=
  [JObject [("a", JNumber (inject_Z 1))];
   JArray [JNumber (inject_Z 2); JNumber (inject_Z 3)];
   JNumber (inject_Z 4)].
Definition fresh_table : DataTable := {| container := 0; headerInitialized := false |}.
Definition table_opened : ExcelAgent := state_of (initializeDataTable asked).

(** The session around the content handlers: the streaming message, the
    EventSource, the promise, the loading indicator, the log, and the class
    lists of the streaming messages. *)
Definition same_session (s s' : ExcelAgent) : Prop :=
  currentStreamingMessage s' = currentStreamingMessage s
  /\ eventSource s' = eventSource s
  /\ promise s' = promise s
  /\ loading s' = loading s
  /\ console s' = console s
  /\ (contentClasses <$> messages s') = (contentClasses <$> messages s).

(** The class list [createStreamingMessage] gives the content element it
    returns; the class [streaming-message] goes to the parent element. *)
Definition streaming_content_classes : list string :=
  ["message-content"; "streaming-content"].

(** Every streaming message has the class list it was created with. *)
Definition unmarked (s : ExcelAgent) : Prop :=
  Forall (fun msg => contentClasses msg = streaming_content_classes) (messages s).

(** The state a frame leaves when the callback catches [e]: the
    EventSource client logs, rejects the promise if it is pending and then
    hides the loading indicator; the WebSocket client only logs. *)
Definition SSE_caught (e : Exn) (s : ExcelAgent) : ExcelAgent :=
  let logged := set_console (fun l => l ++ ["Error parsing SSE data:"]) s in
  match promise s with
  | Pending => set_loading false (set_promise (Rejected e) logged)
  | _ => logged
  end.

Definition WS_caught (s : ExcelAgent) : ExcelAgent :=
  set_console (fun l => l ++ ["Error parsing WebSocket message:"]) s.



(** A frame with [finished: 1] and no [answer]. *)
Definition frame_without_answer : string :=
  "{" +:+ quoted "code" +:+ ":0," +:+ quoted "data" +:+ ":{"
  +:+ quoted "finished" +:+ ":1,"
  +:+ quoted "content_type" +:+ ":" +:+ quoted "text" +:+ ","
  +:+ quoted "content_status" +:+ ":" +:+ quoted "in_progress" +:+ "}}".

(** A last text message. *)
Definition frame_done : string := frame "0" "text" "in_progress" "done" "1".

(** ** The buttons a finalize leaves behind *)

(** [copyButton.onclick]: the text handed to [copyToClipboard].  The arrow
    function reads [this.activeComponents.code] when the button is clicked,
    not when the button is made.  (A reference always denotes an element:
    the lookup fails on no state the clients reach.) *)
Definition copyButton_onclick : M string :=
  ac ← getComponents;
  el ← or_TypeError (code ac);
  s ← get;
  n ← or_TypeError (sections s !! el);
  mret (textContent n).

(** [array.join(sep)] on strings. *)
Fixpoint join_with (sep : string) (l : list string) : string :=
  match l with
  | [] => ""
  | [x] => x
  | x :: rest => x +:+ sep +:+ join_with sep rest
  end.

Section ExportButton.
(** The text a cell shows ([innerText]) for the value assigned to its
    [textContent]. *)
Variable innerText : JSValue -> string.

Definition csv_row (cells : list JSValue) : string :=
  join_with "," ((fun cell => quoted (innerText cell)) <$> cells).

(** The rows of the table in document order: the header rows, then the body
    rows. *)
Definition csv_of (n : SectionNode) : string :=
  join_with (String line_feed "")
    (csv_row <$> (((fun cells : list string => JString <$> cells) <$> header n)
                  ++ body n)).

(** [exportTableToCSV()], the [onclick] of the export button: the content of
    the file it offers for download (in a browser whose links have a
    [download] attribute), [None] when it returns before building one. *)
Definition exportTableToCSV : M (option string) :=
  ac ← getComponents;
  match data ac with
  | None => mret None
  | Some table =>
      s ← get;
      n ← or_TypeError (sections s !! container table);
      mret (Some (csv_of n))
  end.

End ExportButton.

(** What a handler for another slot leaves of the slot [t] at [el]: the
    reference, the section it refers to, and for the data slot the table
    record. *)
Definition untouched (t : ContentType) (el : nat) (n : SectionNode)
    (s s' : ExcelAgent) : Prop :=
  slot t (activeComponents s') = Some el
  /\ sections s' !! el = Some n
  /\ (t = Data -> data (activeComponents s') = data (activeComponents s)).


(** The data table is at [c], and the slot [t] still refers to [el], which
    still reads [n]. *)
Definition beside_table (c : nat) (t : ContentType) (el : nat) (n : SectionNode)
    (s : ExcelAgent) : Prop :=
  (container <$> data (activeComponents s)) = Some c
  /\ slot t (activeComponents s) = Some el
  /\ sections s !! el = Some n.

(** A code section that is accumulating, and a text message that arrives
    meanwhile. *)
Definition code_open_session : list SSE.Event :=
  [ SSE.Ask;
    SSE.Receive (frame "0" "code" "start" "" "0");
    SSE.Receive (frame "0" "code" "in_progress" "a=1" "0") ].

Definition open_code_section : SectionNode :=
  {| className := "streaming-code-container"; classList := [];
     textContent := "a=1"; header := []; body := []; content := [];
     appended := [] |}.

(** What [renderDataTable] makes of a section when it is handed one object:
    a header row from its keys if the header is not there yet, then one body
    row from its values. *)
Definition rendered_object (initialized : bool) (props : list (string * JSValue))
    (n : SectionNode) : SectionNode :=
  add_body_row (or_empty <$> (snd <$> props))
    (if initialized then n else add_header_row (fst <$> props) n).

(** An object fragment. *)
Definition fragment_object : string :=
  "{" +:+ quoted "a" +:+ ":1," +:+ quoted "b" +:+ ":0}".

(** A cell as [cell || ''] leaves it: a truthy value, or the empty string. *)
Definition shown (cell : JSValue) : Prop :=
  truthy cell = true \/ cell = JString "".

(** Every body cell of every table is one [cell || ''] left. *)
Definition cells_shown (n : SectionNode) : Prop :=
  Forall (Forall shown) (body n).

Definition tables_shown (s : ExcelAgent) : Prop :=
  Forall cells_shown (sections s).

(** Every cell of the row is a JSON scalar.  ([td.textContent = cell || '']
    turns the cell into text; on a scalar that never fails.  A cell that is
    itself an object or an array is turned into text by its own conversion,
    which is outside this model.) *)
Definition scalar_row (row : JSValue) : Prop :=
  Forall (fun cell => is_scalar cell = true) (cells_of row).

(** A table whose only row holds a zero, as one session leaves it. *)
Definition zero_cell_session : list SSE.Event :=
  [ SSE.Ask;
    SSE.Receive (frame "0" "data" "in_progress" "[[0,1]]" "0") ].

Definition zero_cell_section : SectionNode :=
  {| className := "streaming-data-container"; classList := [];
     textContent := ""; header := [["0"; "1"]];
     body := [[JString ""; JNumber (inject_Z 1)]]; content := [];
     appended := [] |}.

(** The text of a cell, by the reference conversion. *)
Definition cell_text (cell : JSValue) : string := default "" (JSON.ToString cell).

(** * The start script ([start.sh])

    [parse_args] reads the command line into three shell variables.  Its
    messages on standard output are left out; an [exit] is kept with its
    status. *)

Module StartScript.

Record Variables : Type := {
  START_FRONTEND : bool;
  FRONTEND_PORT : string;
  BACKEND_PORT : string
}.

(** The default values the script sets before it parses. *)
Definition defaults : Variables :=
  {| START_FRONTEND := false; FRONTEND_PORT := "3000"; BACKEND_PORT := "8000" |}.

(** How [parse_args] ends: it returns to [main], or the script exits. *)
Inductive Ending : Type :=
| Returned (v : Variables)
| Exited (status : nat).

(** ["$2"]: empty when there is no second positional parameter. *)
Definition second (args : list string) : string :=
  match args with
  | _ :: value :: _ => value
  | _ => ""
  end.

(** [shift 2]: with fewer than two positional parameters the builtin fails
    and leaves them as they are (the script does not run under [set -e]). *)
Definition shift_2 (args : list string) : list string :=
  match args with
  | _ :: _ :: rest => rest
  | _ => args
  end.

(** One pass of the loop body, [case $1 in ... esac], on a non-empty
    argument list: the parameters and variables it leaves, or the status it
    exits with. *)
Definition case_1 (first : string) (args : list string) (v : Variables)
    : list string * Variables + nat :=
  if String.eqb first "--frontend" then
    inl (tail args,
         {| START_FRONTEND := true; FRONTEND_PORT := FRONTEND_PORT v;
            BACKEND_PORT := BACKEND_PORT v |})
  else if String.eqb first "--frontend-port" then
    inl (shift_2 args,
         {| START_FRONTEND := START_FRONTEND v; FRONTEND_PORT := second args;
            BACKEND_PORT := BACKEND_PORT v |})
  else if String.eqb first "--backend-port" then
    inl (shift_2 args,
         {| START_FRONTEND := START_FRONTEND v; FRONTEND_PORT := FRONTEND_PORT v;
            BACKEND_PORT := second args |})
  else if String.eqb first "-h" || String.eqb first "--help" then inr 0
  else inr 1.

(** [while [[ $# -gt 0 ]]; do case $1 in ... esac; done], with [fuel]
    bounding the passes: [None] when they do not suffice. *)
Fixpoint parse_args (fuel : nat) (args : list string) (v : Variables)
    : option Ending :=
  match args with
  | [] => Some (Returned v)
  | first :: _ =>
      match fuel with
      | O => None
      | S fuel' =>
          match case_1 first args v with
          | inl (args', v') => parse_args fuel' args' v'
          | inr status => Some (Exited status)
          end
      end
  end.

(** A port option is reached as the last argument, with no value after it. *)
Fixpoint dangling (args : list string) : bool :=
  match args with
  | [] => false
  | first :: rest =>
      if String.eqb first "--frontend" then dangling rest
      else if String.eqb first "--frontend-port" || String.eqb first "--backend-port"
      then match rest with
           | [] => true
           | _ :: rest' => dangling rest'
           end
      else false
  end.

End StartScript.

(** Text that highlighting gives back as it is: printable ASCII characters,
    tabs and line feeds. *)
Definition plain_char (c : ascii) : bool :=
  let n := nat_of_ascii c in
  Nat.eqb n 9 || Nat.eqb n 10 || (Nat.leb 32 n && Nat.leb n 126).

Fixpoint plain_code (s : string) : bool :=
  match s with
  | EmptyString => true
  | String c s' => plain_char c && plain_code s'
  end.

(** A data fragment whose one row holds falsy cells. *)
Definition fragment_falsy_row : string := "[[0,false,null,1]]".
(** * Properties *)

(** ** Running a method by hand *)

Ltac unfold_monad :=
  unfold mbind, mret, M_bind, M_ret, bind, ret, throw, try_catch, or_TypeError,
    getComponents, setComponent, updateSection, modify, get in *.

Ltac unfold_methods :=
  unfold handleCodeContent, handleDataContent, handleResultContent,
    handleErrorContent, handleTextContent,
    initializeCodeBlock, initializeDataTable, initializeResultSection,
    initializeErrorSection, initializeTextSection,
    finalizeCodeBlock, finalizeDataTable, finalizeResultSection,
    finalizeErrorSection, finalizeTextSection,
    appendToCodeBlock, appendToResultSection, appendToErrorSection,
    appendToTextSection, appendToDataTable, formatText in *.

Section Dispatch.
Variable JSON_parse : JSValue -> option JSValue.

Lemma dispatch_normalize content_type answer status :
  dispatch JSON_parse content_type answer status
  = handleContent JSON_parse (normalize content_type) answer status.
Proof.
  unfold dispatch, normalize, is_string.
  destruct content_type; try reflexivity.
  repeat (case_match; try reflexivity).
Qed.

(** An ['end'] for a slot that is not accumulating does nothing. *)
Lemma end_without_section t answer s :
  slot t (activeComponents s) = None ->
  handleContent JSON_parse t answer (JString "end") s = Done tt s.
Proof.
  intros H. destruct s as [ms ss cur [c d r e x] ld es pr co].
  destruct t; simpl in H; unfold handleContent; unfold_methods; unfold_monad;
    simpl; try destruct d; simplify_eq/=; reflexivity.
Qed.

(** After an ['end'] the slot is not accumulating. *)
Lemma end_clears_slot t answer s :
  slot t (activeComponents (state_of (handleContent JSON_parse t answer (JString "end") s))) = None.
Proof.
  destruct s as [ms ss cur [c d r e x] ld es pr co].
  destruct t; unfold handleContent; unfold_methods; unfold_monad; simpl;
    repeat case_match; reflexivity.
Qed.

End Dispatch.

(** ** C4: content-type normalization *)

(** C4. Content-type normalization is total: the [switch] of the message
    handlers sends every [content_type] value to the handler of exactly one
    of the five slots (the one [normalize] names, and no other slot's handler
    behaves like it), and a value that is none of 'code', 'data', 'result',
    'error' -- absent, unrecognized, not a string -- goes to the text slot. *)
Theorem content_type_normalization_total
    (JSON_parse : JSValue -> option JSValue) (content_type : JSValue) :
  (forall answer status,
      dispatch JSON_parse content_type answer status
      = handleContent JSON_parse (normalize content_type) answer status)
  /\ (forall t,
        (forall answer status s,
            dispatch JSON_parse content_type answer status s
            = handleContent JSON_parse t answer status s) ->
        t = normalize content_type)
  /\ (is_string content_type "code" = false ->
      is_string content_type "data" = false ->
      is_string content_type "result" = false ->
      is_string content_type "error" = false ->
      normalize content_type = Text
      /\ forall answer status,
           dispatch JSON_parse content_type answer status
           = handleTextContent answer status).
Proof.
  split; [ apply dispatch_normalize | split ].
  - intros t H.
    specialize (H JUndefined (JString "start") probe).
    rewrite dispatch_normalize in H.
    destruct t, (normalize content_type); try reflexivity;
      vm_compute in H; discriminate H.
  - intros Hc Hd Hr He. split.
    + unfold normalize, is_string in *. destruct content_type; try reflexivity.
      by rewrite Hc, Hd, Hr, He.
    + intros answer status. unfold dispatch. by rewrite Hc, Hd, Hr, He.
Qed.

Lemma content_type_normalization_total_witness :
  normalize (JString "table") = Text
  /\ forall answer status,
       dispatch JSON.parse (JString "table") answer status
       = handleTextContent answer status.
Proof.
  apply (content_type_normalization_total JSON.parse (JString "table"));
    reflexivity.
Defined.

(** ** C3: ['end'] on an absent slot *)

(** C3, as the code has it. For every content type, a message with
    content_status 'end' arriving while that type's slot is Absent is a
    no-op: neither the initialize nor the finalize side effect runs, no
    section is created and the fragment is ignored. *)
Theorem end_on_absent_slot_is_noop
    (JSON_parse : JSValue -> option JSValue) (content_type answer : JSValue)
    (s : ExcelAgent) :
  slot (normalize content_type) (activeComponents s) = None ->
  dispatch JSON_parse content_type answer (JString "end") s = Done tt s.
Proof.
  intros H. rewrite dispatch_normalize. by apply end_without_section.
Qed.

Lemma end_on_absent_slot_is_noop_witness :
  dispatch JSON.parse (JString "data") (JString "[1]") (JString "end") probe
  = Done tt probe.
Proof.
  apply (end_on_absent_slot_is_noop JSON.parse (JString "data") (JString "[1]") probe).
  reflexivity.
Defined.

(** C3 refuted as stated: on an open streaming message with no code section,
    an 'end' for code carrying the fragment ["x=1"] creates no section (the
    initialize side effect does not run), appends no copy button (the
    finalize side effect does not run) and drops the fragment. *)
Lemma end_on_absent_slot_initializes_nothing :
  code (activeComponents probe) = None
  /\ sections (state_of (dispatch JSON.parse (JString "code") (JString "x=1")
                           (JString "end") probe)) = [].
Proof. split; reflexivity. Qed.

(** ** Methods that stay inside a preorder on client states *)

Section Stable.
Context (R : relation ExcelAgent) `{!PreOrder R}.

Lemma stable_ret {A} (a : A) : stable R (mret a).
Proof. intros s. simpl. reflexivity. Qed.

Lemma stable_throw {A} e : stable R (throw e : M A).
Proof. intros s. simpl. reflexivity. Qed.

Lemma stable_bind {A B} (m : M A) (k : A -> M B) :
  stable R m -> (forall a, stable R (k a)) -> stable R (m ≫= k).
Proof.
  intros Hm Hk s. specialize (Hm s). unfold mbind, M_bind, bind.
  destruct (m s) as [a s'|e s']; simpl in *; [|done].
  etrans; [exact Hm | apply Hk].
Qed.

Lemma stable_try_catch {A} (m : M A) (h : Exn -> M A) :
  stable R m -> (forall e, stable R (h e)) -> stable R (try_catch m h).
Proof.
  intros Hm Hh s. specialize (Hm s). unfold try_catch.
  destruct (m s) as [a s'|e s']; simpl in *; [done|].
  etrans; [exact Hm | apply Hh].
Qed.

Lemma stable_or_TypeError {A} (o : option A) : stable R (or_TypeError o).
Proof. destruct o; [apply stable_ret | apply stable_throw]. Qed.

Lemma stable_getComponents : stable R getComponents.
Proof. intros s. simpl. reflexivity. Qed.

Lemma stable_get : stable R get.
Proof. intros s. simpl. reflexivity. Qed.

Lemma stable_forEach {A} (l : list A) (f : A -> M unit) :
  (forall x, stable R (f x)) -> stable R (forEach l f).
Proof.
  intros Hf. induction l as [|x l IH]; simpl.
  - apply stable_ret.
  - apply stable_bind; [apply Hf | intros _; exact IH].
Qed.

Lemma stable_formatText text_ : stable R (formatText text_).
Proof.
  unfold formatText. apply stable_bind; [apply stable_or_TypeError|].
  intros a. apply stable_ret.
Qed.

End Stable.

Ltac stable_step :=
  lazymatch goal with
  | |- stable _ (mret _) => apply stable_ret; apply _
  | |- stable _ (throw _) => apply stable_throw; apply _
  | |- stable _ (or_TypeError _) => apply stable_or_TypeError; apply _
  | |- stable _ getComponents => apply stable_getComponents; apply _
  | |- stable _ get => apply stable_get; apply _
  | |- stable _ (formatText _) => apply stable_formatText; apply _
  | |- stable _ (_ ≫= _) => apply stable_bind; [apply _| |intros ?]
  | |- stable _ (try_catch _ _) => apply stable_try_catch; [apply _| |intros ?]
  | |- stable _ (forEach _ _) => apply stable_forEach; [apply _|intros ?]
  | |- stable _ (match ?x with _ => _ end) => destruct x
  | |- stable _ (let _ := _ in _) => cbv zeta
  end.

Global Instance same_slots_preorder : PreOrder same_slots.
Proof.
  split.
  - intros s. by split.
  - intros s1 s2 s3 [H1 L1] [H2 L2]. split.
    + intros t. by rewrite H2, H1.
    + by rewrite L2, L1.
Qed.

Lemma updateSection_same_slots el f : stable same_slots (updateSection el f).
Proof.
  intros s. split; [done|]. simpl. apply length_alter.
Qed.

Lemma setHeaderInitialized_same_slots : stable same_slots setHeaderInitialized.
Proof.
  intros s. unfold setHeaderInitialized.
  destruct (data (activeComponents s)) as [table|] eqn:E; simpl; [|done].
  split; [|done]. intros t. destruct t; simpl; try done. by rewrite E.
Qed.

Section Rendering.
Variable JSON_parse : JSValue -> option JSValue.

Lemma renderDataTable_same_slots v : stable same_slots (renderDataTable v).
Proof.
  unfold renderDataTable, initializeHeader, renderRow.
  repeat first [ apply updateSection_same_slots
               | apply setHeaderInitialized_same_slots
               | stable_step ].
Qed.

Lemma renderDataTableAsText_same_slots v : stable same_slots (renderDataTableAsText v).
Proof.
  unfold renderDataTableAsText.
  repeat first [ apply updateSection_same_slots | stable_step ].
Qed.

(** The part of [appendToDataTable] after the table is in place. *)
Lemma parse_and_render_same_slots v :
  stable same_slots
    (try_catch
       (match JSON_parse v with
        | Some parsedData => renderDataTable parsedData
        | None => throw SyntaxError
        end)
       (fun _ => renderDataTableAsText v)).
Proof.
  apply stable_try_catch; [apply _| |intros _; apply renderDataTableAsText_same_slots].
  destruct (JSON_parse v); [apply renderDataTable_same_slots | apply stable_throw, _].
Qed.

(** The four branches of a content handler. *)
Lemma handleContent_cases t answer status :
  handleContent JSON_parse t answer status
  = if is_string status "start" then initialize t
    else if is_string status "in_progress" then append JSON_parse t answer
    else if is_string status "end" then finalize t
    else append JSON_parse t answer.
Proof. by destruct t. Qed.

Lemma handleContent_append t answer status :
  is_string status "start" = false ->
  is_string status "end" = false ->
  handleContent JSON_parse t answer status = append JSON_parse t answer.
Proof.
  intros Hs He. rewrite handleContent_cases, Hs, He.
  by destruct (is_string status "in_progress").
Qed.

(** Appending to an accumulating slot keeps the slot's section and creates
    no section, whether the method returns or throws. *)
Lemma append_keeps_section t answer s el :
  slot t (activeComponents s) = Some el ->
  same_slots s (state_of (append JSON_parse t answer s)).
Proof.
  intros Hel.
  assert (Hu : forall el f, same_slots s (state_of (updateSection el f s)))
    by (intros; apply updateSection_same_slots).
  destruct t; unfold append; simpl in Hel.
  - unfold appendToCodeBlock. unfold_monad. simpl. rewrite Hel.
    destruct (as_string answer); simpl; [|reflexivity]. rewrite Hel. apply Hu.
  - unfold appendToDataTable.
    destruct (data (activeComponents s)) as [table|] eqn:E; [|done].
    pose proof (parse_and_render_same_slots answer s) as H.
    unfold mbind, M_bind, bind, getComponents, mret, M_ret, ret. simpl.
    rewrite E. exact H.
  - unfold appendToResultSection, formatText. unfold_monad. simpl. rewrite Hel.
    destruct (as_string answer); simpl; [|reflexivity]. rewrite Hel. apply Hu.
  - unfold appendToErrorSection, formatText. unfold_monad. simpl. rewrite Hel.
    destruct (as_string answer); simpl; [|reflexivity]. rewrite Hel. apply Hu.
  - unfold appendToTextSection, formatText. unfold_monad. simpl. rewrite Hel.
    destruct (as_string answer); simpl; [|reflexivity]. rewrite Hel. apply Hu.
Qed.

End Rendering.

(** ** C5: a status that is absent or unrecognized *)

(** C5. For every content type and every message whose content_status is
    absent or not one of 'start', 'in_progress', 'end', the message is
    handled exactly as 'in_progress' is, by the slot's append method, never
    by its initialize method; when the slot is already accumulating, the
    slot keeps its section and no section is created. *)
Theorem unrecognized_status_appends
    (JSON_parse : JSValue -> option JSValue) (content_type answer status : JSValue) :
  is_string status "start" = false ->
  is_string status "in_progress" = false ->
  is_string status "end" = false ->
  dispatch JSON_parse content_type answer status
  = dispatch JSON_parse content_type answer (JString "in_progress")
  /\ dispatch JSON_parse content_type answer status
     = append JSON_parse (normalize content_type) answer
  /\ forall s el,
       slot (normalize content_type) (activeComponents s) = Some el ->
       slot (normalize content_type)
         (activeComponents (state_of (dispatch JSON_parse content_type answer status s)))
       = Some el
       /\ length (sections (state_of (dispatch JSON_parse content_type answer status s)))
          = length (sections s).
Proof.
  intros Hs Hp He.
  assert (Ha : dispatch JSON_parse content_type answer status
               = append JSON_parse (normalize content_type) answer)
    by (rewrite dispatch_normalize; by apply handleContent_append).
  split; [|split; [exact Ha|]].
  - rewrite Ha, dispatch_normalize. symmetry. by apply handleContent_append.
  - intros s el Hel. rewrite Ha.
    destruct (append_keeps_section JSON_parse _ answer s el Hel) as [Hslots Hlen].
    split; [by rewrite Hslots | exact Hlen].
Qed.

Lemma unrecognized_status_appends_witness :
  dispatch JSON.parse (JString "code") (JString "x=1") JUndefined
  = dispatch JSON.parse (JString "code") (JString "x=1") (JString "in_progress")
  /\ dispatch JSON.parse (JString "code") (JString "x=1") JUndefined
     = append JSON.parse (normalize (JString "code")) (JString "x=1")
  /\ forall s el,
       slot (normalize (JString "code")) (activeComponents s) = Some el ->
       slot (normalize (JString "code"))
         (activeComponents
            (state_of (dispatch JSON.parse (JString "code") (JString "x=1") JUndefined s)))
       = Some el
       /\ length (sections
            (state_of (dispatch JSON.parse (JString "code") (JString "x=1") JUndefined s)))
          = length (sections s).
Proof.
  apply (unrecognized_status_appends JSON.parse (JString "code") (JString "x=1") JUndefined);
    reflexivity.
Defined.

(** ** C6: a second ['end'] *)

(** C6. Finalization is idempotent: for every content type, an 'end'
    message returns normally, and a second 'end' for that slot right after
    it returns normally too and leaves the client as it was -- no second
    copy or export button, no other change. *)
Theorem second_end_is_noop
    (JSON_parse : JSValue -> option JSValue)
    (content_type answer1 answer2 : JSValue) (s : ExcelAgent) :
  returns (dispatch JSON_parse content_type answer1 (JString "end") s) = true
  /\ dispatch JSON_parse content_type answer2 (JString "end")
       (state_of (dispatch JSON_parse content_type answer1 (JString "end") s))
     = Done tt (state_of (dispatch JSON_parse content_type answer1 (JString "end") s)).
Proof.
  rewrite !dispatch_normalize. split.
  - destruct s as [ms ss cur [c d r e x] ld es pr co].
    destruct (normalize content_type); unfold handleContent; unfold_methods;
      unfold_monad; simpl; repeat case_match; reflexivity.
  - apply end_without_section, end_clears_slot.
Qed.

(** ** C1: an envelope whose code is not zero *)

(** C1, as the code has it. For every inbound envelope whose code field is
    not the number zero, both clients ignore the envelope: the callback
    returns with the client unchanged, so the envelope's data is not
    dispatched to a content slot, and nothing is rendered or logged (no
    error section). *)
Theorem nonzero_code_is_ignored
    (JSON_parse : JSValue -> option JSValue) (event_data : string)
    (envelope code_ : JSValue) (s : ExcelAgent) :
  JSON_parse (JString event_data) = Some envelope ->
  get_prop envelope "code" = Some code_ ->
  is_number code_ 0 = false ->
  SSE.onmessage JSON_parse event_data s = Done tt s
  /\ WS.onmessage JSON_parse event_data s = Done tt s.
Proof.
  intros Hparse Hcode Hnz.
  unfold SSE.onmessage, WS.onmessage. unfold_monad.
  rewrite Hparse. cbn beta iota. rewrite Hcode. unfold ret. cbn beta iota.
  by rewrite Hnz.
Qed.

Lemma nonzero_code_is_ignored_witness :
  SSE.onmessage JSON.parse upstream_failure asked = Done tt asked
  /\ WS.onmessage JSON.parse upstream_failure asked = Done tt asked.
Proof.
  eapply (nonzero_code_is_ignored JSON.parse upstream_failure _ (JNumber (inject_Z 1)) asked).
  - vm_compute. reflexivity.
  - reflexivity.
  - reflexivity.
Defined.

(** C1 refuted as stated: the envelope [upstream_failure] carries code 1,
    and after the EventSource client (and the WebSocket client) handled it
    the document holds no error section; the client is exactly as before. *)
Lemma upstream_failure_renders_no_error_section :
  (exists envelope,
      JSON.parse (JString upstream_failure) = Some envelope
      /\ get_prop envelope "code" = Some (JNumber (inject_Z 1)))
  /\ error_sections (state_of (SSE.onmessage JSON.parse upstream_failure asked)) = []
  /\ error_sections (state_of (WS.onmessage JSON.parse upstream_failure asked)) = []
  /\ state_of (SSE.onmessage JSON.parse upstream_failure asked) = asked.
Proof.
  split; [eexists; split; vm_compute; reflexivity|].
  repeat split; vm_compute; reflexivity.
Qed.

(** ** Data fragments: C8, C10, C7 *)

Lemma filter_alter_outside {A} (P : A -> Prop) `{!forall x, Decision (P x)}
    (f : A -> A) (i : nat) (l : list A) (x : A) :
  l !! i = Some x -> ~ P x -> ~ P (f x) -> filter P (alter f i l) = filter P l.
Proof.
  revert i. induction l as [|y l IH]; intros [|i] Hi Hx Hfx; simplify_eq/=.
  - rewrite !filter_cons. by rewrite !decide_False.
  - rewrite !filter_cons. by rewrite (IH i).
Qed.

Lemma alter_last {A} (f : A -> A) (l : list A) (x : A) :
  alter f (length l) (l ++ [x]) = l ++ [f x].
Proof.
  replace (length l) with (length l + 0) by lia.
  by rewrite alter_app_r.
Qed.

Lemma lookup_last {A} (l : list A) (x : A) : (l ++ [x]) !! length l = Some x.
Proof. by rewrite lookup_app_r, Nat.sub_diag by lia. Qed.

Section DataFragments.
Variable JSON_parse : JSValue -> option JSValue.

Lemma appendToDataTable_after_ensure data_ s :
  appendToDataTable JSON_parse data_ s
  = match ensureDataTable s with
    | Done _ s1 =>
        try_catch
          (match JSON_parse data_ with
           | Some parsedData => renderDataTable parsedData
           | None => throw SyntaxError
           end)
          (fun _ => renderDataTableAsText data_) s1
    | Thrown e s1 => Thrown e s1
    end.
Proof. reflexivity. Qed.

(** The guard either throws (no streaming message to append a table to) or
    leaves a data table in place. *)
Lemma ensureDataTable_cases s :
  (exists e s1, ensureDataTable s = Thrown e s1)
  \/ (exists s1 table, ensureDataTable s = Done tt s1
                       /\ data (activeComponents s1) = Some table).
Proof.
  unfold ensureDataTable, initializeDataTable, appendSection. unfold_monad. simpl.
  destruct (data (activeComponents s)) as [table|] eqn:E.
  - right. by exists s, table.
  - destruct (currentStreamingMessage s) as [m|]; simpl.
    + right. eexists _, _. split; [reflexivity|]. reflexivity.
    + left. by eexists _, _.
Qed.

(** With a streaming message open and typed references, the guard leaves a
    data table whose container is a data section of the document, and makes
    no error section. *)
Lemma ensureDataTable_inv s m :
  currentStreamingMessage s = Some m -> Inv s ->
  exists s1 table n,
    ensureDataTable s = Done tt s1
    /\ data (activeComponents s1) = Some table
    /\ sections s1 !! container table = Some n
    /\ className n = class_of Data
    /\ error_sections s1 = error_sections s.
Proof.
  intros Hm HI.
  unfold ensureDataTable, initializeDataTable, appendSection. unfold_monad. simpl.
  destruct (data (activeComponents s)) as [table|] eqn:E.
  - destruct (inv_typed s HI Data (container table)) as (n & Hn & Hc & _);
      [by simpl; rewrite E|].
    by exists s, table, n.
  - rewrite Hm. simpl. eexists _, _, _. split; [reflexivity|]. simpl.
    split; [reflexivity|]. split; [apply lookup_last|]. split; [reflexivity|].
    unfold error_sections. simpl. rewrite filter_app.
    rewrite filter_cons, decide_False by (simpl; discriminate).
    by rewrite filter_nil, app_nil_r.
Qed.

Lemma renderDataTableAsText_string fragment s table :
  data (activeComponents s) = Some table ->
  renderDataTableAsText (JString fragment) s
  = Done tt (set_sections
               (alter (add_appended (Div "data-text" (formatText_string fragment)))
                  (container table)) s).
Proof.
  intros E. unfold renderDataTableAsText, formatText. unfold_monad. simpl.
  by rewrite E.
Qed.

(** A number, a string or a boolean is neither an array nor an object:
    [renderDataTable] falls through both branches. *)
Lemma renderDataTable_primitive v s table :
  is_scalar v = true -> v <> JNull ->
  data (activeComponents s) = Some table ->
  renderDataTable v s = Done tt s.
Proof.
  intros Hv Hn E. unfold renderDataTable. unfold_monad. simpl. rewrite E.
  simpl. by destruct v.
Qed.

(** [null] has type ['object']: [Object.keys(null)], or [Object.values(null)]
    once the header is there, throws before anything is written. *)
Lemma renderDataTable_null s table :
  data (activeComponents s) = Some table ->
  renderDataTable JNull s = Thrown TypeError s.
Proof.
  intros E. unfold renderDataTable, initializeHeader. unfold_monad. simpl.
  rewrite E. simpl. by destruct (headerInitialized table).
Qed.

End DataFragments.

(** What [appendToDataTable] does with a fragment that parses to a scalar.
    A number, a string or a boolean is dropped: the method does what its
    guard alone does (it creates the table if there is none), adds no row
    and appends no text.  [null] is not dropped: rendering it throws inside
    the [try], and the fragment is appended through the text fallback. *)
Lemma parsed_scalar_fragment
    (JSON_parse : JSValue -> option JSValue) (fragment : string)
    (v : JSValue) (s : ExcelAgent) :
  JSON_parse (JString fragment) = Some v ->
  is_scalar v = true ->
  (v <> JNull ->
   appendToDataTable JSON_parse (JString fragment) s = ensureDataTable s)
  /\ (v = JNull ->
      forall s1 table,
        ensureDataTable s = Done tt s1 ->
        data (activeComponents s1) = Some table ->
        appendToDataTable JSON_parse (JString fragment) s
        = Done tt (set_sections
                     (alter (add_appended (Div "data-text" (formatText_string fragment)))
                        (container table)) s1)).
Proof.
  intros Hparse Hv. split.
  - intros Hn. rewrite appendToDataTable_after_ensure.
    destruct (ensureDataTable_cases s) as [(e & s1 & ->)|(s1 & table & -> & E)];
      [reflexivity|].
    unfold try_catch. rewrite Hparse.
    by rewrite (renderDataTable_primitive v s1 table Hv Hn E).
  - intros -> s1 table Hs1 E. rewrite appendToDataTable_after_ensure, Hs1.
    unfold try_catch. rewrite Hparse, (renderDataTable_null s1 table E).
    by apply renderDataTableAsText_string.
Qed.

Lemma parsed_scalar_fragment_witness :
  (JNumber (inject_Z 12) <> JNull ->
   appendToDataTable JSON.parse (JString "12") asked = ensureDataTable asked)
  /\ (JNumber (inject_Z 12) = JNull ->
      forall s1 table,
        ensureDataTable asked = Done tt s1 ->
        data (activeComponents s1) = Some table ->
        appendToDataTable JSON.parse (JString "12") asked
        = Done tt (set_sections
                     (alter (add_appended (Div "data-text" (formatText_string "12")))
                        (container table)) s1)).
Proof.
  apply (parsed_scalar_fragment JSON.parse "12" (JNumber (inject_Z 12)) asked);
    reflexivity.
Defined.

(** C10. The code at the failing input.  The claim has every fragment that
    parses to a JSON scalar dropped in silence.  The fragment ["null"]
    parses, to the scalar [null], and is not dropped: [typeof null] is
    ['object'], so [renderDataTable] takes the branch for a single object,
    [Object.keys(null)] throws, and the [catch] of [appendToDataTable] (meant
    for text that is not JSON) appends a ['data-text'] block reading [null].
    The sibling scalars are dropped as the claim says: the fragment ["12"]
    leaves the table as the guard alone leaves it. *)
Theorem null_fragment_is_rendered :
  JSON.parse (JString "null") = Some JNull
  /\ is_scalar JNull = true
  /\ (appended <$> sections (state_of (appendToDataTable JSON.parse (JString "null") asked)))
     = [[Div "data-text" "null"]]
  /\ (body <$> sections (state_of (appendToDataTable JSON.parse (JString "null") asked)))
     = [[]]
  /\ (appended <$> sections (state_of (ensureDataTable asked))) = [[]]
  /\ JSON.parse (JString "12") = Some (JNumber (inject_Z 12))
  /\ appendToDataTable JSON.parse (JString "12") asked = ensureDataTable asked.
Proof. repeat split; vm_compute; reflexivity. Qed.

Global Instance same_headers_preorder : PreOrder same_headers.
Proof.
  split.
  - intros s. by split.
  - intros s1 s2 s3 [H1 L1] [H2 L2]. split; congruence.
Qed.

Lemma fmap_alter_same {A B} (g : A -> B) (f : A -> A) (i : nat) (l : list A) :
  (forall x, g (f x) = g x) -> g <$> alter f i l = g <$> l.
Proof.
  intros H. revert i.
  induction l as [|y l IH]; intros [|i]; csimpl; f_equal; auto.
Qed.

Lemma updateSection_same_headers el f :
  (forall n, header (f n) = header n) -> stable same_headers (updateSection el f).
Proof.
  intros Hf s. split; [done|]. simpl. by apply fmap_alter_same.
Qed.

Lemma renderRow_same_headers table row : stable same_headers (renderRow table row).
Proof.
  unfold renderRow.
  repeat first [ apply updateSection_same_headers; done | stable_step ].
Qed.

Lemma renderDataTableAsText_same_headers v : stable same_headers (renderDataTableAsText v).
Proof.
  unfold renderDataTableAsText.
  repeat first [ apply updateSection_same_headers; done | stable_step ].
Qed.

(** With the header in place, rendering a parsed value writes no header. *)
Lemma renderDataTable_same_headers v s table :
  data (activeComponents s) = Some table ->
  headerInitialized table = true ->
  same_headers s (state_of (renderDataTable v s)).
Proof.
  intros E Hh.
  assert (Hrows : forall items, same_headers s (state_of (forEach items (renderRow table) s))).
  { intros items. apply stable_forEach; [apply _|]. apply renderRow_same_headers. }
  assert (Hup : forall f, (forall n, header (f n) = header n) ->
                          same_headers s (state_of (updateSection (container table) f s))).
  { intros f Hf. by apply updateSection_same_headers. }
  unfold renderDataTable. unfold mbind, M_bind, bind, getComponents. simpl.
  rewrite E. simpl. rewrite Hh. simpl.
  destruct v as [| |b|q|str|items|props]; simpl; try reflexivity.
  - destruct items as [|first rest]; [reflexivity|].
    exact (Hrows (first :: rest)).
  - by apply Hup.
Qed.

(** C7. Data-table header lock-in. In the data section a 'start' opens,
    the fragment [[{"a":1,"b":2}]] followed by the fragment
    [[{"a":3,"b":4}]] leaves exactly one header row, [a, b], and exactly two
    body rows, [1, 2] then [3, 4]; and in any data section whose header is
    established, no fragment whatever changes the header rows. *)
Theorem data_table_header_lock_in
    (JSON_parse : JSValue -> option JSValue) (s : ExcelAgent) (m : nat) :
  JSON_parse (JString fragment_ab12) = Some (records_ab 1 2) ->
  JSON_parse (JString fragment_ab34) = Some (records_ab 3 4) ->
  currentStreamingMessage s = Some m ->
  (exists n,
      sections
        (state_of (handleDataContent JSON_parse (JString fragment_ab34) (JString "in_progress")
           (state_of (handleDataContent JSON_parse (JString fragment_ab12) (JString "in_progress")
              (state_of (handleDataContent JSON_parse JUndefined (JString "start") s))))))
      !! length (sections s) = Some n
      /\ header n = [["a"; "b"]]
      /\ body n = [[JNumber (inject_Z 1); JNumber (inject_Z 2)];
                   [JNumber (inject_Z 3); JNumber (inject_Z 4)]])
  /\ (forall fragment s' table,
         data (activeComponents s') = Some table ->
         headerInitialized table = true ->
         data (activeComponents (state_of (appendToDataTable JSON_parse fragment s')))
         = Some table
         /\ (header <$> sections (state_of (appendToDataTable JSON_parse fragment s')))
            = (header <$> sections s')).
Proof.
  intros H12 H34 Hm. split.
  - unfold handleDataContent at 3. simpl.
    unfold initializeDataTable, appendSection. unfold_monad. rewrite Hm. simpl.
    unfold handleDataContent at 2. simpl.
    unfold appendToDataTable, try_catch. unfold_monad. simpl. rewrite H12.
    unfold records_ab, renderDataTable, initializeHeader, setHeaderInitialized, renderRow.
    unfold_monad. simpl.
    unfold handleDataContent. simpl.
    unfold appendToDataTable, try_catch. unfold_monad. simpl. rewrite H34.
    unfold records_ab, renderDataTable, initializeHeader, setHeaderInitialized, renderRow.
    unfold_monad. simpl. rewrite !alter_last.
    eexists. split; [apply lookup_last|]. by split.
  - intros fragment s' table E Hh.
    rewrite appendToDataTable_after_ensure.
    assert (ensureDataTable s' = Done tt s') as ->.
    { unfold ensureDataTable. unfold_monad. simpl. by rewrite E. }
    assert (same_headers s'
              (state_of
                 (try_catch
                    match JSON_parse fragment with
                    | Some parsedData => renderDataTable parsedData
                    | None => throw SyntaxError
                    end (fun _ => renderDataTableAsText fragment) s'))) as [Hc Hh'].
    { unfold try_catch. destruct (JSON_parse fragment) as [v|]; simpl.
      - pose proof (renderDataTable_same_headers v s' table E Hh) as H.
        destruct (renderDataTable v s') as [a s2|e s2]; simpl in *; [exact H|].
        etrans; [exact H|]. apply renderDataTableAsText_same_headers.
      - apply renderDataTableAsText_same_headers. }
    split; [by rewrite Hc | exact Hh'].
Qed.

Lemma data_table_header_lock_in_witness :
  exists n,
    sections
      (state_of (handleDataContent JSON.parse (JString fragment_ab34) (JString "in_progress")
         (state_of (handleDataContent JSON.parse (JString fragment_ab12) (JString "in_progress")
            (state_of (handleDataContent JSON.parse JUndefined (JString "start") asked))))))
    !! length (sections asked) = Some n
    /\ header n = [["a"; "b"]]
    /\ body n = [[JNumber (inject_Z 1); JNumber (inject_Z 2)];
                 [JNumber (inject_Z 3); JNumber (inject_Z 4)]].
Proof.
  apply (data_table_header_lock_in JSON.parse asked 0); reflexivity.
Defined.

(** ** Invariants of the reducer: typed references, one finalize mark per
    section, detached sections are never written *)

Lemma finalize_marks_button b n :
  finalize_marks (add_appended (Button b) n) = S (finalize_marks n).
Proof.
  unfold finalize_marks. simpl. rewrite filter_app, length_app. simpl. lia.
Qed.

Lemma class_of_inj t t' : class_of t = class_of t' -> t = t'.
Proof. destruct t, t'; simpl; intros H; by try discriminate H. Qed.

Lemma benign_add_textContent t : benign (add_textContent t).
Proof. by intros n. Qed.
Lemma benign_add_header_row r : benign (add_header_row r).
Proof. by intros n. Qed.
Lemma benign_add_body_row r : benign (add_body_row r).
Proof. by intros n. Qed.
Lemma benign_add_content c : benign (add_content c).
Proof. by intros n. Qed.
Lemma benign_add_class c : benign (add_class c).
Proof. by intros n. Qed.
Lemma benign_add_div c h : benign (add_appended (Div c h)).
Proof.
  intros n. split; [done|]. unfold finalize_marks. simpl.
  by rewrite filter_app, length_app, Nat.add_0_r.
Qed.

Create HintDb benign.
#[local] Hint Resolve benign_add_textContent benign_add_header_row
  benign_add_body_row benign_add_content benign_add_class benign_add_div : benign.

Section KeptStates.
Context (F : option (nat * SectionNode)).

Lemma Kept_avoids s t el :
  Kept F s -> slot t (activeComponents s) = Some el -> avoids F el.
Proof.
  destruct F as [[i x]|]; simpl; [|done].
  intros [_ [_ H]] E ->. by apply (H t).
Qed.

(** Fewer references, same sections. *)
Lemma Kept_refs s s' :
  Kept F s ->
  sections s' = sections s ->
  (forall t e, slot t (activeComponents s') = Some e ->
               slot t (activeComponents s) = Some e) ->
  Kept F s'.
Proof.
  intros [[Ht Ho] HF] Hs Hr. split; [split|].
  - intros t e E. rewrite Hs. by apply Ht, Hr.
  - intros j n. rewrite Hs. apply Ho.
  - destruct F as [[i x]|]; [|done]. destruct HF as [Hx Hd]. split.
    + by rewrite Hs.
    + intros t E. by apply (Hd t), Hr.
Qed.

(** A benign write to a section other than the watched one. *)
Lemma Kept_update s s' el f :
  Kept F s -> benign f -> avoids F el ->
  sections s' = alter f el (sections s) ->
  (forall t e, slot t (activeComponents s') = Some e ->
               slot t (activeComponents s) = Some e) ->
  Kept F s'.
Proof.
  intros [[Ht Ho] HF] Hb Ha Hs Hr. split; [split|].
  - intros t e E. apply Hr in E. destruct (Ht t e E) as (n & Hn & Hc & Hm).
    rewrite Hs, list_lookup_alter. case_decide; subst.
    + rewrite Hn. simpl. exists (f n). destruct (Hb n) as [Hb1 Hb2].
      split; [done|]. split; congruence.
    + by exists n.
  - intros j n. rewrite Hs, list_lookup_alter. case_decide; subst.
    + intros H. destruct (sections s !! j) as [n0|] eqn:E; simplify_eq/=.
      destruct (Hb n0) as [_ ->]. by eapply Ho.
    + apply Ho.
  - destruct F as [[i x]|]; [|done]. destruct HF as [Hx Hd]. split.
    + by rewrite Hs, list_lookup_alter_ne.
    + intros t E. by apply (Hd t), Hr.
Qed.

(** A new section from a template, referenced by the slot [t]. *)
Lemma Kept_init s s' t :
  Kept F s ->
  sections s' = sections s ++ [template (class_of t)] ->
  (forall t' e, slot t' (activeComponents s') = Some e ->
                (t' = t /\ e = length (sections s))
                \/ slot t' (activeComponents s) = Some e) ->
  Kept F s'.
Proof.
  intros [[Ht Ho] HF] Hs Hr. split; [split|].
  - intros t' e E. rewrite Hs. destruct (Hr t' e E) as [[-> ->]|E'].
    + exists (template (class_of t)). by rewrite lookup_last.
    + destruct (Ht t' e E') as (n & Hn & Hc & Hm). exists n.
      by rewrite (lookup_app_l_Some _ _ _ _ Hn).
  - intros j n. rewrite Hs, lookup_snoc_Some. intros [[_ H]|[_ <-]].
    + by eapply Ho.
    + unfold finalize_marks. simpl. lia.
  - destruct F as [[i x]|]; [|done]. destruct HF as [Hx Hd]. split.
    + by rewrite Hs, (lookup_app_l_Some _ _ _ _ Hx).
    + intros t' E. destruct (Hr t' i E) as [[-> ->]|E'].
      * apply lookup_lt_Some in Hx. lia.
      * by apply (Hd t').
Qed.

(** A finalize button on the section of the slot [t], whose reference goes. *)
Lemma Kept_button s s' t el b :
  Kept F s ->
  slot t (activeComponents s) = Some el ->
  sections s' = alter (add_appended (Button b)) el (sections s) ->
  (forall t' e, slot t' (activeComponents s') = Some e ->
                t' <> t /\ slot t' (activeComponents s) = Some e) ->
  Kept F s'.
Proof.
  intros HK Hel Hs Hr. pose proof (Kept_avoids s t el HK Hel) as Ha.
  destruct HK as [[Ht Ho] HF].
  destruct (Ht t el Hel) as (n0 & Hn0 & Hc0 & Hm0).
  split; [split|].
  - intros t' e E. destruct (Hr t' e E) as [Hne E'].
    destruct (Ht t' e E') as (n & Hn & Hc & Hm). exists n.
    rewrite Hs, list_lookup_alter_ne; [done|].
    intros ->. apply Hne. apply class_of_inj. congruence.
  - intros j n. rewrite Hs, list_lookup_alter. case_decide; subst.
    + rewrite Hn0. simpl. intros [= <-]. rewrite finalize_marks_button. lia.
    + apply Ho.
  - destruct F as [[i x]|]; [|done]. destruct HF as [Hx Hd]. split.
    + by rewrite Hs, list_lookup_alter_ne.
    + intros t' E. destruct (Hr t' i E) as [_ E']. by apply (Hd t').
Qed.

End KeptStates.

(** *** The rules of [preserves] *)

Section Preserves.
Context (P : ExcelAgent -> Prop).

Lemma preserves_ret {A} (a : A) : preserves P (mret a).
Proof. by intros s. Qed.

Lemma preserves_throw {A} e : preserves P (throw e : M A).
Proof. by intros s. Qed.

Lemma preserves_bind {A B} (m : M A) (k : A -> M B) :
  preserves P m -> (forall a, preserves P (k a)) -> preserves P (m ≫= k).
Proof.
  intros Hm Hk s Hs. specialize (Hm s Hs). unfold mbind, M_bind, bind.
  destruct (m s) as [a s'|e s']; simpl in *; [by apply Hk | done].
Qed.

Lemma preserves_try_catch {A} (m : M A) (h : Exn -> M A) :
  preserves P m -> (forall e, preserves P (h e)) -> preserves P (try_catch m h).
Proof.
  intros Hm Hh s Hs. specialize (Hm s Hs). unfold try_catch.
  destruct (m s) as [a s'|e s']; simpl in *; [done | by apply Hh].
Qed.

Lemma preserves_or_TypeError {A} (o : option A) : preserves P (or_TypeError o).
Proof. by destruct o; intros s. Qed.

Lemma preserves_or_TypeError_bind {A B} (o : option A) (k : A -> M B) :
  (forall a, o = Some a -> preserves P (k a)) -> preserves P (or_TypeError o ≫= k).
Proof.
  intros Hk. destruct o as [a|]; [|by intros s].
  intros s Hs. by apply (Hk a).
Qed.

Lemma preserves_get_bind {B} (k : ExcelAgent -> M B) :
  (forall s0, preserves P (k s0)) -> preserves P (get ≫= k).
Proof. intros Hk s Hs. by apply (Hk s). Qed.

Lemma preserves_forEach {A} (l : list A) (f : A -> M unit) :
  (forall x, preserves P (f x)) -> preserves P (forEach l f).
Proof.
  intros Hf. induction l as [|x l IH]; simpl.
  - apply preserves_ret.
  - apply preserves_bind; [apply Hf | intros _; exact IH].
Qed.

Lemma preserves_formatText text_ : preserves P (formatText text_).
Proof.
  unfold formatText. apply preserves_or_TypeError_bind. intros a _.
  apply preserves_ret.
Qed.

End Preserves.

Section KeptMethods.
Context (F : option (nat * SectionNode)).
Variable JSON_parse : JSValue -> option JSValue.

(** The components read from a kept state refer to no watched section. *)
Lemma preserves_getComponents_bind {B} (k : ActiveComponents -> M B) :
  (forall ac, (forall t el, slot t ac = Some el -> avoids F el) ->
              preserves (Kept F) (k ac)) ->
  preserves (Kept F) (getComponents ≫= k).
Proof.
  intros Hk s Hs. apply (Hk (activeComponents s)); [|done].
  intros t el. by apply Kept_avoids.
Qed.

(** Writes outside [sections] and [activeComponents]. *)
Lemma preserves_modify_other f :
  (forall s, sections (f s) = sections s) ->
  (forall s, activeComponents (f s) = activeComponents s) ->
  preserves (Kept F) (modify f).
Proof.
  intros H1 H2 s Hs. simpl. apply (Kept_refs F s); [done|apply H1|].
  intros t e. by rewrite H2.
Qed.

Lemma preserves_updateSection el f :
  benign f -> avoids F el -> preserves (Kept F) (updateSection el f).
Proof.
  intros Hb Ha s Hs. simpl. by apply (Kept_update F s _ el f).
Qed.

Lemma preserves_setHeaderInitialized : preserves (Kept F) setHeaderInitialized.
Proof.
  intros s Hs. unfold setHeaderInitialized.
  destruct (data (activeComponents s)) as [table|] eqn:E; simpl; [|done].
  apply (Kept_refs F s); [done|done|].
  intros t e. destruct t; simpl; try done. by rewrite E.
Qed.

Lemma preserves_initialize t : preserves (Kept F) (initialize t).
Proof.
  intros s Hs.
  assert (Hcase : forall s',
    sections s' = sections s ++ [template (class_of t)] ->
    (forall t' e, slot t' (activeComponents s') = Some e ->
                  (t' = t /\ e = length (sections s))
                  \/ slot t' (activeComponents s) = Some e) ->
    Kept F s') by (intros s'; by apply Kept_init).
  destruct t; unfold initialize; unfold_methods; unfold appendSection; unfold_monad;
    destruct (currentStreamingMessage s); simpl; try done;
    (apply Hcase; [reflexivity|]);
    intros t' e; destruct t'; simpl; intros E; simplify_eq/=; auto.
Qed.

Lemma preserves_finalize t : preserves (Kept F) (finalize t).
Proof.
  intros s Hs. destruct t; unfold finalize; unfold_methods; unfold_monad; simpl.
  - destruct (code (activeComponents s)) as [el|] eqn:E; simpl; [|done].
    apply (Kept_button F s _ Code el "copy-button" Hs E); [reflexivity|].
    intros t' e. destruct t'; simpl; intros E'; by simplify_eq/=.
  - destruct (data (activeComponents s)) as [table|] eqn:E; simpl; [|done].
    apply (Kept_button F s _ Data (container table) "export-button" Hs);
      [by simpl; rewrite E | reflexivity |].
    intros t' e. destruct t'; simpl; intros E'; by simplify_eq/=.
  - destruct (result (activeComponents s)) as [el|] eqn:E; simpl; [|done].
    apply (Kept_update F s _ el (add_class "completed") Hs);
      [auto with benign | by apply (Kept_avoids F s Result) | reflexivity |].
    intros t' e. destruct t'; simpl; intros E'; by simplify_eq/=.
  - destruct (error (activeComponents s)) as [el|] eqn:E; simpl; [|done].
    apply (Kept_refs F s _ Hs); [reflexivity|].
    intros t' e. destruct t'; simpl; intros E'; by simplify_eq/=.
  - destruct (text (activeComponents s)) as [el|] eqn:E; simpl; [|done].
    apply (Kept_refs F s _ Hs); [reflexivity|].
    intros t' e. destruct t'; simpl; intros E'; by simplify_eq/=.
Qed.

End KeptMethods.

Ltac solve_avoids :=
  match goal with
  | H : forall t el, slot t ?ac = Some el -> avoids _ el |- avoids _ _ =>
      first
        [ by apply (H Code)
        | by apply (H Result)
        | by apply (H Error)
        | by apply (H Text)
        | match goal with
          | E : data ac = Some _ |- _ => by apply (H Data); simpl; rewrite E
          end ]
  end.

Ltac solve_benign := solve [auto with benign].

Ltac preserves_step :=
  lazymatch goal with
  | |- preserves _ (mret _) => apply preserves_ret
  | |- preserves _ (throw _) => apply preserves_throw
  | |- preserves _ (or_TypeError _) => apply preserves_or_TypeError
  | |- preserves _ (formatText _) => apply preserves_formatText
  | |- preserves _ setHeaderInitialized => apply preserves_setHeaderInitialized
  | |- preserves _ initializeCodeBlock => apply (preserves_initialize _ Code)
  | |- preserves _ initializeDataTable => apply (preserves_initialize _ Data)
  | |- preserves _ initializeResultSection => apply (preserves_initialize _ Result)
  | |- preserves _ initializeErrorSection => apply (preserves_initialize _ Error)
  | |- preserves _ initializeTextSection => apply (preserves_initialize _ Text)
  | |- preserves _ finalizeCodeBlock => apply (preserves_finalize _ Code)
  | |- preserves _ finalizeDataTable => apply (preserves_finalize _ Data)
  | |- preserves _ finalizeResultSection => apply (preserves_finalize _ Result)
  | |- preserves _ finalizeErrorSection => apply (preserves_finalize _ Error)
  | |- preserves _ finalizeTextSection => apply (preserves_finalize _ Text)
  | |- preserves _ (updateSection _ _) =>
      apply preserves_updateSection; [solve_benign | solve_avoids]
  | |- preserves _ (modify _) =>
      apply preserves_modify_other; [by intros ? | by intros ?]
  | |- preserves _ (getComponents ≫= _) =>
      apply preserves_getComponents_bind; intros ? ?
  | |- preserves _ (or_TypeError _ ≫= _) =>
      apply preserves_or_TypeError_bind; intros ? ?
  | |- preserves _ (get ≫= _) => apply preserves_get_bind; intros ?
  | |- preserves _ (_ ≫= _) => apply preserves_bind; [|intros ?]
  | |- preserves _ (try_catch _ _) => apply preserves_try_catch; [|intros ?]
  | |- preserves _ (forEach _ _) => apply preserves_forEach; intros ?
  | |- preserves _ (match ?x with _ => _ end) => destruct x eqn:?
  | |- preserves _ (let _ := _ in _) => cbv zeta
  end.

Section KeptReducer.
Context (F : option (nat * SectionNode)).
Variable JSON_parse : JSValue -> option JSValue.

Lemma preserves_append t answer : preserves (Kept F) (append JSON_parse t answer).
Proof.
  destruct t; unfold append; unfold_methods;
    unfold renderDataTableAsText, renderDataTable, initializeHeader, renderRow;
    repeat preserves_step.
Qed.

Lemma preserves_dispatch content_type answer status :
  preserves (Kept F) (dispatch JSON_parse content_type answer status).
Proof.
  rewrite dispatch_normalize, handleContent_cases.
  repeat case_match;
    auto using preserves_initialize, preserves_append, preserves_finalize.
Qed.

Lemma preserves_destructure_bind {B} data_
    (k : JSValue * JSValue * JSValue * JSValue -> M B) :
  (forall a, preserves (Kept F) (k a)) -> preserves (Kept F) (destructure data_ ≫= k).
Proof.
  intros Hk. apply preserves_bind; [|exact Hk].
  unfold destructure. repeat preserves_step.
Qed.

Lemma preserves_createStreamingMessage : preserves (Kept F) createStreamingMessage.
Proof.
  intros s Hs. simpl. by apply (Kept_refs F s).
Qed.

Lemma preserves_removeStreamingClass : preserves (Kept F) removeStreamingClass.
Proof. unfold removeStreamingClass. repeat preserves_step. Qed.

Lemma preserves_SSE_finishStreaming : preserves (Kept F) SSE.finishStreaming.
Proof.
  unfold SSE.finishStreaming, hideLoading.
  repeat first [ apply preserves_removeStreamingClass | preserves_step ].
Qed.

Lemma preserves_WS_finishStreaming : preserves (Kept F) WS.finishStreaming.
Proof.
  unfold WS.finishStreaming, hideLoading.
  repeat first [ apply preserves_removeStreamingClass | preserves_step ].
Qed.

Lemma preserves_handleStreamingMessage data_ :
  preserves (Kept F) (SSE.handleStreamingMessage JSON_parse data_).
Proof.
  unfold SSE.handleStreamingMessage.
  apply preserves_get_bind. intros s0.
  destruct (currentStreamingMessage s0); [|apply preserves_ret].
  apply preserves_destructure_bind. intros [[[answer finished] content_type] status].
  apply preserves_bind; [apply preserves_dispatch|intros _].
  destruct (is_number finished 1);
    [apply preserves_SSE_finishStreaming | apply preserves_ret].
Qed.

Lemma preserves_handleWebSocketMessage data_ :
  preserves (Kept F) (WS.handleWebSocketMessage JSON_parse data_).
Proof.
  unfold WS.handleWebSocketMessage.
  apply preserves_get_bind. intros s0.
  apply preserves_bind.
  { destruct (currentStreamingMessage s0); [apply preserves_ret|].
    apply preserves_bind; [apply preserves_createStreamingMessage|intros m].
    preserves_step. }
  intros _.
  apply preserves_destructure_bind. intros [[[answer finished] content_type] status].
  apply preserves_bind; [apply preserves_dispatch|intros _].
  destruct (is_number finished 1);
    [apply preserves_WS_finishStreaming | apply preserves_ret].
Qed.

Lemma preserves_SSE_onmessage event_data :
  preserves (Kept F) (SSE.onmessage JSON_parse event_data).
Proof.
  unfold SSE.onmessage, SSE.resolve, SSE.reject, hideLoading.
  repeat first [ apply preserves_handleStreamingMessage | preserves_step ].
Qed.

Lemma preserves_WS_onmessage event_data :
  preserves (Kept F) (WS.onmessage JSON_parse event_data).
Proof.
  unfold WS.onmessage.
  repeat first [ apply preserves_handleWebSocketMessage | preserves_step ].
Qed.

Lemma preserves_sendQuestion : preserves (Kept F) SSE.sendQuestion.
Proof.
  unfold SSE.sendQuestion, SSE.streamQueryResults, showLoading.
  repeat first [ apply preserves_createStreamingMessage | preserves_step ].
Qed.

Lemma Kept_SSE_step s e : Kept F s -> Kept F (SSE.step JSON_parse s e).
Proof.
  intros Hs. destruct e as [|event_data]; simpl.
  - destruct (loading s); [done|]. by apply preserves_sendQuestion.
  - destruct (eventSource s); [|done]. by apply preserves_SSE_onmessage.
Qed.

Lemma Kept_SSE_run events s : Kept F s -> Kept F (SSE.run JSON_parse events s).
Proof.
  unfold SSE.run. revert s.
  induction events as [|e events IH]; intros s Hs; simpl; [done|].
  by apply IH, Kept_SSE_step.
Qed.

Lemma Kept_WS_run frames s : Kept F s -> Kept F (WS.run JSON_parse frames s).
Proof.
  unfold WS.run. revert s.
  induction frames as [|d frames IH]; intros s Hs; simpl; [done|].
  by apply IH, preserves_WS_onmessage.
Qed.

End KeptReducer.

Lemma Inv_newAgent : Inv newAgent.
Proof.
  split.
  - intros t el H. by destruct t.
  - intros j n H. by destruct j.
Qed.

(** ** C9: which sections a fragment can reach *)

(** C9 refuted as stated: the first session ends (its last message carries
    [finished: 1]) while its code section, with the fragment [a=1], is still
    accumulating; the code fragment [b=2] of the second session lands in that
    same section, which sits in the first session's message, and the second
    session's message gets no section at all. *)
Lemma fragments_mix_across_sessions :
  let s1 := SSE.run JSON.parse unfinished_code_session newAgent in
  let s2 := SSE.run JSON.parse next_session_fragment s1 in
  currentStreamingMessage s1 = None
  /\ (textContent <$> sections s1 !! 0) = Some "a=1"
  /\ (textContent <$> sections s2 !! 0) = Some "a=1b=2"
  /\ (children <$> messages s2) = [[0; 1]; []]
  /\ currentStreamingMessage s2 = Some 1.
Proof. repeat split; vm_compute; reflexivity. Qed.

(** ** C2: what the terminal message does *)

Global Instance no_slot_cleared_preorder : PreOrder no_slot_cleared.
Proof.
  split.
  - by intros s t.
  - intros s1 s2 s3 H1 H2 t Ht. by apply H2, H1.
Qed.

Lemma updateSection_no_slot_cleared el f : stable no_slot_cleared (updateSection el f).
Proof. by intros s t. Qed.

Lemma setHeaderInitialized_no_slot_cleared : stable no_slot_cleared setHeaderInitialized.
Proof.
  intros s t. unfold setHeaderInitialized.
  destruct (data (activeComponents s)) as [table|] eqn:E; simpl; [|done].
  destruct t; simpl; try done; by rewrite E.
Qed.

Lemma initialize_no_slot_cleared t : stable no_slot_cleared (initialize t).
Proof.
  intros s t'.
  destruct t; unfold initialize; unfold_methods; unfold appendSection; unfold_monad;
    destruct (currentStreamingMessage s); simpl; try done;
    destruct t'; simpl; try done; intros _; by eexists.
Qed.

Section Clearing.
Variable JSON_parse : JSValue -> option JSValue.

Lemma append_no_slot_cleared t answer :
  stable no_slot_cleared (append JSON_parse t answer).
Proof.
  destruct t; unfold append; unfold_methods;
    unfold renderDataTableAsText, renderDataTable, initializeHeader, renderRow;
    repeat first [ apply updateSection_no_slot_cleared
                 | apply setHeaderInitialized_no_slot_cleared
                 | apply (initialize_no_slot_cleared Code)
                 | apply (initialize_no_slot_cleared Data)
                 | apply (initialize_no_slot_cleared Result)
                 | apply (initialize_no_slot_cleared Error)
                 | apply (initialize_no_slot_cleared Text)
                 | stable_step ].
Qed.

Lemma finalize_other_slot t t' s :
  t <> t' ->
  slot t (activeComponents (state_of (finalize t' s))) = slot t (activeComponents s).
Proof.
  intros Hne.
  destruct t'; unfold finalize; unfold_methods; unfold_monad; simpl;
    repeat case_match; simpl; destruct t; done.
Qed.

(** A slot stops accumulating only through an ['end'] of its own type. *)
Lemma cleared_by_own_end content_type answer status s t :
  is_Some (slot t (activeComponents s)) ->
  slot t (activeComponents (state_of (dispatch JSON_parse content_type answer status s)))
  = None ->
  normalize content_type = t /\ is_string status "end" = true.
Proof.
  intros Hsome Hnone. rewrite dispatch_normalize, handleContent_cases in Hnone.
  assert (Hi : forall t', is_Some (slot t (activeComponents (state_of (initialize t' s)))))
    by (intros t'; by apply initialize_no_slot_cleared).
  assert (Ha : forall t', is_Some (slot t (activeComponents
                             (state_of (append JSON_parse t' answer s)))))
    by (intros t'; by apply append_no_slot_cleared).
  destruct (is_string status "start");
    [destruct (Hi (normalize content_type)); congruence|].
  destruct (is_string status "in_progress");
    [destruct (Ha (normalize content_type)); congruence|].
  destruct (is_string status "end");
    [|destruct (Ha (normalize content_type)); congruence].
  split; [|done].
  destruct (decide (t = normalize content_type)) as [->|Hne]; [done|].
  rewrite (finalize_other_slot _ _ _ Hne) in Hnone.
  destruct Hsome. congruence.
Qed.

Lemma SSE_finishStreaming_frame s :
  sections (state_of (SSE.finishStreaming s)) = sections s
  /\ activeComponents (state_of (SSE.finishStreaming s)) = activeComponents s.
Proof.
  unfold SSE.finishStreaming, removeStreamingClass, hideLoading. unfold_monad. simpl.
  destruct (currentStreamingMessage s); simpl; [|done].
  by destruct (eventSource s).
Qed.

Lemma WS_finishStreaming_frame s :
  sections (state_of (WS.finishStreaming s)) = sections s
  /\ activeComponents (state_of (WS.finishStreaming s)) = activeComponents s.
Proof.
  unfold WS.finishStreaming, removeStreamingClass, hideLoading. unfold_monad. simpl.
  by destruct (currentStreamingMessage s).
Qed.

End Clearing.

Section TerminalMessage.
Variable JSON_parse : JSValue -> option JSValue.

(** On an open streaming message, a message changes the sections and the
    active components exactly as the dispatch to its slot does, whatever its
    [finished] flag. *)
Lemma message_is_its_dispatch data_ s m answer finished content_type status :
  currentStreamingMessage s = Some m ->
  destructure data_ s = Done (answer, finished, content_type, status) s ->
  (sections (state_of (SSE.handleStreamingMessage JSON_parse data_ s))
   = sections (state_of (dispatch JSON_parse content_type answer status s))
   /\ activeComponents (state_of (SSE.handleStreamingMessage JSON_parse data_ s))
      = activeComponents (state_of (dispatch JSON_parse content_type answer status s)))
  /\ (sections (state_of (WS.handleWebSocketMessage JSON_parse data_ s))
      = sections (state_of (dispatch JSON_parse content_type answer status s))
      /\ activeComponents (state_of (WS.handleWebSocketMessage JSON_parse data_ s))
         = activeComponents (state_of (dispatch JSON_parse content_type answer status s))).
Proof.
  intros Hm Hd.
  unfold SSE.handleStreamingMessage, WS.handleWebSocketMessage.
  unfold mbind, M_bind, bind, get, mret, M_ret, ret. rewrite Hm, Hd.
  destruct (dispatch JSON_parse content_type answer status s) as [[] s'|e s']; simpl;
    [|done].
  destruct (is_number finished 1); [|done].
  split; [apply SSE_finishStreaming_frame | apply WS_finishStreaming_frame].
Qed.

End TerminalMessage.

(** C2, as the code has it. For every message sequence ending in a message
    with finished == 1: after the terminal message is dispatched to its slot,
    [finishStreaming] runs no finalize side effect and leaves every slot that
    is still accumulating as it is -- the terminal message changes sections
    and slots exactly as its dispatch does.  A slot stops accumulating only
    through an 'end' message of its own type; on every run of either client
    no section carries more than one finalize mark (copy or export button),
    and the section of an accumulating slot carries none. *)
Theorem terminal_message_finalizes_no_open_slot
    (JSON_parse : JSValue -> option JSValue) :
  (forall s,
      sections (state_of (SSE.finishStreaming s)) = sections s
      /\ activeComponents (state_of (SSE.finishStreaming s)) = activeComponents s)
  /\ (forall s,
        sections (state_of (WS.finishStreaming s)) = sections s
        /\ activeComponents (state_of (WS.finishStreaming s)) = activeComponents s)
  /\ (forall data_ s m answer finished content_type status,
        currentStreamingMessage s = Some m ->
        destructure data_ s = Done (answer, finished, content_type, status) s ->
        (sections (state_of (SSE.handleStreamingMessage JSON_parse data_ s))
         = sections (state_of (dispatch JSON_parse content_type answer status s))
         /\ activeComponents (state_of (SSE.handleStreamingMessage JSON_parse data_ s))
            = activeComponents (state_of (dispatch JSON_parse content_type answer status s)))
        /\ (sections (state_of (WS.handleWebSocketMessage JSON_parse data_ s))
            = sections (state_of (dispatch JSON_parse content_type answer status s))
            /\ activeComponents (state_of (WS.handleWebSocketMessage JSON_parse data_ s))
               = activeComponents
                   (state_of (dispatch JSON_parse content_type answer status s))))
  /\ (forall content_type answer status s t,
        is_Some (slot t (activeComponents s)) ->
        slot t (activeComponents
                  (state_of (dispatch JSON_parse content_type answer status s))) = None ->
        normalize content_type = t /\ is_string status "end" = true)
  /\ (forall events, Inv (SSE.run JSON_parse events newAgent))
  /\ (forall frames, Inv (WS.run JSON_parse frames newAgent)).
Proof.
  split; [apply SSE_finishStreaming_frame|].
  split; [apply WS_finishStreaming_frame|].
  split; [apply message_is_its_dispatch|].
  split; [apply cleared_by_own_end|].
  split.
  - intros events.
    exact (proj1 (Kept_SSE_run None JSON_parse events newAgent (conj Inv_newAgent I))).
  - intros frames.
    exact (proj1 (Kept_WS_run None JSON_parse frames newAgent (conj Inv_newAgent I))).
Qed.

(** C2 refuted as stated: the session [unfinished_code_session] ends with a
    message that carries [finished: 1]; the session is over (no current
    streaming message, EventSource closed), yet the code slot and the text
    slot are still accumulating and the code section has no copy button. *)
Lemma open_slot_survives_terminal_message :
  let s := SSE.run JSON.parse unfinished_code_session newAgent in
  currentStreamingMessage s = None
  /\ eventSource s = false
  /\ code (activeComponents s) = Some 0
  /\ text (activeComponents s) = Some 1
  /\ (appended <$> sections s !! 0) = Some []
  /\ (finalize_marks <$> sections s) = [0; 0].
Proof. repeat split; vm_compute; reflexivity. Qed.

(** * Further properties of the code *)

(** ** [formatText] *)

Lemma append_cons c (a b : string) : String c a +:+ b = String c (a +:+ b).
Proof. reflexivity. Qed.

Lemma append_nil_r (s : string) : s +:+ "" = s.
Proof. induction s as [|c s IH]; [done|]. by rewrite append_cons, IH. Qed.

Lemma append_assoc (a b c : string) : (a +:+ b) +:+ c = a +:+ (b +:+ c).
Proof. induction a as [|x a IH]; [done|]. by rewrite !append_cons, IH. Qed.

Lemma length_append (a b : string) :
  String.length (a +:+ b) = String.length a + String.length b.
Proof. induction a as [|x a IH]; [done|]. rewrite append_cons. simpl. by rewrite IH. Qed.

Lemma no_char_append c a b :
  no_char c (a +:+ b) = no_char c a && no_char c b.
Proof.
  induction a as [|x a IH]; [done|]. rewrite append_cons. simpl.
  destruct (Ascii.eqb x c); simpl; [done|exact IH].
Qed.

Lemma replace_newlines_plain s :
  no_char line_feed s = true -> replace_newlines s = s.
Proof.
  induction s as [|c s IH]; simpl; [done|].
  unfold line_feed in *. destruct (Ascii.eqb c "010"); simpl; [done|].
  intros H. by rewrite IH.
Qed.

Lemma replace_newlines_no_line_feed s :
  no_char line_feed (replace_newlines s) = true.
Proof.
  induction s as [|c s IH]; simpl; [done|].
  destruct (Ascii.eqb c "010") eqn:E; simpl; [exact IH|].
  unfold line_feed at 1. by rewrite E.
Qed.

Lemma strip_prefix_cons a p b s :
  strip_prefix (String a p) (String b s)
  = if Ascii.eqb a b then strip_prefix p s else None.
Proof. reflexivity. Qed.

Lemma replace_delimited_cons fuel d open close c s :
  replace_delimited (S fuel) d open close (String c s)
  = match strip_prefix d (String c s) with
    | Some body =>
        match lazy_until d body with
        | Some (t, rest) =>
            open +:+ t +:+ close +:+ replace_delimited fuel d open close rest
        | None => String c (replace_delimited fuel d open close s)
        end
    | None => String c (replace_delimited fuel d open close s)
    end.
Proof. reflexivity. Qed.

Lemma replace_delimited_nil fuel d open close :
  replace_delimited fuel d open close "" = "".
Proof. by destruct fuel. Qed.

(** A delimiter that opens with a star matches nowhere in star-free text. *)
Lemma replace_delimited_plain fuel d open close s :
  no_char star s = true ->
  replace_delimited fuel (String star d) open close s = s.
Proof.
  revert s. induction fuel as [|fuel IH]; intros s Hs; [done|].
  destruct s as [|c s]; [done|]. simpl in Hs.
  destruct (Ascii.eqb c star) eqn:E; simpl in Hs; [done|].
  rewrite replace_delimited_cons, strip_prefix_cons, Ascii.eqb_sym, E.
  by rewrite IH.
Qed.

Lemma replace_newlines_append_plain a b :
  no_char line_feed a = true ->
  replace_newlines (a +:+ b) = a +:+ replace_newlines b.
Proof.
  induction a as [|c a IH]; [done|]. intros H. simpl in H.
  rewrite !append_cons. cbn [replace_newlines].
  unfold line_feed in *. destruct (Ascii.eqb c "010"); simpl in H; [done|].
  by rewrite IH.
Qed.

Lemma join_with_cons sep x y rest :
  join_with sep (x :: y :: rest) = x +:+ sep +:+ join_with sep (y :: rest).
Proof. reflexivity. Qed.

Lemma replace_newlines_join lines :
  Forall (fun line => no_char line_feed line = true) lines ->
  replace_newlines (join_with LF lines) = join_with "<br>" lines.
Proof.
  induction lines as [|x [|y rest] IH]; intros H.
  - done.
  - apply replace_newlines_plain. by inversion H.
  - rewrite !join_with_cons.
    rewrite replace_newlines_append_plain by (by inversion H).
    f_equal. change (replace_newlines (LF +:+ join_with LF (y :: rest)))
      with ("<br>" +:+ replace_newlines (join_with LF (y :: rest))).
    f_equal. apply IH. by inversion H.
Qed.

Lemma no_star_join lines :
  Forall (fun line => no_char star line = true) lines ->
  no_char star (join_with LF lines) = true.
Proof.
  induction lines as [|x [|y rest] IH]; intros H.
  - done.
  - by inversion H.
  - rewrite join_with_cons, !no_char_append.
    inversion H as [|? ? Hx Hrest]; subst. rewrite Hx, (IH Hrest). reflexivity.
Qed.

(** X1. [formatText] turns every line feed into a [<br>]: the text it
    returns holds no line feed, and for lines that hold no asterisk and no
    line feed, the lines joined by line feeds come back as the same lines
    joined by [<br>]. *)
Theorem formatText_breaks_lines :
  (forall text_, no_char line_feed (formatText_string text_) = true)
  /\ (forall lines,
        Forall (fun line => no_char star line = true) lines ->
        Forall (fun line => no_char line_feed line = true) lines ->
        formatText_string (join_with LF lines) = join_with "<br>" lines).
Proof.
  split.
  - intros text_. unfold formatText_string. apply replace_newlines_no_line_feed.
  - intros lines Hs Hl. unfold formatText_string.
    change "**" with (String star (String star "")).
    change "*" with (String star "").
    rewrite (replace_delimited_plain _ _ _ _ _ (no_star_join lines Hs)).
    rewrite (replace_delimited_plain _ _ _ _ _ (no_star_join lines Hs)).
    by apply replace_newlines_join.
Qed.

Lemma formatText_breaks_lines_witness :
  formatText_string (join_with LF ["rows: 3"; ""; "done"])
  = join_with "<br>" ["rows: 3"; ""; "done"].
Proof.
  refine (proj2 formatText_breaks_lines ["rows: 3"; ""; "done"] _ _);
    by repeat constructor.
Defined.

(** X2. Text with no asterisk and no line feed comes back from [formatText]
    exactly as it went in; in particular markup such as [<img ...>] in a
    fragment is not escaped on its way to [innerHTML]. *)
Theorem formatText_keeps_plain_text (text_ : string) :
  no_char star text_ = true ->
  no_char line_feed text_ = true ->
  formatText_string text_ = text_.
Proof.
  intros Hs Hl. unfold formatText_string.
  change "**" with (String star (String star "")).
  change "*" with (String star "").
  rewrite (replace_delimited_plain _ _ _ _ text_ Hs).
  rewrite (replace_delimited_plain _ _ _ _ text_ Hs).
  by apply replace_newlines_plain.
Qed.

Lemma formatText_keeps_plain_text_witness :
  formatText_string "<img src=x onerror=alert(1)>" = "<img src=x onerror=alert(1)>".
Proof.
  apply (formatText_keeps_plain_text "<img src=x onerror=alert(1)>"); reflexivity.
Defined.

Lemma strip_prefix_append p rest : strip_prefix p (p +:+ rest) = Some rest.
Proof.
  induction p as [|c p IH]; [done|].
  by rewrite append_cons, strip_prefix_cons, Ascii.eqb_refl.
Qed.

Lemma lazy_until_eq d s :
  lazy_until d s
  = match strip_prefix d s with
    | Some rest => Some ("", rest)
    | None =>
        match s with
        | EmptyString => None
        | String c s' =>
            if at_line_terminator s then None
            else match lazy_until d s' with
                 | Some (t, rest) => Some (String c t, rest)
                 | None => None
                 end
        end
    end.
Proof. by destruct s. Qed.

(** Whether a line terminator starts at [c] does not depend on what follows
    a star. *)
Lemma at_line_terminator_star_tail c x rest :
  at_line_terminator (String c (x +:+ String star rest))
  = at_line_terminator (String c x).
Proof.
  unfold at_line_terminator, starts_with, LF, CR, LS, PS.
  destruct x as [|b [|a x]]; rewrite ?append_cons; cbn [strip_prefix String.append];
    repeat match goal with
           | |- context [Ascii.eqb ?u star] =>
               change (Ascii.eqb u star) with false
           end;
    repeat match goal with
           | |- context [if Ascii.eqb ?u ?v then _ else _] =>
               destruct (Ascii.eqb u v)
           end; reflexivity.
Qed.

(** In star-free text that stays on one line, the lazy scan runs to the
    first closing delimiter. *)
Lemma lazy_until_found d x rest :
  no_char star x = true -> one_line x = true ->
  lazy_until (String star d) (x +:+ String star d +:+ rest) = Some (x, rest).
Proof.
  induction x as [|c x IH]; intros Hs Hl.
  - rewrite lazy_until_eq. change ("" +:+ String star d +:+ rest) with (String star d +:+ rest).
    by rewrite strip_prefix_append.
  - simpl in Hs, Hl.
    destruct (Ascii.eqb c star) eqn:E; simpl in Hs; [done|].
    destruct (at_line_terminator (String c x)) eqn:T; simpl in Hl; [done|].
    rewrite lazy_until_eq, append_cons, strip_prefix_cons, Ascii.eqb_sym, E.
    rewrite append_cons, at_line_terminator_star_tail, T.
    by rewrite <- append_cons, IH.
Qed.

(** With no star in what follows, the scan for a closing delimiter fails. *)
Lemma lazy_until_none d x :
  no_char star x = true -> lazy_until (String star d) x = None.
Proof.
  induction x as [|c x IH]; intros Hs; [done|]. simpl in Hs.
  destruct (Ascii.eqb c star) eqn:E; simpl in Hs; [done|].
  rewrite lazy_until_eq, strip_prefix_cons, Ascii.eqb_sym, E, (IH Hs).
  by destruct (at_line_terminator (String c x)).
Qed.

(** The scan copies a star-free prefix and goes on behind it. *)
Lemma replace_delimited_skip fuel d open close a r :
  no_char star a = true -> String.length a <= fuel ->
  replace_delimited fuel (String star d) open close (a +:+ r)
  = a +:+ replace_delimited (fuel - String.length a) (String star d) open close r.
Proof.
  revert fuel. induction a as [|c a IH]; intros fuel Hs Hf.
  - simpl. by rewrite Nat.sub_0_r.
  - simpl in Hs, Hf. destruct fuel as [|fuel]; [lia|].
    destruct (Ascii.eqb c star) eqn:E; simpl in Hs; [done|].
    rewrite append_cons, replace_delimited_cons, strip_prefix_cons, Ascii.eqb_sym, E.
    rewrite IH by (done || lia). by rewrite append_cons.
Qed.

Lemma one_line_no_line_feed s : one_line s = true -> no_char line_feed s = true.
Proof.
  induction s as [|c s IH]; [done|]. simpl.
  unfold at_line_terminator, starts_with, LF at 1. rewrite strip_prefix_cons.
  unfold line_feed at 1. rewrite (Ascii.eqb_sym c).
  destruct (Ascii.eqb "010" c); simpl; [done|].
  intros H. apply IH. by destruct (_ || _) in H.
Qed.

(** At an opening delimiter whose closing one is found, the match is
    replaced and the scan goes on behind it. *)
Lemma replace_delimited_match fuel a d open close body t rest :
  lazy_until (String a d) body = Some (t, rest) ->
  replace_delimited (S fuel) (String a d) open close (String a d +:+ body)
  = open +:+ t +:+ close +:+ replace_delimited fuel (String a d) open close rest.
Proof.
  intros H. rewrite append_cons, replace_delimited_cons, <- append_cons.
  by rewrite strip_prefix_append, H.
Qed.

(** X3. Bold markup: in a text [a**x**b] whose parts [a], [x], [b] hold no
    asterisk and no line feed, and where [x] holds no other line terminator
    either, [formatText] wraps [x] in [<strong>] and changes nothing else. *)
Theorem formatText_bold (a x b : string) :
  no_char star a = true -> no_char star x = true -> no_char star b = true ->
  no_char line_feed a = true -> one_line x = true -> no_char line_feed b = true ->
  formatText_string (a +:+ "**" +:+ x +:+ "**" +:+ b)
  = a +:+ "<strong>" +:+ x +:+ "</strong>" +:+ b.
Proof.
  intros Ha Hx Hb La Lx Lb.
  assert (Hbold :
    replace_delimited (String.length (a +:+ "**" +:+ x +:+ "**" +:+ b))
      "**" "<strong>" "</strong>" (a +:+ "**" +:+ x +:+ "**" +:+ b)
    = a +:+ "<strong>" +:+ x +:+ "</strong>" +:+ b).
  { change "**" with (String star (String star "")).
    rewrite replace_delimited_skip by (done || rewrite length_append; lia).
    rewrite length_append, Nat.add_comm, Nat.add_sub.
    rewrite (length_append (String star (String star ""))).
    cbn [String.length Nat.add].
    rewrite (replace_delimited_match _ _ _ _ _ _ x b (lazy_until_found _ x b Hx Lx)).
    by rewrite replace_delimited_plain. }
  unfold formatText_string. rewrite Hbold.
  assert (Hstar : no_char star (a +:+ "<strong>" +:+ x +:+ "</strong>" +:+ b) = true)
    by (rewrite !no_char_append, Ha, Hx, Hb; reflexivity).
  change "*" with (String star "").
  rewrite (replace_delimited_plain _ _ _ _ _ Hstar).
  apply replace_newlines_plain.
  rewrite !no_char_append, La, Lb, (one_line_no_line_feed x Lx). reflexivity.
Qed.

Lemma formatText_bold_witness :
  formatText_string ("total: " +:+ "**" +:+ "42" +:+ "**" +:+ " rows")
  = "total: " +:+ "<strong>" +:+ "42" +:+ "</strong>" +:+ " rows".
Proof. apply (formatText_bold "total: " "42" " rows"); reflexivity. Defined.

(** X4. A bold marker that is never closed does not stay in the text: in
    [**x] with no further asterisk and no line feed in [x], the italic pass
    takes the two asterisks for an empty emphasis, and [formatText] returns
    [<em></em>x]. *)
Theorem formatText_unclosed_bold (x : string) :
  no_char star x = true -> no_char line_feed x = true ->
  formatText_string ("**" +:+ x) = "<em></em>" +:+ x.
Proof.
  intros Hx Lx.
  assert (Hbold : forall fuel,
    replace_delimited fuel "**" "<strong>" "</strong>" ("**" +:+ x) = "**" +:+ x).
  { intros fuel. change "**" with (String star (String star "")).
    rewrite !append_cons. change ("" +:+ x) with x.
    destruct fuel as [|fuel]; [done|].
    rewrite replace_delimited_cons.
    rewrite !strip_prefix_cons, !Ascii.eqb_refl. cbn [strip_prefix].
    rewrite (lazy_until_none _ x Hx).
    destruct fuel as [|fuel]; [done|].
    rewrite replace_delimited_cons, !strip_prefix_cons, Ascii.eqb_refl.
    replace (strip_prefix (String star "") x) with (@None string)
      by (destruct x as [|c x]; [done|]; simpl in Hx;
          rewrite strip_prefix_cons, Ascii.eqb_sym;
          by destruct (Ascii.eqb c star)).
    by rewrite replace_delimited_plain. }
  unfold formatText_string. rewrite Hbold.
  change "**" with (String star (String star "")).
  change "*" with (String star "").
  rewrite !append_cons. change ("" +:+ x) with x. cbn [String.length].
  rewrite replace_delimited_cons, strip_prefix_cons, Ascii.eqb_refl.
  cbn [strip_prefix].
  rewrite lazy_until_eq, strip_prefix_cons, Ascii.eqb_refl. cbn [strip_prefix].
  rewrite replace_delimited_plain by done.
  change ("<em>" +:+ "" +:+ "</em>" +:+ x) with ("<em></em>" +:+ x).
  apply replace_newlines_plain. exact Lx.
Qed.

Lemma formatText_unclosed_bold_witness :
  formatText_string ("**" +:+ "Note") = "<em></em>" +:+ "Note".
Proof. apply (formatText_unclosed_bold "Note"); reflexivity. Defined.

(** ** The fence pattern of [appendToCodeBlock] *)

Lemma strip_fences_cons fuel c s :
  strip_fences (S fuel) (String c s)
  = match match_fence (String c s) with
    | Some rest => strip_fences fuel rest
    | None => String c (strip_fences fuel s)
    end.
Proof. reflexivity. Qed.

Lemma strip_fences_nil fuel : strip_fences fuel "" = "".
Proof. by destruct fuel. Qed.

(** No fence starts at a character that is no backtick, unless it is a line
    feed with a backtick behind it. *)
Lemma match_fence_none c s :
  Ascii.eqb c backtick = false ->
  starts_with (String backtick "") s = false ->
  match_fence (String c s) = None.
Proof.
  intros Hc Hs. unfold match_fence, fence_python, fence.
  change (LF ++ "```")%string with (String line_feed "```").
  change "```python" with (String backtick "``python").
  change "```" with (String backtick "``").
  rewrite !strip_prefix_cons, (Ascii.eqb_sym backtick c), Hc.
  destruct (Ascii.eqb line_feed c); [|done].
  unfold starts_with in Hs. destruct s as [|c2 s]; [done|].
  rewrite strip_prefix_cons in Hs |- *.
  by destruct (Ascii.eqb backtick c2).
Qed.

Lemma starts_with_backtick_free s :
  no_char backtick s = true -> starts_with (String backtick "") s = false.
Proof.
  destruct s as [|c s]; [done|]. simpl. unfold starts_with.
  rewrite strip_prefix_cons, (Ascii.eqb_sym backtick c).
  by destruct (Ascii.eqb c backtick).
Qed.

Lemma strip_fences_plain fuel s :
  no_char backtick s = true -> strip_fences fuel s = s.
Proof.
  revert s. induction fuel as [|fuel IH]; intros s Hs; [done|].
  destruct s as [|c s]; [done|]. rewrite strip_fences_cons.
  simpl in Hs. destruct (Ascii.eqb c backtick) eqn:E; simpl in Hs; [done|].
  rewrite (match_fence_none c s E (starts_with_backtick_free s Hs)).
  by rewrite IH.
Qed.

(** X5. A code fragment that holds no backtick is appended as it is. *)
Theorem cleanCode_keeps_fenceless_code (code_ : string) :
  no_char backtick code_ = true -> cleanCode_string code_ = code_.
Proof. apply strip_fences_plain. Qed.

Lemma cleanCode_keeps_fenceless_code_witness :
  cleanCode_string "df.groupby('k').sum()" = "df.groupby('k').sum()".
Proof. apply (cleanCode_keeps_fenceless_code "df.groupby('k').sum()"). reflexivity. Defined.

(** Backtick-free text in front of a closing fence on its own line. *)
Lemma strip_fences_closing fuel body :
  no_char backtick body = true ->
  String.length body < fuel ->
  strip_fences fuel (body +:+ String line_feed "```") = body.
Proof.
  revert fuel. induction body as [|c body IH]; intros fuel Hb Hf.
  - destruct fuel as [|fuel]; [lia|].
    change ("" +:+ String line_feed "```") with (String line_feed "```").
    rewrite strip_fences_cons.
    change (match_fence (String line_feed "```")) with (Some "").
    apply strip_fences_nil.
  - simpl in Hb, Hf. destruct fuel as [|fuel]; [lia|].
    destruct (Ascii.eqb c backtick) eqn:E; simpl in Hb; [done|].
    rewrite append_cons, strip_fences_cons, match_fence_none; [|done|].
    + rewrite IH by (done || lia). done.
    + destruct body as [|c2 body]; [done|]. simpl in Hb.
      rewrite append_cons. unfold starts_with.
      rewrite strip_prefix_cons, (Ascii.eqb_sym backtick c2).
      by destruct (Ascii.eqb c2 backtick).
Qed.

(** X6. A fragment that is one fenced block -- the opening [```python], a
    line feed, a body with no backtick, a line feed, the closing [```] -- is
    appended as the body alone. *)
Theorem cleanCode_strips_python_fence (body : string) :
  no_char backtick body = true ->
  cleanCode_string ("```python" +:+ LF +:+ body +:+ LF +:+ "```") = body.
Proof.
  intros Hb. unfold cleanCode_string.
  rewrite !length_append. cbn [String.length LF Nat.add].
  change ("```python" +:+ LF +:+ body +:+ LF +:+ "```")
    with (String backtick ("``python" +:+ LF +:+ body +:+ LF +:+ "```")).
  rewrite strip_fences_cons.
  assert (match_fence
            (String backtick ("``python" +:+ LF +:+ body +:+ LF +:+ "```"))
          = Some (body +:+ String line_feed "```")) as ->.
  { unfold match_fence.
    change (String backtick ("``python" +:+ LF +:+ body +:+ LF +:+ "```"))
      with (fence_python +:+ (LF +:+ body +:+ LF +:+ "```")).
    rewrite strip_prefix_append.
    change (LF +:+ body +:+ LF +:+ "```") with (LF +:+ (body +:+ LF +:+ "```")).
    by rewrite strip_prefix_append. }
  apply strip_fences_closing; [done|lia].
Qed.

Lemma cleanCode_strips_python_fence_witness :
  cleanCode_string ("```python" +:+ LF +:+ "x = 1" +:+ LF +:+ "```") = "x = 1".
Proof. apply (cleanCode_strips_python_fence "x = 1"). reflexivity. Defined.

(** ** Fragments in sequence *)

Lemma set_sections_id s : set_sections (fun l => l) s = s.
Proof. by destruct s. Qed.

Lemma set_sections_alter_ext f g i s :
  (forall n, f n = g n) ->
  set_sections (alter f i) s = set_sections (alter g i) s.
Proof.
  intros H. unfold set_sections. f_equal.
  apply list_alter_ext; [|done]. intros n _. apply H.
Qed.

Lemma set_sections_alter_twice f g i s :
  set_sections (alter g i) (set_sections (alter f i) s)
  = set_sections (alter (g ∘ f) i) s.
Proof. unfold set_sections. simpl. f_equal. apply list_alter_alter_eq. Qed.

Lemma set_sections_alter_same f i s :
  (forall n, f n = n) -> set_sections (alter f i) s = s.
Proof.
  intros H. destruct s. unfold set_sections. simpl. f_equal.
  by apply list_alter_id.
Qed.

Lemma appendToCodeBlock_string fragment s el :
  code (activeComponents s) = Some el ->
  appendToCodeBlock (JString fragment) s
  = Done tt (set_sections (alter (add_textContent (cleanCode_string fragment)) el) s).
Proof.
  intros E. unfold appendToCodeBlock. unfold_monad. simpl.
  rewrite E. simpl. by rewrite E.
Qed.

(** X7. Code fragments accumulate in arrival order.  For fragments of
    plain text (printable ASCII characters, tabs and line feeds, which
    highlighting gives back as they are), appended one call after the other
    to an accumulating code slot whose text so far is plain: every call
    returns normally and the client changes in one place only -- the code
    element of the slot's section, whose text grows by the fragments, each
    stripped of its fence markers on its own, in the order they came. *)
Theorem code_fragments_accumulate_in_order
    (fragments : list string) (s : ExcelAgent) (el : nat) :
  code (activeComponents s) = Some el ->
  Forall (fun f => plain_code f = true) fragments ->
  (forall n, sections s !! el = Some n -> plain_code (textContent n) = true) ->
  forEach fragments (fun f => appendToCodeBlock (JString f)) s
  = Done tt
      (set_sections
         (alter (add_textContent (joined (cleanCode_string <$> fragments))) el) s).
Proof.
  intros E _ _. revert s E.
  induction fragments as [|f fragments IH]; intros s E.
  - simpl. unfold mret, M_ret, ret. f_equal. symmetry.
    apply set_sections_alter_same. intros n.
    destruct n. unfold add_textContent. simpl. by rewrite append_nil_r.
  - cbn [forEach]. unfold mbind, M_bind, bind.
    rewrite (appendToCodeBlock_string f s el E).
    rewrite IH by done. f_equal. rewrite set_sections_alter_twice.
    apply set_sections_alter_ext. intros n. destruct n.
    unfold add_textContent. simpl. by rewrite append_assoc.
Qed.

Lemma code_fragments_accumulate_in_order_witness :
  forEach ["x = 1"; "``"; "`y"] (fun f => appendToCodeBlock (JString f))
    (state_of (initializeCodeBlock asked))
  = Done tt
      (set_sections
         (alter (add_textContent (joined (cleanCode_string <$> ["x = 1"; "``"; "`y"]))) 0)
         (state_of (initializeCodeBlock asked))).
Proof.
  refine (code_fragments_accumulate_in_order ["x = 1"; "``"; "`y"]
            (state_of (initializeCodeBlock asked)) 0 _ _ _).
  - reflexivity.
  - by repeat constructor.
  - intros n H. vm_compute in H. by injection H as <-.
Defined.

Lemma append_block_string JSON_parse t cls fragment s el :
  block_class t = Some cls ->
  slot t (activeComponents s) = Some el ->
  append JSON_parse t (JString fragment) s
  = Done tt (set_sections
               (alter (add_content (Div cls (formatText_string fragment))) el) s).
Proof.
  intros Hc E.
  destruct t; simplify_eq/=; unfold_methods; unfold_monad; simpl;
    rewrite E; simpl; by rewrite E.
Qed.

(** X8. Result, error and text fragments accumulate in arrival order:
    appending string fragments, one call after the other, to an accumulating
    result, error or text slot returns normally every time and changes the
    client in one place only -- the content element of the slot's section,
    which gets one block per fragment, holding [formatText] of it, in the
    order they came. *)
Theorem block_fragments_accumulate_in_order
    (JSON_parse : JSValue -> option JSValue) (t : ContentType) (cls : string)
    (fragments : list string) (s : ExcelAgent) (el : nat) :
  block_class t = Some cls ->
  slot t (activeComponents s) = Some el ->
  forEach fragments (fun f => append JSON_parse t (JString f)) s
  = Done tt
      (set_sections
         (alter (add_contents
                   ((fun f => Div cls (formatText_string f)) <$> fragments)) el) s).
Proof.
  intros Hc. revert s. induction fragments as [|f fragments IH]; intros s E.
  - simpl. unfold mret, M_ret, ret. f_equal. symmetry.
    apply set_sections_alter_same. intros n.
    destruct n. unfold add_contents. simpl. by rewrite app_nil_r.
  - cbn [forEach]. unfold mbind, M_bind, bind.
    rewrite (append_block_string JSON_parse t cls f s el Hc E).
    rewrite IH by (simpl; done). f_equal. rewrite set_sections_alter_twice.
    apply set_sections_alter_ext. intros n. destruct n.
    unfold add_contents, add_content. simpl. by rewrite <- app_assoc.
Qed.

Lemma block_fragments_accumulate_in_order_witness :
  forEach ["first"; "**second**"] (fun f => append JSON.parse Result (JString f))
    (state_of (initializeResultSection asked))
  = Done tt
      (set_sections
         (alter (add_contents
                   ((fun f => Div "result-text" (formatText_string f))
                      <$> ["first"; "**second**"])) 0)
         (state_of (initializeResultSection asked))).
Proof.
  apply (block_fragments_accumulate_in_order JSON.parse Result "result-text"
           ["first"; "**second**"] (state_of (initializeResultSection asked)) 0);
    reflexivity.
Defined.

(** ** Arrays of rows *)

Lemma renderRow_cells table row s :
  row <> JNull ->
  renderRow table row s
  = Done tt (set_sections (alter (add_body_row (cells_of row)) (container table)) s).
Proof.
  intros Hn. unfold renderRow. unfold_monad. by destruct row.
Qed.

Lemma renderRow_null table s : renderRow table JNull s = Thrown TypeError s.
Proof. reflexivity. Qed.


Lemma forEach_renderRow table items s :
  Forall (fun row => row <> JNull) items ->
  forEach items (renderRow table) s
  = Done tt (set_sections
               (alter (add_body_rows (cells_of <$> items)) (container table)) s).
Proof.
  intros H. revert s. induction H as [|row items Hrow _ IH]; intros s.
  - simpl. unfold mret, M_ret, ret. f_equal. symmetry.
    apply set_sections_alter_same. intros n. destruct n.
    unfold add_body_rows. simpl. by rewrite app_nil_r.
  - cbn [forEach]. unfold mbind, M_bind, bind.
    rewrite (renderRow_cells table row s Hrow), IH. f_equal.
    rewrite set_sections_alter_twice. apply set_sections_alter_ext.
    intros n. destruct n. unfold add_body_rows, add_body_row. simpl.
    by rewrite <- app_assoc.
Qed.

(** An element that is an object or an array and not [null] has keys. *)
Lemma Object_keys_of_object v :
  v <> JNull -> String.eqb (typeof v) "object" = true -> is_Some (Object_keys v).
Proof. intros Hn Ht. destruct v; try done; by eexists. Qed.

Lemma set_data_same s table :
  data (activeComponents s) = Some table ->
  set_activeComponents
    (set_data (Some {| container := container table;
                       headerInitialized := headerInitialized table |})) s = s.
Proof.
  destruct s as [ms ss cur [c d r e x] ld es pr co], table. simpl.
  by intros ->.
Qed.

Section Arrays.
Variable JSON_parse : JSValue -> option JSValue.

(** [renderDataTable] on an array with no [null] in it. *)
Lemma renderDataTable_array items s table :
  Forall (fun row => row <> JNull) items ->
  data (activeComponents s) = Some table ->
  renderDataTable (JArray items) s
  = Done tt
      (set_activeComponents
         (set_data (Some {| container := container table;
                            headerInitialized :=
                              header_after (headerInitialized table) items |}))
         (set_sections
            (alter (rendered_array (headerInitialized table) items)
               (container table)) s)).
Proof.
  intros Hitems E.
  unfold renderDataTable. unfold mbind, M_bind, bind, getComponents, or_TypeError.
  rewrite E. unfold mret, M_ret, ret. cbn beta iota.
  destruct items as [|first rest].
  - unfold header_after, rendered_array. rewrite orb_false_r. simpl.
    f_equal. rewrite set_sections_alter_same.
    + symmetry. by apply set_data_same.
    + intros n. destruct n. unfold add_body_rows. simpl. by rewrite app_nil_r.
  - pose proof (Forall_inv Hitems) as Hfirst.
    assert (Hsame : forall f b,
      headerInitialized table = b ->
      set_activeComponents
        (set_data (Some {| container := container table; headerInitialized := b |}))
        (set_sections f s) = set_sections f s).
    { intros f b <-. apply set_data_same. by destruct s. }
    unfold header_after, rendered_array.
    destruct (headerInitialized table) eqn:Hh; cbn [negb andb orb]; cbn beta iota.
    + rewrite (forEach_renderRow table (first :: rest) s Hitems). f_equal.
      by rewrite Hsame.
    + destruct (String.eqb (typeof first) "object") eqn:Ht.
      * destruct (Object_keys_of_object first Hfirst Ht) as [keys Hk].
        unfold initializeHeader, setHeaderInitialized.
        unfold mbind, M_bind, bind, or_TypeError, updateSection, modify.
        rewrite Hk. unfold mret, M_ret, ret. cbn beta iota.
        cbn [activeComponents set_sections]. rewrite E.
        rewrite (forEach_renderRow table (first :: rest) _ Hitems). f_equal.
        destruct s. unfold set_activeComponents, set_sections. simpl. f_equal.
        rewrite list_alter_alter_eq. by apply list_alter_ext.
      * rewrite (forEach_renderRow table (first :: rest) s Hitems). f_equal.
        by rewrite Hsame.
Qed.


(** X9. A data fragment that parses to an array with no [null] in it and
    scalar cells, on an open data table: the section gets one body row per
    element, in order, with the cells of [cells_of]; a header row from the
    keys of the first element is put in front exactly when no header was
    there and that element is an object or an array.  Nothing else of the
    state changes. *)
Theorem array_fragment_renders_rows_in_order fragment items s table :
  JSON_parse (JString fragment) = Some (JArray items) ->
  Forall (fun row => row <> JNull) items ->
  Forall scalar_row items ->
  data (activeComponents s) = Some table ->
  appendToDataTable JSON_parse (JString fragment) s
  = Done tt
      (set_activeComponents
         (set_data (Some {| container := container table;
                            headerInitialized :=
                              header_after (headerInitialized table) items |}))
         (set_sections
            (alter (rendered_array (headerInitialized table) items)
               (container table)) s)).
Proof.
  intros Hp Hitems _ E.
  rewrite appendToDataTable_after_ensure.
  unfold ensureDataTable. unfold mbind, M_bind, bind, getComponents.
  rewrite E. unfold mret, M_ret, ret. cbn beta iota.
  unfold try_catch. rewrite Hp.
  by rewrite (renderDataTable_array items s table Hitems E).
Qed.


End Arrays.

Lemma array_fragment_renders_rows_in_order_witness :
  appendToDataTable JSON.parse (JString fragment_mixed) table_opened
  = Done tt
      (set_activeComponents
         (set_data (Some {| container := container fresh_table;
                            headerInitialized :=
                              header_after (headerInitialized fresh_table) rows_mixed |}))
         (set_sections
            (alter (rendered_array (headerInitialized fresh_table) rows_mixed)
               (container fresh_table)) table_opened)).
Proof.
  refine (array_fragment_renders_rows_in_order JSON.parse fragment_mixed
            rows_mixed table_opened fresh_table _ _ _ _).
  - reflexivity.
  - by repeat constructor.
  - by repeat constructor.
  - reflexivity.
Defined.



(** ** The session around the content handlers *)

Global Instance same_session_preorder : PreOrder same_session.
Proof.
  split.
  - by intros s.
  - intros s1 s2 s3 (A1 & B1 & C1 & D1 & E1 & F1) (A2 & B2 & C2 & D2 & E2 & F2).
    repeat split; congruence.
Qed.

Lemma appendSection_same_session cls : stable same_session (appendSection cls).
Proof.
  intros s. unfold appendSection.
  destruct (currentStreamingMessage s) as [m|]; [|done].
  repeat split. simpl. by apply fmap_alter_same.
Qed.

Lemma updateSection_same_session el f : stable same_session (updateSection el f).
Proof. by intros s. Qed.

Lemma setComponent_same_session f : stable same_session (setComponent f).
Proof. by intros s. Qed.

Lemma setHeaderInitialized_same_session : stable same_session setHeaderInitialized.
Proof.
  intros s. unfold setHeaderInitialized.
  by destruct (data (activeComponents s)).
Qed.

Ltac session_step :=
  first [ apply appendSection_same_session
        | apply updateSection_same_session
        | apply setComponent_same_session
        | apply setHeaderInitialized_same_session
        | stable_step ].

Section Session.
Variable JSON_parse : JSValue -> option JSValue.

(** The content handlers never touch the session, whether they return or
    throw. *)
Lemma dispatch_same_session content_type answer status :
  stable same_session (dispatch JSON_parse content_type answer status).
Proof.
  rewrite dispatch_normalize, handleContent_cases.
  destruct (normalize content_type);
    unfold initialize, append, finalize; unfold_methods; unfold_methods;
    unfold renderDataTableAsText, renderDataTable, initializeHeader, renderRow,
      formatText;
    repeat session_step.
Qed.

End Session.

(** ** Frames that end in the callback's [catch] *)

Section Frames.
Variable JSON_parse : JSValue -> option JSValue.


Lemma destructure_fields data_ s answer finished content_type status s0 :
  destructure data_ s = Done (answer, finished, content_type, status) s0 ->
  s0 = s /\ get_prop data_ "finished" = Some finished.
Proof.
  unfold destructure. unfold_monad.
  destruct (get_prop data_ "answer"); [|done].
  destruct (get_prop data_ "finished"); [|done].
  destruct (get_prop data_ "content_type"); [|done].
  destruct (get_prop data_ "content_status"); [|done].
  by intros [= <- <- <- <- <-].
Qed.

(** [text.replace] and [code.replace] exist on strings only. *)
Lemma append_non_string t answer s :
  t <> Data ->
  as_string answer = None ->
  exists s1, append JSON_parse t answer s = Thrown TypeError s1.
Proof.
  intros Ht Ha.
  destruct s as [ms ss [m|] [c d r e x] ld es pr co];
    destruct t; try done;
    [destruct c|destruct r|destruct e|destruct x
    |destruct c|destruct r|destruct e|destruct x];
    unfold append; unfold_methods; unfold_methods;
    unfold appendSection; unfold_monad; simpl; rewrite ?Ha; simpl; by eexists.
Qed.

(** X12. A message for the code, result, error or text slot whose [answer]
    is not a string (absent, for one) and whose status is neither 'start' nor
    'end' throws a TypeError inside the handler, so [finishStreaming] is not
    reached, whatever its [finished] flag: the session stays as it was (the
    streaming message current, the EventSource open), apart from what the
    callback's [catch] does.  The WebSocket client keeps its loading
    indicator as it was. *)
Theorem message_without_text_never_finishes
    event_data envelope code_ inner answer finished content_type status s m :
  JSON_parse (JString event_data) = Some envelope ->
  get_prop envelope "code" = Some code_ ->
  is_number code_ 0 = true ->
  get_prop envelope "data" = Some inner ->
  destructure inner s = Done (answer, finished, content_type, status) s ->
  as_string answer = None ->
  normalize content_type <> Data ->
  is_string status "start" = false ->
  is_string status "end" = false ->
  currentStreamingMessage s = Some m ->
  exists s1,
    same_session s s1
    /\ SSE.onmessage JSON_parse event_data s = Done tt (SSE_caught TypeError s1)
    /\ WS.onmessage JSON_parse event_data s = Done tt (WS_caught s1).
Proof.
  intros Hp Hc Hz Hi Hd Ha Ht Hs He Hm.
  pose proof (dispatch_same_session JSON_parse content_type answer status s) as Hsame.
  assert (Hthrow : exists s1,
    dispatch JSON_parse content_type answer status s = Thrown TypeError s1).
  { rewrite dispatch_normalize, (handleContent_append JSON_parse _ _ _ Hs He).
    by apply append_non_string. }
  destruct Hthrow as [s1 Hthrow]. rewrite Hthrow in Hsame. simpl in Hsame.
  exists s1. split; [exact Hsame|].
  unfold SSE.onmessage, WS.onmessage, SSE.handleStreamingMessage,
    WS.handleWebSocketMessage, SSE.reject, hideLoading, SSE_caught, WS_caught.
  unfold mbind, M_bind, bind, mret, M_ret, try_catch, or_TypeError, get, modify,
    ret, throw.
  rewrite Hp, Hc. cbn beta iota. rewrite Hz, Hi. cbn beta iota.
  rewrite Hm. cbn beta iota. rewrite Hd, Hthrow. simpl.
  destruct Hsame as (_ & _ & _ & _ & _ & _).
  by destruct (promise s1).
Qed.

(** X13. A message with [finished: 1] whose content is rendered without an
    exception closes the session after rendering: no streaming message is
    current and the loading indicator is hidden in both clients; the
    EventSource client also closes its EventSource and resolves the promise
    if it is pending.  Sections and slots are as the rendering left them. *)
Theorem terminal_message_closes_session
    event_data envelope code_ inner answer finished content_type status s m s1 :
  JSON_parse (JString event_data) = Some envelope ->
  get_prop envelope "code" = Some code_ ->
  is_number code_ 0 = true ->
  get_prop envelope "data" = Some inner ->
  destructure inner s = Done (answer, finished, content_type, status) s ->
  is_number finished 1 = true ->
  currentStreamingMessage s = Some m ->
  dispatch JSON_parse content_type answer status s = Done tt s1 ->
  (let s' := state_of (SSE.onmessage JSON_parse event_data s) in
   currentStreamingMessage s' = None
   /\ eventSource s' = false
   /\ loading s' = false
   /\ promise s' = match promise s with Pending => Resolved | p => p end
   /\ console s' = console s
   /\ sections s' = sections s1
   /\ activeComponents s' = activeComponents s1)
  /\ (let s' := state_of (WS.onmessage JSON_parse event_data s) in
      currentStreamingMessage s' = None
      /\ loading s' = false
      /\ console s' = console s
      /\ sections s' = sections s1
      /\ activeComponents s' = activeComponents s1).
Proof.
  intros Hp Hc Hz Hi Hd Hf Hm Hr.
  pose proof (dispatch_same_session JSON_parse content_type answer status s) as Hsame.
  rewrite Hr in Hsame. simpl in Hsame.
  destruct Hsame as (Hcur & Hes & Hpr & Hld & Hco & _).
  destruct (destructure_fields _ _ _ _ _ _ _ Hd) as [_ Hfin].
  unfold SSE.onmessage, WS.onmessage, SSE.handleStreamingMessage,
    WS.handleWebSocketMessage, SSE.finishStreaming, WS.finishStreaming,
    SSE.resolve, removeStreamingClass, hideLoading.
  unfold mbind, M_bind, bind, mret, M_ret, try_catch, or_TypeError, get, modify,
    ret, throw.
  rewrite Hp, Hc. cbn beta iota. rewrite Hz, Hi. cbn beta iota.
  rewrite Hm. cbn beta iota. rewrite Hd, Hr. cbn beta iota. rewrite Hf.
  cbn beta iota. cbn [currentStreamingMessage set_loading]. rewrite Hcur, Hm.
  cbn beta iota. rewrite Hfin. cbn beta iota. rewrite Hf.
  split.
  - cbn [eventSource promise set_currentStreamingMessage set_messages set_loading].
    destruct (eventSource s1) eqn:E1; cbn beta iota;
      cbn [eventSource promise set_currentStreamingMessage set_messages
             set_loading set_eventSource];
      rewrite Hpr; destruct (promise s) eqn:Ep; simpl;
      rewrite ?E1, ?Hpr, ?Ep, ?Hco; by repeat split.
  - simpl. rewrite ?Hco. by repeat split.
Qed.

End Frames.


Lemma message_without_text_never_finishes_witness :
  exists s1,
    same_session asked s1
    /\ SSE.onmessage JSON.parse frame_without_answer asked
       = Done tt (SSE_caught TypeError s1)
    /\ WS.onmessage JSON.parse frame_without_answer asked = Done tt (WS_caught s1).
Proof.
  eapply (message_without_text_never_finishes JSON.parse frame_without_answer).
  - vm_compute. reflexivity.
  - vm_compute. reflexivity.
  - vm_compute. reflexivity.
  - vm_compute. reflexivity.
  - vm_compute. reflexivity.
  - reflexivity.
  - vm_compute. discriminate.
  - reflexivity.
  - reflexivity.
  - vm_compute. reflexivity.
Defined.

Lemma terminal_message_closes_session_witness :
  (let s' := state_of (SSE.onmessage JSON.parse frame_done asked) in
   currentStreamingMessage s' = None
   /\ eventSource s' = false
   /\ loading s' = false
   /\ promise s' = match promise asked with Pending => Resolved | p => p end
   /\ console s' = console asked
   /\ sections s'
      = sections (state_of (dispatch JSON.parse (JString "text") (JString "done")
                              (JString "in_progress") asked))
   /\ activeComponents s'
      = activeComponents (state_of (dispatch JSON.parse (JString "text") (JString "done")
                                      (JString "in_progress") asked)))
  /\ (let s' := state_of (WS.onmessage JSON.parse frame_done asked) in
      currentStreamingMessage s' = None
      /\ loading s' = false
      /\ console s' = console asked
      /\ sections s'
         = sections (state_of (dispatch JSON.parse (JString "text") (JString "done")
                                 (JString "in_progress") asked))
      /\ activeComponents s'
         = activeComponents (state_of (dispatch JSON.parse (JString "text")
                                         (JString "done") (JString "in_progress") asked))).
Proof.
  eapply (terminal_message_closes_session JSON.parse frame_done _ _ _
            (JString "done") _ (JString "text") (JString "in_progress") asked 0).
  - vm_compute. reflexivity.
  - vm_compute. reflexivity.
  - vm_compute. reflexivity.
  - vm_compute. reflexivity.
  - vm_compute. reflexivity.
  - vm_compute. reflexivity.
  - vm_compute. reflexivity.
  - vm_compute. reflexivity.
Defined.


(** ** The class list of a streaming message *)

Lemma remove_class_unmarked msg :
  contentClasses msg = streaming_content_classes ->
  remove_class "streaming-message" msg = msg.
Proof. destruct msg as [cs ch]. simpl. by intros ->. Qed.

Lemma alter_unmarked m (l : list StreamingMessage) :
  Forall (fun msg => contentClasses msg = streaming_content_classes) l ->
  alter (remove_class "streaming-message") m l = l.
Proof.
  intros H. apply list_eq. intros j. rewrite list_lookup_alter.
  case_decide; [subst|done].
  destruct (l !! j) as [msg|] eqn:E; simpl; [|done].
  f_equal. apply remove_class_unmarked.
  by apply (Forall_lookup_1 _ _ _ _ H E).
Qed.

Lemma stable_preserves_unmarked {A} (m : M A) :
  stable same_session m -> preserves unmarked m.
Proof.
  intros H s Hs. destruct (H s) as (_ & _ & _ & _ & _ & Hc).
  unfold unmarked in *.
  apply (proj1 (Forall_fmap contentClasses
                  (fun cs => cs = streaming_content_classes) _)).
  rewrite Hc.
  by apply (proj2 (Forall_fmap contentClasses
                     (fun cs => cs = streaming_content_classes) _)).
Qed.

Lemma preserves_unmarked_modify f :
  (forall s, messages (f s) = messages s) -> preserves unmarked (modify f).
Proof. intros H s Hs. unfold unmarked. simpl. by rewrite H. Qed.

Lemma preserves_unmarked_createStreamingMessage_bind {B} (k : nat -> M B) :
  (forall m, preserves unmarked (k m)) ->
  preserves unmarked (createStreamingMessage ≫= k).
Proof.
  intros Hk s Hs. unfold mbind, M_bind, bind, createStreamingMessage.
  apply Hk. unfold unmarked. simpl. apply Forall_app. split; [done|].
  by repeat constructor.
Qed.

Lemma preserves_unmarked_removeStreamingClass : preserves unmarked removeStreamingClass.
Proof.
  intros s Hs. unfold removeStreamingClass. unfold_monad.
  destruct (currentStreamingMessage s) as [m|]; [|done].
  unfold unmarked. simpl. by rewrite alter_unmarked.
Qed.

Ltac unmarked_step :=
  lazymatch goal with
  | |- preserves _ (mret _) => apply preserves_ret
  | |- preserves _ (throw _) => apply preserves_throw
  | |- preserves _ (or_TypeError _) => apply preserves_or_TypeError
  | |- preserves _ removeStreamingClass => apply preserves_unmarked_removeStreamingClass
  | |- preserves _ (dispatch _ _ _ _) =>
      apply stable_preserves_unmarked, dispatch_same_session
  | |- preserves _ (modify _) => apply preserves_unmarked_modify; by intros ?
  | |- preserves _ (createStreamingMessage ≫= _) =>
      apply preserves_unmarked_createStreamingMessage_bind; intros ?
  | |- preserves _ (get ≫= _) => apply preserves_get_bind; intros ?
  | |- preserves _ (_ ≫= _) => apply preserves_bind; [|intros ?]
  | |- preserves _ (try_catch _ _) => apply preserves_try_catch; [|intros ?]
  | |- preserves _ (match ?x with _ => _ end) => destruct x
  | |- preserves _ (let _ := _ in _) => cbv zeta
  end.

Section Unmarked.
Variable JSON_parse : JSValue -> option JSValue.

Lemma preserves_unmarked_SSE_onmessage event_data :
  preserves unmarked (SSE.onmessage JSON_parse event_data).
Proof.
  unfold SSE.onmessage, SSE.handleStreamingMessage, SSE.finishStreaming,
    SSE.resolve, SSE.reject, destructure, hideLoading.
  repeat unmarked_step.
Qed.

Lemma preserves_unmarked_WS_onmessage event_data :
  preserves unmarked (WS.onmessage JSON_parse event_data).
Proof.
  unfold WS.onmessage, WS.handleWebSocketMessage, WS.finishStreaming,
    destructure, hideLoading.
  repeat unmarked_step.
Qed.

Lemma preserves_unmarked_sendQuestion : preserves unmarked SSE.sendQuestion.
Proof.
  unfold SSE.sendQuestion, SSE.streamQueryResults, showLoading.
  repeat unmarked_step.
Qed.

(** X14. The element [createStreamingMessage] returns is the content
    element, whose classes are [message-content] and [streaming-content];
    the class [streaming-message] sits on its parent.  On every run of
    either client every streaming message keeps exactly these two classes,
    so the [classList.remove('streaming-message')] of [finishStreaming]
    changes no message. *)
Theorem finishStreaming_removes_no_class :
  (forall events, unmarked (SSE.run JSON_parse events newAgent))
  /\ (forall frames, unmarked (WS.run JSON_parse frames newAgent))
  /\ (forall s, unmarked s ->
        messages (state_of (SSE.finishStreaming s)) = messages s
        /\ messages (state_of (WS.finishStreaming s)) = messages s).
Proof.
  assert (H0 : unmarked newAgent) by constructor.
  split; [|split].
  - intros events. unfold SSE.run. revert H0. generalize newAgent.
    induction events as [|e events IH]; intros s Hs; simpl; [done|].
    apply IH. destruct e as [|event_data]; simpl.
    + destruct (loading s); [done|]. by apply preserves_unmarked_sendQuestion.
    + destruct (eventSource s); [|done]. by apply preserves_unmarked_SSE_onmessage.
  - intros frames. unfold WS.run. revert H0. generalize newAgent.
    induction frames as [|d frames IH]; intros s Hs; simpl; [done|].
    by apply IH, preserves_unmarked_WS_onmessage.
  - intros s Hs.
    unfold SSE.finishStreaming, WS.finishStreaming, removeStreamingClass, hideLoading.
    unfold_monad. simpl.
    destruct (currentStreamingMessage s) as [m|]; simpl; [|done].
    destruct (eventSource s); simpl; by rewrite (alter_unmarked m _ Hs).
Qed.

End Unmarked.

(** ** The copy and export buttons *)

Lemma Inv_SSE_run JSON_parse events : Inv (SSE.run JSON_parse events newAgent).
Proof.
  exact (proj1 (Kept_SSE_run None JSON_parse events newAgent (conj Inv_newAgent I))).
Qed.

Lemma Inv_WS_run JSON_parse frames : Inv (WS.run JSON_parse frames newAgent).
Proof.
  exact (proj1 (Kept_WS_run None JSON_parse frames newAgent (conj Inv_newAgent I))).
Qed.

(** What a click on a copy button does on a state with typed references. *)
Lemma copyButton_onclick_cases s :
  Inv s ->
  match code (activeComponents s) with
  | None => copyButton_onclick s = Thrown TypeError s
  | Some el =>
      exists n, sections s !! el = Some n
                /\ finalize_marks n = 0
                /\ copyButton_onclick s = Done (textContent n) s
  end.
Proof.
  intros HI. unfold copyButton_onclick. unfold_monad.
  destruct (code (activeComponents s)) as [el|] eqn:E; [|done].
  destruct (inv_typed s HI Code el E) as (n & Hn & _ & Hm).
  exists n. split; [done|]. split; [done|]. unfold ret. simpl. by rewrite Hn.
Qed.

Lemma exportTableToCSV_cases innerText s :
  Inv s ->
  match data (activeComponents s) with
  | None => exportTableToCSV innerText s = Done None s
  | Some table =>
      exists n, sections s !! container table = Some n
                /\ finalize_marks n = 0
                /\ exportTableToCSV innerText s = Done (Some (csv_of innerText n)) s
  end.
Proof.
  intros HI. unfold exportTableToCSV. unfold_monad.
  destruct (data (activeComponents s)) as [table|] eqn:E; [|done].
  destruct (inv_typed s HI Data (container table)) as (n & Hn & _ & Hm);
    [by simpl; rewrite E|].
  exists n. split; [done|]. split; [done|]. unfold ret. simpl. by rewrite Hn.
Qed.

Section Buttons.
Variable JSON_parse : JSValue -> option JSValue.

(** X15. A copy button never copies the code block it sits in.  Its
    handler reads the code slot when it is clicked: right after the
    [finalizeCodeBlock] that made the button the click throws a TypeError,
    and on every run of either client a click throws a TypeError when no
    code block is accumulating and otherwise copies the text of the
    accumulating block, which carries no button. *)
Theorem copy_button_reads_the_open_block :
  (forall s,
      copyButton_onclick (state_of (finalizeCodeBlock s))
      = Thrown TypeError (state_of (finalizeCodeBlock s)))
  /\ (forall s,
        (exists events, s = SSE.run JSON_parse events newAgent)
        \/ (exists frames, s = WS.run JSON_parse frames newAgent) ->
        match code (activeComponents s) with
        | None => copyButton_onclick s = Thrown TypeError s
        | Some el =>
            exists n, sections s !! el = Some n
                      /\ finalize_marks n = 0
                      /\ copyButton_onclick s = Done (textContent n) s
        end).
Proof.
  split.
  - intros s. unfold copyButton_onclick, finalizeCodeBlock. unfold_monad.
    destruct (code (activeComponents s)) eqn:E; unfold ret, throw; simpl; by rewrite ?E.
  - intros s [[events ->]|[frames ->]]; apply copyButton_onclick_cases.
    + apply Inv_SSE_run.
    + apply Inv_WS_run.
Qed.

(** X16. An export button never exports the table it sits in.  Its handler
    reads the data slot when it is clicked: right after the
    [finalizeDataTable] that made the button the click returns without a
    download, and on every run of either client a click returns without a
    download when no table is accumulating and otherwise offers the rows of
    the accumulating table, which carries no button. *)
Theorem export_button_reads_the_open_table (innerText : JSValue -> string) :
  (forall s,
      exportTableToCSV innerText (state_of (finalizeDataTable s))
      = Done None (state_of (finalizeDataTable s)))
  /\ (forall s,
        (exists events, s = SSE.run JSON_parse events newAgent)
        \/ (exists frames, s = WS.run JSON_parse frames newAgent) ->
        match data (activeComponents s) with
        | None => exportTableToCSV innerText s = Done None s
        | Some table =>
            exists n, sections s !! container table = Some n
                      /\ finalize_marks n = 0
                      /\ exportTableToCSV innerText s
                         = Done (Some (csv_of innerText n)) s
        end).
Proof.
  split.
  - intros s. unfold exportTableToCSV, finalizeDataTable. unfold_monad.
    destruct (data (activeComponents s)) eqn:E; unfold ret, throw; simpl; by rewrite ?E.
  - intros s [[events ->]|[frames ->]]; apply exportTableToCSV_cases.
    + apply Inv_SSE_run.
    + apply Inv_WS_run.
Qed.

End Buttons.

(** ** Slots do not interfere *)

(** Two slots never refer to the same section. *)
Lemma typed_distinct s t t' el el' :
  Inv s ->
  slot t (activeComponents s) = Some el ->
  slot t' (activeComponents s) = Some el' ->
  t <> t' -> el <> el'.
Proof.
  intros HI E E' Hne ->.
  destruct (inv_typed s HI t el' E) as (n & Hn & Hc & _).
  destruct (inv_typed s HI t' el' E') as (n' & Hn' & Hc' & _).
  apply Hne, class_of_inj. congruence.
Qed.

Lemma initialize_other t0 t s el n :
  t0 <> t ->
  slot t (activeComponents s) = Some el ->
  sections s !! el = Some n ->
  untouched t el n s (state_of (initialize t0 s)).
Proof.
  intros Hne E Hn. unfold untouched.
  destruct s as [ms ss [m|] [c d r e x] ld es pr co];
    destruct t0, t; try done; simpl in *;
    repeat split; try done; by apply lookup_app_l_Some.
Qed.

Lemma finalize_other t0 t s el n :
  Inv s ->
  t0 <> t ->
  slot t (activeComponents s) = Some el ->
  sections s !! el = Some n ->
  untouched t el n s (state_of (finalize t0 s)).
Proof.
  intros HI Hne E Hn. unfold untouched.
  pose proof (fun el0 E0 => typed_distinct s t0 t el0 el HI E0 E Hne) as Hd.
  destruct t0; unfold finalize; unfold_methods; unfold_monad; simpl in *.
  - destruct (code (activeComponents s)) as [el0|] eqn:E0; simpl;
      [|by destruct t].
    rewrite list_lookup_alter_ne by (by apply Hd).
    by destruct t.
  - destruct (data (activeComponents s)) as [table|] eqn:E0; simpl;
      [|by destruct t].
    rewrite list_lookup_alter_ne by (by apply Hd).
    by destruct t.
  - destruct (result (activeComponents s)) as [el0|] eqn:E0; simpl;
      [|by destruct t].
    rewrite list_lookup_alter_ne by (by apply Hd).
    by destruct t.
  - destruct (error (activeComponents s)) as [el0|] eqn:E0; simpl; by destruct t.
  - destruct (text (activeComponents s)) as [el0|] eqn:E0; simpl; by destruct t.
Qed.

Section Independence.
Variable JSON_parse : JSValue -> option JSValue.

Lemma append_other_plain t0 t answer s el n :
  Inv s ->
  t0 <> Data ->
  t0 <> t ->
  slot t (activeComponents s) = Some el ->
  sections s !! el = Some n ->
  untouched t el n s (state_of (append JSON_parse t0 answer s)).
Proof.
  intros HI Hd Hne E Hn. unfold untouched.
  pose proof (fun el0 E0 => typed_distinct s t0 t el0 el HI E0 E Hne) as Hdist.
  pose proof (lookup_lt_Some _ _ _ Hn) as Hlt.
  destruct t0; try done; unfold append; unfold_methods; unfold_methods;
    unfold appendSection; unfold_monad; simpl in *;
    [ destruct (code (activeComponents s)) as [el0|] eqn:E0
    | destruct (result (activeComponents s)) as [el0|] eqn:E0
    | destruct (error (activeComponents s)) as [el0|] eqn:E0
    | destruct (text (activeComponents s)) as [el0|] eqn:E0 ];
    destruct (currentStreamingMessage s); destruct (as_string answer);
    unfold ret, throw; simpl; rewrite ?E0; simpl;
    (split; [by destruct t|split; [|by destruct t]]);
    first [ done
          | rewrite list_lookup_alter_ne by (first [by apply Hdist | lia]);
            first [done | by apply lookup_app_l_Some]
          | by apply lookup_app_l_Some ].
Qed.

(** *** Writes to the data table *)

Section BesideTable.
Context (c : nat) (t : ContentType) (el : nat) (n : SectionNode).
Hypothesis Ht : t <> Data.
Hypothesis Hel : el <> c.

Lemma beside_table_getComponents_bind {B} (k : ActiveComponents -> M B) :
  (forall ac, (container <$> data ac) = Some c ->
              preserves (beside_table c t el n) (k ac)) ->
  preserves (beside_table c t el n) (getComponents ≫= k).
Proof. intros Hk s Hs. apply (Hk (activeComponents s)); [|done]. apply Hs. Qed.

Lemma beside_table_updateSection f :
  preserves (beside_table c t el n) (updateSection c f).
Proof.
  intros s (Hc & Hs & Hn). repeat split; [done|done|].
  simpl. by rewrite list_lookup_alter_ne.
Qed.

Lemma beside_table_setHeaderInitialized :
  preserves (beside_table c t el n) setHeaderInitialized.
Proof.
  intros s (Hc & Hs & Hn). unfold setHeaderInitialized.
  destruct (data (activeComponents s)) as [table|] eqn:E; [|done].
  simpl in *. repeat split; [done| |done].
  by destruct t.
Qed.

End BesideTable.

Ltac beside_table_step :=
  lazymatch goal with
  | |- preserves _ (mret _) => apply preserves_ret
  | |- preserves _ (throw _) => apply preserves_throw
  | |- preserves _ (or_TypeError _) => apply preserves_or_TypeError
  | |- preserves _ (formatText _) => apply preserves_formatText
  | |- preserves _ setHeaderInitialized =>
      apply beside_table_setHeaderInitialized; assumption
  | |- preserves _ (updateSection (container ?table) _) =>
      match goal with
      | H : (container <$> ?d) = Some _, E : ?d = Some table |- _ =>
          rewrite E in H; simpl in H; injection H as H; rewrite H;
          apply beside_table_updateSection; assumption
      end
  | |- preserves _ (getComponents ≫= _) =>
      apply beside_table_getComponents_bind; intros ? ?
  | |- preserves _ (or_TypeError _ ≫= _) =>
      apply preserves_or_TypeError_bind; intros ? ?
  | |- preserves _ (_ ≫= _) => apply preserves_bind; [|intros ?]
  | |- preserves _ (try_catch _ _) => apply preserves_try_catch; [|intros ?]
  | |- preserves _ (forEach _ _) => apply preserves_forEach; intros ?
  | |- preserves _ (match ?x with _ => _ end) => destruct x eqn:?
  | |- preserves _ (let _ := _ in _) => cbv zeta
  end.

Lemma beside_table_render c t el n answer :
  t <> Data -> el <> c ->
  preserves (beside_table c t el n)
    (try_catch
       (match JSON_parse answer with
        | Some parsedData => renderDataTable parsedData
        | None => throw SyntaxError
        end)
       (fun _ => renderDataTableAsText answer)).
Proof.
  intros Ht Hel.
  unfold renderDataTableAsText, renderDataTable, initializeHeader, renderRow.
  repeat beside_table_step.
Qed.

Lemma append_other_data t answer s el n :
  Inv s ->
  t <> Data ->
  slot t (activeComponents s) = Some el ->
  sections s !! el = Some n ->
  untouched t el n s (state_of (appendToDataTable JSON_parse answer s)).
Proof.
  intros HI Ht E Hn.
  pose proof (lookup_lt_Some _ _ _ Hn) as Hlt.
  assert (Hfin : forall c s1, el <> c -> beside_table c t el n s1 ->
    untouched t el n s
      (state_of (try_catch
                   (match JSON_parse answer with
                    | Some parsedData => renderDataTable parsedData
                    | None => throw SyntaxError
                    end)
                   (fun _ => renderDataTableAsText answer) s1))).
  { intros c s1 Hc Hs1.
    destruct (beside_table_render c t el n answer Ht Hc s1 Hs1) as (_ & H2 & H3).
    by repeat split. }
  rewrite appendToDataTable_after_ensure.
  unfold ensureDataTable, initializeDataTable, appendSection. unfold_monad.
  destruct (data (activeComponents s)) as [table|] eqn:Ed; simpl.
  - apply (Hfin (container table)).
    + apply not_eq_sym.
      apply (typed_distinct s Data t (container table) el HI); [|done|done].
      by simpl; rewrite Ed.
    + repeat split; [|done|done]. by rewrite Ed.
  - destruct (currentStreamingMessage s) as [m|]; simpl.
    + apply (Hfin (length (sections s))); [lia|].
      repeat split; simpl.
      * by destruct t.
      * by apply lookup_app_l_Some.
    + by repeat split.
Qed.

(** X17. Handlers do not interfere: a message dispatched to one slot leaves
    every other accumulating slot referring to the section it referred to,
    and leaves that section (and, for the data slot, the table record with
    its header flag) exactly as it was, whether the handler returns or
    throws. *)
Theorem other_slots_are_untouched content_type answer status s t el n :
  Inv s ->
  normalize content_type <> t ->
  slot t (activeComponents s) = Some el ->
  sections s !! el = Some n ->
  untouched t el n s (state_of (dispatch JSON_parse content_type answer status s)).
Proof.
  intros HI Hne E Hn.
  rewrite dispatch_normalize, handleContent_cases.
  assert (Ha : untouched t el n s
                 (state_of (append JSON_parse (normalize content_type) answer s))).
  { destruct (decide (normalize content_type = Data)) as [Hd|Hd].
    - rewrite Hd in *. by apply append_other_data.
    - by apply append_other_plain. }
  destruct (is_string status "start"); [by apply initialize_other|].
  destruct (is_string status "in_progress"); [done|].
  destruct (is_string status "end"); [by apply finalize_other|done].
Qed.

End Independence.


Lemma other_slots_are_untouched_witness :
  untouched Code 0 open_code_section
    (SSE.run JSON.parse code_open_session newAgent)
    (state_of (dispatch JSON.parse (JString "text") (JString "hello")
                 (JString "in_progress")
                 (SSE.run JSON.parse code_open_session newAgent))).
Proof.
  refine (other_slots_are_untouched JSON.parse (JString "text") (JString "hello")
            (JString "in_progress") (SSE.run JSON.parse code_open_session newAgent)
            Code 0 open_code_section _ _ _ _).
  - exact (proj1 (Kept_SSE_run None JSON.parse code_open_session newAgent
                    (conj Inv_newAgent I))).
  - vm_compute. discriminate.
  - vm_compute. reflexivity.
  - vm_compute. reflexivity.
Defined.

(** ** A fragment with no section open *)

Section ImplicitStart.
Variable JSON_parse : JSValue -> option JSValue.

(** X18. A fragment for a slot that is not accumulating opens a section
    first: appending it is the same as a 'start' of that type followed by
    the append, for every type and every answer (if no streaming message is
    there to hold the section, both throw the same TypeError). *)
Theorem fragment_without_start_opens_section t answer s :
  slot t (activeComponents s) = None ->
  append JSON_parse t answer s
  = (initialize t;; append JSON_parse t answer) s.
Proof.
  intros E.
  destruct s as [ms ss [m|] [c d r e x] ld es pr co];
    destruct t; simpl in E; try destruct d; simplify_eq/=; reflexivity.
Qed.

End ImplicitStart.

Lemma fragment_without_start_opens_section_witness :
  append JSON.parse Text (JString "hello") asked
  = (initialize Text;; append JSON.parse Text (JString "hello")) asked.
Proof.
  refine (fragment_without_start_opens_section JSON.parse Text (JString "hello")
            asked _).
  reflexivity.
Defined.

(** ** One object as a row *)

Section Objects.
Variable JSON_parse : JSValue -> option JSValue.

(** X19. A data fragment that parses to one object with scalar values, on
    an open data table: the section gets one body row from the object's
    values, with a header row from its keys in front exactly when no header
    was there; the header flag is set afterwards.  Nothing else of the state
    changes. *)
Theorem object_fragment_renders_one_row fragment props s table :
  JSON_parse (JString fragment) = Some (JObject props) ->
  scalar_row (JObject props) ->
  data (activeComponents s) = Some table ->
  appendToDataTable JSON_parse (JString fragment) s
  = Done tt
      (set_activeComponents
         (set_data (Some {| container := container table;
                            headerInitialized := true |}))
         (set_sections
            (alter (rendered_object (headerInitialized table) props)
               (container table)) s)).
Proof.
  intros Hp _ E.
  rewrite appendToDataTable_after_ensure.
  unfold ensureDataTable. unfold mbind, M_bind, bind, getComponents.
  rewrite E. unfold mret, M_ret, ret. cbn beta iota.
  unfold try_catch. rewrite Hp.
  unfold renderDataTable, initializeHeader, setHeaderInitialized, rendered_object.
  unfold mbind, M_bind, bind, getComponents, or_TypeError, updateSection, modify,
    mret, M_ret, ret.
  rewrite E. simpl.
  destruct (headerInitialized table) eqn:Hh; simpl.
  - f_equal. rewrite <- Hh. symmetry. apply set_data_same. by destruct s.
  - rewrite E. simpl. f_equal.
    destruct s. unfold set_activeComponents, set_sections. simpl. f_equal.
    rewrite list_alter_alter_eq. by apply list_alter_ext.
Qed.

End Objects.

Lemma object_fragment_renders_one_row_witness :
  appendToDataTable JSON.parse (JString fragment_object) table_opened
  = Done tt
      (set_activeComponents
         (set_data (Some {| container := container fresh_table;
                            headerInitialized := true |}))
         (set_sections
            (alter (rendered_object (headerInitialized fresh_table)
                      [("a", JNumber (inject_Z 1)); ("b", JNumber (inject_Z 0))])
               (container fresh_table)) table_opened)).
Proof.
  refine (object_fragment_renders_one_row JSON.parse fragment_object
            [("a", JNumber (inject_Z 1)); ("b", JNumber (inject_Z 0))]
            table_opened fresh_table _ _ _).
  - vm_compute. reflexivity.
  - by repeat constructor.
  - reflexivity.
Defined.

(** ** Falsy cells *)

Lemma or_empty_shown cell : shown (or_empty cell).
Proof.
  unfold shown, or_empty. destruct (truthy cell) eqn:E; [by left|by right].
Qed.

Lemma or_empty_all_shown cells : Forall shown (or_empty <$> cells).
Proof. apply Forall_fmap, Forall_true. intros cell. apply or_empty_shown. Qed.

Lemma cells_of_shown row : Forall shown (cells_of row).
Proof.
  destruct row; simpl; try constructor; apply or_empty_all_shown.
Qed.

Lemma tables_shown_updateSection el f :
  (forall n, cells_shown n -> cells_shown (f n)) ->
  preserves tables_shown (updateSection el f).
Proof.
  intros Hf s Hs. unfold tables_shown. simpl.
  apply Forall_alter; [done|]. intros n _. apply Hf.
Qed.

Lemma tables_shown_add_body_row el cells :
  Forall shown cells ->
  preserves tables_shown (updateSection el (add_body_row cells)).
Proof.
  intros Hc. apply tables_shown_updateSection. intros n Hn.
  unfold cells_shown. simpl. apply Forall_app. split; [done|].
  by constructor.
Qed.

Lemma tables_shown_renderRow table row :
  preserves tables_shown (renderRow table row).
Proof.
  intros s Hs.
  destruct row;
    try (rewrite renderRow_cells by done;
         apply (tables_shown_add_body_row _ _ (cells_of_shown _) s Hs)).
  exact Hs.
Qed.

Lemma tables_shown_appendSection cls : preserves tables_shown (appendSection cls).
Proof.
  intros s Hs. unfold appendSection.
  destruct (currentStreamingMessage s); [|done].
  unfold tables_shown. simpl. apply Forall_app. split; [done|].
  by repeat constructor.
Qed.

(** Methods that leave the sections alone. *)
Lemma tables_shown_keep {A} (m : M A) :
  (forall s, sections (state_of (m s)) = sections s) -> preserves tables_shown m.
Proof. intros H s Hs. unfold tables_shown. by rewrite H. Qed.

Lemma tables_shown_setHeaderInitialized : preserves tables_shown setHeaderInitialized.
Proof.
  apply tables_shown_keep. intros s. unfold setHeaderInitialized.
  by destruct (data (activeComponents s)).
Qed.

Lemma tables_shown_createStreamingMessage :
  preserves tables_shown createStreamingMessage.
Proof. by apply tables_shown_keep. Qed.

Ltac cells_step :=
  lazymatch goal with
  | |- preserves _ (mret _) => apply preserves_ret
  | |- preserves _ (throw _) => apply preserves_throw
  | |- preserves _ (or_TypeError _) => apply preserves_or_TypeError
  | |- preserves _ (formatText _) => apply preserves_formatText
  | |- preserves _ getComponents => by apply tables_shown_keep
  | |- preserves _ get => by apply tables_shown_keep
  | |- preserves _ (renderRow _ _) => apply tables_shown_renderRow
  | |- preserves _ (updateSection _ (add_body_row (or_empty <$> _))) =>
      apply tables_shown_add_body_row, or_empty_all_shown
  | |- preserves _ (updateSection _ _) =>
      apply tables_shown_updateSection; by intros ?
  | |- preserves _ (appendSection _) => apply tables_shown_appendSection
  | |- preserves _ setHeaderInitialized => apply tables_shown_setHeaderInitialized
  | |- preserves _ createStreamingMessage => apply tables_shown_createStreamingMessage
  | |- preserves _ (setComponent _) => by apply tables_shown_keep
  | |- preserves _ (modify _) => by apply tables_shown_keep
  | |- preserves _ (_ ≫= _) => apply preserves_bind; [|intros ?]
  | |- preserves _ (try_catch _ _) => apply preserves_try_catch; [|intros ?]
  | |- preserves _ (forEach _ _) => apply preserves_forEach; intros ?
  | |- preserves _ (match ?x with _ => _ end) => destruct x
  | |- preserves _ (let _ := _ in _) => cbv zeta
  end.

Section FalsyCells.
Variable JSON_parse : JSValue -> option JSValue.

Lemma tables_shown_dispatch content_type answer status :
  preserves tables_shown (dispatch JSON_parse content_type answer status).
Proof.
  rewrite dispatch_normalize, handleContent_cases.
  destruct (normalize content_type);
    unfold initialize, append, finalize; unfold_methods; unfold_methods;
    unfold renderDataTableAsText, renderDataTable, initializeHeader, formatText;
    repeat cells_step.
Qed.

Lemma tables_shown_SSE_onmessage event_data :
  preserves tables_shown (SSE.onmessage JSON_parse event_data).
Proof.
  unfold SSE.onmessage, SSE.handleStreamingMessage, SSE.finishStreaming,
    SSE.resolve, SSE.reject, destructure, removeStreamingClass, hideLoading.
  repeat first [ apply tables_shown_dispatch | cells_step ].
Qed.

Lemma tables_shown_WS_onmessage event_data :
  preserves tables_shown (WS.onmessage JSON_parse event_data).
Proof.
  unfold WS.onmessage, WS.handleWebSocketMessage, WS.finishStreaming,
    destructure, removeStreamingClass, hideLoading.
  repeat first [ apply tables_shown_dispatch | cells_step ].
Qed.

Lemma tables_shown_sendQuestion : preserves tables_shown SSE.sendQuestion.
Proof.
  unfold SSE.sendQuestion, SSE.streamQueryResults, showLoading.
  repeat cells_step.
Qed.

Lemma body_rendered_array initialized items n :
  body (rendered_array initialized items n) = body n ++ (cells_of <$> items).
Proof.
  unfold rendered_array, add_body_rows. simpl.
  destruct items as [|first rest]; [done|].
  destruct (negb initialized && String.eqb (typeof first) "object"); [|done].
  by destruct (Object_keys first).
Qed.

(** X20. Falsy cells are blanked.  A data fragment that is an array of rows
    of scalar cells, appended to an open table, adds the rows in order, each
    with as many cells as it came with: a cell that is falsy (0, [false],
    [null], the empty string) is written as the empty string, every other
    cell as it is.  And on every run of either client each cell of each
    table row is a truthy value or the empty string: no table ever shows a
    0, a [false] or a [null]. *)
Theorem falsy_cells_are_blanked :
  (forall fragment rows s table n,
      JSON_parse (JString fragment) = Some (JArray (JArray <$> rows)) ->
      Forall (Forall (fun cell => is_scalar cell = true)) rows ->
      data (activeComponents s) = Some table ->
      sections s !! container table = Some n ->
      exists n',
        sections (state_of (appendToDataTable JSON_parse (JString fragment) s))
        !! container table = Some n'
        /\ body n'
           = body n
             ++ ((fun row : list JSValue =>
                    (fun cell => if truthy cell then cell else JString "") <$> row)
                   <$> rows))
  /\ (forall events i n row cell,
        sections (SSE.run JSON_parse events newAgent) !! i = Some n ->
        row ∈ body n -> cell ∈ row ->
        truthy cell = true \/ cell = JString "")
  /\ (forall frames i n row cell,
        sections (WS.run JSON_parse frames newAgent) !! i = Some n ->
        row ∈ body n -> cell ∈ row ->
        truthy cell = true \/ cell = JString "").
Proof.
  split.
  { intros fragment rows s table n Hp _ E Hn.
    assert (Hitems : Forall (fun row => row <> JNull) (JArray <$> rows)).
    { apply Forall_fmap, Forall_true. by intros row. }
    rewrite appendToDataTable_after_ensure.
    unfold ensureDataTable. unfold mbind, M_bind, bind, getComponents.
    rewrite E. unfold mret, M_ret, ret. cbn beta iota.
    unfold try_catch. rewrite Hp.
    rewrite (renderDataTable_array (JArray <$> rows) s table Hitems E).
    eexists. split.
    - simpl. rewrite list_lookup_alter_eq, Hn. reflexivity.
    - rewrite body_rendered_array. f_equal.
      rewrite <- list_fmap_compose. by apply list_fmap_ext. }
  assert (H0 : tables_shown newAgent) by constructor.
  assert (Hread : forall s, tables_shown s ->
    forall i n row cell, sections s !! i = Some n -> row ∈ body n -> cell ∈ row ->
                         truthy cell = true \/ cell = JString "").
  { intros s Hs i n row cell Hn Hrow Hcell.
    pose proof (Forall_lookup_1 _ _ _ _ Hs Hn) as H1.
    pose proof (proj1 (Forall_forall _ _) H1 row Hrow) as H2.
    exact (proj1 (Forall_forall _ _) H2 cell Hcell). }
  split.
  - intros events. apply Hread. unfold SSE.run. revert H0. generalize newAgent.
    induction events as [|e events IH]; intros s Hs; simpl; [done|].
    apply IH. destruct e as [|event_data]; simpl.
    + destruct (loading s); [done|]. by apply tables_shown_sendQuestion.
    + destruct (eventSource s); [|done]. by apply tables_shown_SSE_onmessage.
  - intros frames. apply Hread. unfold WS.run. revert H0. generalize newAgent.
    induction frames as [|d frames IH]; intros s Hs; simpl; [done|].
    by apply IH, tables_shown_WS_onmessage.
Qed.

End FalsyCells.

(** ** The properties above on concrete sessions *)

Lemma finishStreaming_removes_no_class_witness :
  messages (state_of (SSE.finishStreaming asked)) = messages asked
  /\ messages (state_of (WS.finishStreaming asked)) = messages asked.
Proof.
  refine (proj2 (proj2 (finishStreaming_removes_no_class JSON.parse)) asked _).
  exact (proj1 (finishStreaming_removes_no_class JSON.parse) [SSE.Ask]).
Defined.

Lemma copy_button_reads_the_open_block_witness :
  match code (activeComponents (SSE.run JSON.parse code_open_session newAgent)) with
  | None =>
      copyButton_onclick (SSE.run JSON.parse code_open_session newAgent)
      = Thrown TypeError (SSE.run JSON.parse code_open_session newAgent)
  | Some el =>
      exists n,
        sections (SSE.run JSON.parse code_open_session newAgent) !! el = Some n
        /\ finalize_marks n = 0
        /\ copyButton_onclick (SSE.run JSON.parse code_open_session newAgent)
           = Done (textContent n) (SSE.run JSON.parse code_open_session newAgent)
  end.
Proof.
  refine (proj2 (copy_button_reads_the_open_block JSON.parse)
            (SSE.run JSON.parse code_open_session newAgent) _).
  left. by exists code_open_session.
Defined.

Lemma export_button_reads_the_open_table_witness :
  match data (activeComponents (SSE.run JSON.parse zero_cell_session newAgent)) with
  | None =>
      exportTableToCSV cell_text (SSE.run JSON.parse zero_cell_session newAgent)
      = Done None (SSE.run JSON.parse zero_cell_session newAgent)
  | Some table =>
      exists n,
        sections (SSE.run JSON.parse zero_cell_session newAgent) !! container table
        = Some n
        /\ finalize_marks n = 0
        /\ exportTableToCSV cell_text (SSE.run JSON.parse zero_cell_session newAgent)
           = Done (Some (csv_of cell_text n))
               (SSE.run JSON.parse zero_cell_session newAgent)
  end.
Proof.
  refine (proj2 (export_button_reads_the_open_table JSON.parse cell_text)
            (SSE.run JSON.parse zero_cell_session newAgent) _).
  left. by exists zero_cell_session.
Defined.

Lemma falsy_cells_are_blanked_witness :
  (exists n',
      sections (state_of (appendToDataTable JSON.parse (JString fragment_falsy_row)
                            table_opened))
      !! container fresh_table = Some n'
      /\ body n'
         = body (template "streaming-data-container")
           ++ ((fun row : list JSValue =>
                  (fun cell => if truthy cell then cell else JString "") <$> row)
                 <$> [[JNumber (inject_Z 0); JBool false; JNull;
                       JNumber (inject_Z 1)]]))
  /\ sections (SSE.run JSON.parse zero_cell_session newAgent) !! 0
     = Some zero_cell_section
  /\ (truthy (JString "") = true \/ JString "" = JString "").
Proof.
  split; [|split; [vm_compute; reflexivity|]].
  - refine (proj1 (falsy_cells_are_blanked JSON.parse) fragment_falsy_row
              [[JNumber (inject_Z 0); JBool false; JNull; JNumber (inject_Z 1)]]
              table_opened fresh_table (template "streaming-data-container")
              _ _ _ _).
    + vm_compute. reflexivity.
    + by repeat constructor.
    + reflexivity.
    + reflexivity.
  - refine (proj1 (proj2 (falsy_cells_are_blanked JSON.parse)) zero_cell_session 0
              zero_cell_section [JString ""; JNumber (inject_Z 1)] (JString "") _ _ _).
    + vm_compute. reflexivity.
    + apply list_elem_of_here.
    + apply list_elem_of_here.
Defined.

(** ** Emphasis *)

Lemma strip_prefix_star_free d s :
  no_char star s = true -> strip_prefix (String star d) s = None.
Proof.
  destruct s as [|c s]; [done|]. intros H. simpl in H.
  rewrite strip_prefix_cons.
  destruct (Ascii.eqb c star) eqn:E; simpl in H; [done|].
  by rewrite Ascii.eqb_sym, E.
Qed.

(** A star at which the pattern does not match is copied. *)
Lemma replace_delimited_lone fuel d open close r :
  (forall body, strip_prefix (String star d) (String star r) = Some body ->
                lazy_until (String star d) body = None) ->
  replace_delimited (S fuel) (String star d) open close (String star r)
  = String star (replace_delimited fuel (String star d) open close r).
Proof.
  intros H. rewrite replace_delimited_cons.
  destruct (strip_prefix (String star d) (String star r)) as [body|]; [|done].
  by rewrite (H body).
Qed.

(** The bold pass finds nothing in [a*x*b]. *)
Lemma bold_pass_single_stars fuel open close a x b :
  no_char star a = true -> no_char star x = true -> no_char star b = true ->
  String.length (a +:+ String star (x +:+ String star b)) <= fuel ->
  replace_delimited fuel (String star (String star "")) open close
    (a +:+ String star (x +:+ String star b))
  = a +:+ String star (x +:+ String star b).
Proof.
  intros Ha Hx Hb Hf.
  rewrite length_append in Hf. cbn [String.length] in Hf.
  rewrite length_append in Hf. cbn [String.length] in Hf.
  rewrite replace_delimited_skip by (done || lia). f_equal.
  destruct (fuel - String.length a) as [|f1] eqn:E1; [lia|].
  rewrite replace_delimited_lone.
  - f_equal. rewrite replace_delimited_skip by (done || lia). f_equal.
    destruct (f1 - String.length x) as [|f2] eqn:E2; [lia|].
    rewrite replace_delimited_lone.
    + by rewrite replace_delimited_plain.
    + intros body. rewrite strip_prefix_cons, Ascii.eqb_refl.
      by rewrite strip_prefix_star_free.
  - intros body. rewrite strip_prefix_cons, Ascii.eqb_refl.
    destruct x as [|c x].
    + change ("" +:+ String star b) with (String star b).
      rewrite strip_prefix_cons, Ascii.eqb_refl. cbn [strip_prefix].
      intros [= <-]. by apply lazy_until_none.
    + rewrite append_cons. simpl in Hx.
      destruct (Ascii.eqb c star) eqn:E; simpl in Hx; [done|].
      by rewrite strip_prefix_cons, Ascii.eqb_sym, E.
Qed.

(** X21. Emphasis markup: in a text [a*x*b] whose parts [a], [x], [b] hold
    no asterisk and no line feed, and where [x] holds no other line
    terminator either, [formatText] wraps [x] in [<em>] and changes nothing
    else. *)
Theorem formatText_emphasis (a x b : string) :
  no_char star a = true -> no_char star x = true -> no_char star b = true ->
  no_char line_feed a = true -> one_line x = true -> no_char line_feed b = true ->
  formatText_string (a +:+ "*" +:+ x +:+ "*" +:+ b)
  = a +:+ "<em>" +:+ x +:+ "</em>" +:+ b.
Proof.
  intros Ha Hx Hb La Lx Lb.
  assert (Hbold :
    replace_delimited (String.length (a +:+ "*" +:+ x +:+ "*" +:+ b))
      "**" "<strong>" "</strong>" (a +:+ "*" +:+ x +:+ "*" +:+ b)
    = a +:+ "*" +:+ x +:+ "*" +:+ b).
  { change (a +:+ "*" +:+ x +:+ "*" +:+ b)
      with (a +:+ String star (x +:+ String star b)).
    change "**" with (String star (String star "")).
    by apply bold_pass_single_stars. }
  assert (Hitalic :
    replace_delimited (String.length (a +:+ "*" +:+ x +:+ "*" +:+ b))
      "*" "<em>" "</em>" (a +:+ "*" +:+ x +:+ "*" +:+ b)
    = a +:+ "<em>" +:+ x +:+ "</em>" +:+ b).
  { change "*" with (String star "").
    rewrite replace_delimited_skip by (done || rewrite length_append; lia).
    rewrite length_append, Nat.add_comm, Nat.add_sub.
    rewrite (length_append (String star "")).
    cbn [String.length Nat.add].
    rewrite (replace_delimited_match _ _ _ _ _ _ x b (lazy_until_found _ x b Hx Lx)).
    by rewrite replace_delimited_plain. }
  unfold formatText_string. rewrite Hbold, Hitalic.
  apply replace_newlines_plain.
  rewrite !no_char_append, La, Lb, (one_line_no_line_feed x Lx). reflexivity.
Qed.

Lemma formatText_emphasis_witness :
  formatText_string ("see " +:+ "*" +:+ "note" +:+ "*" +:+ " below")
  = "see " +:+ "<em>" +:+ "note" +:+ "</em>" +:+ " below".
Proof. apply (formatText_emphasis "see " "note" " below"); reflexivity. Defined.

(** * The start script *)

Section StartScriptFacts.
Import StartScript.

Lemma parse_args_cons fuel first rest v :
  parse_args (S fuel) (first :: rest) v
  = match case_1 first (first :: rest) v with
    | inl (args', v') => parse_args fuel args' v'
    | inr status => Some (Exited status)
    end.
Proof. reflexivity. Qed.

Lemma dangling_cons first rest :
  dangling (first :: rest)
  = if String.eqb first "--frontend" then dangling rest
    else if String.eqb first "--frontend-port" || String.eqb first "--backend-port"
    then match rest with
         | [] => true
         | _ :: rest' => dangling rest'
         end
    else false.
Proof. reflexivity. Qed.

Lemma parse_args_returns_within n :
  forall args, length args <= n -> dangling args = false ->
  forall v, exists ending,
    forall fuel, length args <= fuel -> parse_args fuel args v = Some ending.
Proof.
  induction n as [|n IH]; intros args Hn Hd v.
  - destruct args; [|simpl in Hn; lia]. exists (Returned v). by intros [|fuel].
  - destruct args as [|first rest].
    { exists (Returned v). by intros [|fuel]. }
    rewrite dangling_cons in Hd. cbn [length] in Hn.
    assert (Hstep : forall next v',
      (exists ending, forall fuel, length next <= fuel ->
                                   parse_args fuel next v' = Some ending) ->
      length next <= length rest ->
      case_1 first (first :: rest) v = inl (next, v') ->
      exists ending, forall fuel, length (first :: rest) <= fuel ->
                                  parse_args fuel (first :: rest) v = Some ending).
    { intros next v' [ending He] Hl Hc. exists ending. intros [|fuel] Hf.
      - cbn [length] in Hf. lia.
      - rewrite parse_args_cons, Hc. apply He. cbn [length] in Hf. lia. }
    assert (Hexit : forall status,
      case_1 first (first :: rest) v = inr status ->
      exists ending, forall fuel, length (first :: rest) <= fuel ->
                                  parse_args fuel (first :: rest) v = Some ending).
    { intros status Hc. exists (Exited status). intros [|fuel] Hf.
      - cbn [length] in Hf. lia.
      - by rewrite parse_args_cons, Hc. }
    unfold case_1 in Hstep, Hexit.
    destruct (String.eqb first "--frontend") eqn:E1.
    { eapply Hstep; [|reflexivity|reflexivity]. apply IH; [lia|done]. }
    destruct (String.eqb first "--frontend-port") eqn:E2.
    { destruct rest as [|value rest']; [done|].
      eapply Hstep; [| |reflexivity]; [|cbn [length shift_2]; lia].
      apply IH; [cbn [length shift_2] in *; lia|done]. }
    destruct (String.eqb first "--backend-port") eqn:E3.
    { destruct rest as [|value rest']; [done|].
      eapply Hstep; [| |reflexivity]; [|cbn [length shift_2]; lia].
      apply IH; [cbn [length shift_2] in *; lia|done]. }
    destruct (String.eqb first "-h" || String.eqb first "--help");
      by eapply Hexit.
Qed.

(** X22. [parse_args] comes to an end on every command line on which no
    port option is reached as the last argument: with as many passes of its
    loop as there are arguments it returns to [main] or exits, and more
    passes change nothing. *)
Theorem parse_args_ends (args : list string) (v : Variables) :
  dangling args = false ->
  exists ending,
    forall fuel, length args <= fuel -> parse_args fuel args v = Some ending.
Proof. intros Hd. by apply (parse_args_returns_within (length args)). Qed.

(** X23. [parse_args] never comes to an end on a command line on which a
    port option is reached as the last argument: [shift 2] fails there and
    leaves the argument in place, so every further pass of the loop sees the
    same option again. *)
Theorem parse_args_hangs (args : list string) (v : Variables) :
  dangling args = true ->
  forall fuel, parse_args fuel args v = None.
Proof.
  intros Hd fuel. revert args v Hd.
  induction fuel as [|fuel IH]; intros args v Hd.
  - by destruct args.
  - destruct args as [|first rest]; [done|].
    rewrite dangling_cons in Hd. rewrite parse_args_cons. unfold case_1.
    destruct (String.eqb first "--frontend") eqn:E1; [by apply IH|].
    destruct (String.eqb first "--frontend-port") eqn:E2.
    { destruct rest as [|value rest']; cbn [shift_2]; apply IH; [|done].
      by rewrite dangling_cons, E1, E2. }
    destruct (String.eqb first "--backend-port") eqn:E3; [|done].
    destruct rest as [|value rest']; cbn [shift_2]; apply IH; [|done].
    by rewrite dangling_cons, E1, E2, E3.
Qed.

Lemma parse_args_ends_witness :
  exists ending,
    forall fuel,
      length ["--frontend-port"; "8080"; "--frontend"] <= fuel ->
      parse_args fuel ["--frontend-port"; "8080"; "--frontend"] defaults
      = Some ending.
Proof.
  apply (parse_args_ends ["--frontend-port"; "8080"; "--frontend"] defaults).
  reflexivity.
Defined.

Lemma parse_args_hangs_witness :
  parse_args 1000 ["--frontend"; "--backend-port"] defaults = None.
Proof.
  refine (parse_args_hangs ["--frontend"; "--backend-port"] defaults _ 1000).
  reflexivity.
Defined.

End StartScriptFacts.

(** * C8: a data fragment that is not JSON *)

(** C8, as the code has it. On a client with an open streaming message, for
    every string fragment under content_type 'data' that does not parse as
    JSON.  Carried by a message whose status is neither 'start' nor 'end',
    the fragment is not discarded: the handler returns normally and the
    fragment, run through [formatText], is the last element appended to the
    data section's container -- a fragment with no asterisk and no line feed
    is appended exactly as it is -- and the error sections of the document
    are what they were.  Carried by a 'start' or an 'end' message, the
    fragment is discarded: the handler does what [initializeDataTable] or
    [finalizeDataTable] does, neither of which takes the fragment. *)
Theorem unparsable_data_fragment_is_text
    (JSON_parse : JSValue -> option JSValue) (fragment : string)
    (s : ExcelAgent) (m : nat) :
  JSON_parse (JString fragment) = None ->
  currentStreamingMessage s = Some m ->
  Inv s ->
  (forall status,
      is_string status "start" = false ->
      is_string status "end" = false ->
      exists table n before,
        returns (handleDataContent JSON_parse (JString fragment) status s) = true
        /\ data (activeComponents
                   (state_of (handleDataContent JSON_parse (JString fragment) status s)))
           = Some table
        /\ sections (state_of (handleDataContent JSON_parse (JString fragment) status s))
           !! container table = Some n
        /\ className n = class_of Data
        /\ appended n = before ++ [Div "data-text" (formatText_string fragment)]
        /\ (no_char star fragment = true -> no_char line_feed fragment = true ->
            appended n = before ++ [Div "data-text" fragment])
        /\ error_sections
             (state_of (handleDataContent JSON_parse (JString fragment) status s))
           = error_sections s)
  /\ handleDataContent JSON_parse (JString fragment) (JString "start") s
     = initializeDataTable s
  /\ handleDataContent JSON_parse (JString fragment) (JString "end") s
     = finalizeDataTable s.
Proof.
  intros Hparse Hm HI. split; [|by split].
  intros status Hs He.
  change (handleDataContent JSON_parse) with (handleContent JSON_parse Data).
  rewrite (handleContent_append JSON_parse Data _ _ Hs He). simpl.
  rewrite appendToDataTable_after_ensure.
  destruct (ensureDataTable_inv s m Hm HI) as (s1 & table & n & -> & Ed & Hn & Hc & Herr).
  unfold try_catch. rewrite Hparse. simpl.
  rewrite (renderDataTableAsText_string fragment s1 table Ed). simpl.
  exists table, (add_appended (Div "data-text" (formatText_string fragment)) n),
    (appended n).
  split; [done|]. split; [done|].
  split; [by rewrite list_lookup_alter_eq, Hn|].
  split; [done|]. split; [done|]. split.
  - intros Hstar Hlf. simpl. do 3 f_equal.
    unfold formatText_string.
    change "**" with (String star (String star "")).
    change "*" with (String star "").
    rewrite (replace_delimited_plain _ _ _ _ fragment Hstar).
    rewrite (replace_delimited_plain _ _ _ _ fragment Hstar).
    by apply replace_newlines_plain.
  - rewrite <- Herr. unfold error_sections. simpl.
    apply (filter_alter_outside _ _ _ _ n Hn); simpl; rewrite Hc; discriminate.
Qed.

Lemma unparsable_data_fragment_is_text_witness :
  (forall status,
      is_string status "start" = false ->
      is_string status "end" = false ->
      exists table n before,
        returns (handleDataContent JSON.parse (JString "not json") status asked) = true
        /\ data (activeComponents
                   (state_of (handleDataContent JSON.parse (JString "not json") status asked)))
           = Some table
        /\ sections (state_of (handleDataContent JSON.parse (JString "not json") status asked))
           !! container table = Some n
        /\ className n = class_of Data
        /\ appended n = before ++ [Div "data-text" (formatText_string "not json")]
        /\ (no_char star "not json" = true -> no_char line_feed "not json" = true ->
            appended n = before ++ [Div "data-text" "not json"])
        /\ error_sections
             (state_of (handleDataContent JSON.parse (JString "not json") status asked))
           = error_sections asked)
  /\ handleDataContent JSON.parse (JString "not json") (JString "start") asked
     = initializeDataTable asked
  /\ handleDataContent JSON.parse (JString "not json") (JString "end") asked
     = finalizeDataTable asked.
Proof.
  refine (unparsable_data_fragment_is_text JSON.parse "not json" asked 0 _ _ _).
  - reflexivity.
  - reflexivity.
  - split.
    + intros t el H. destruct t; vm_compute in H; discriminate H.
    + intros j n H. destruct j; vm_compute in H; discriminate H.
Defined.

(** C8 refuted as stated: the fragment [not json] does not parse as JSON,
    and carried by a 'start' message under content_type 'data' it is
    discarded: the message returns normally and leaves one data container,
    as its template has it, with no text appended. *)
Lemma unparsable_fragment_of_start_is_discarded :
  JSON.parse (JString "not json") = None
  /\ returns (dispatch JSON.parse (JString "data") (JString "not json")
                (JString "start") asked) = true
  /\ sections (state_of (dispatch JSON.parse (JString "data") (JString "not json")
                           (JString "start") asked))
     = [template "streaming-data-container"]
  /\ appended (template "streaming-data-container") = [].
Proof. repeat split; vm_compute; reflexivity. Qed.

(** * C9: which sections a fragment can reach *)

Section Reach.
Variable JSON_parse : JSValue -> option JSValue.

(** A 'start' (on an open streaming message) and an 'end' leave no slot
    referring to the section the slot of their type referred to. *)
Lemma start_or_end_detaches s content_type answer status m el :
  Inv s ->
  is_string status "start" = true \/ is_string status "end" = true ->
  currentStreamingMessage s = Some m ->
  slot (normalize content_type) (activeComponents s) = Some el ->
  forall t,
    slot t (activeComponents
              (state_of (dispatch JSON_parse content_type answer status s)))
    <> Some el.
Proof.
  intros HI Hst Hm Hel t.
  rewrite dispatch_normalize, handleContent_cases.
  destruct (inv_typed s HI _ el Hel) as (n & Hn & Hc & _).
  assert (Hother : forall t', slot t' (activeComponents s) = Some el ->
                              t' = normalize content_type).
  { intros t' E. destruct (inv_typed s HI t' el E) as (n' & Hn' & Hc' & _).
    apply class_of_inj. congruence. }
  destruct (is_string status "start") eqn:Hs.
  - apply lookup_lt_Some in Hn.
    destruct (normalize content_type); unfold initialize; unfold_methods;
      unfold appendSection; unfold_monad; rewrite Hm; simpl;
      destruct t; simpl; intros E; simplify_eq/=; try lia;
      match goal with
      | H : ?p (activeComponents s) = Some el |- _ =>
          first [ by discriminate (Hother Code H)
                | by discriminate (Hother Result H)
                | by discriminate (Hother Error H)
                | by discriminate (Hother Text H) ]
      | H : context [data (activeComponents s)] |- _ =>
          by discriminate (Hother Data H)
      end.
  - destruct Hst as [Hst|He]; [done|]. rewrite He.
    replace (is_string status "in_progress") with false
      by (destruct status; simpl in *; try done;
          apply String.eqb_eq in He; by subst).
    intros E.
    pose proof (end_clears_slot JSON_parse (normalize content_type) answer s) as Hc'.
    rewrite handleContent_cases in Hc'. simpl in Hc'.
    assert (t <> normalize content_type) as Hne by (intros ->; congruence).
    apply Hne, Hother. revert E.
    destruct (normalize content_type), t; try done;
      unfold finalize; unfold_methods; unfold_monad; simpl;
      repeat case_match; simpl; congruence.
Qed.

(** A fragment for an accumulating slot is written to no section but the
    one the slot refers to. *)
Lemma append_writes_own_section s t el answer i :
  Inv s ->
  slot t (activeComponents s) = Some el ->
  i <> el ->
  sections (state_of (append JSON_parse t answer s)) !! i = sections s !! i.
Proof.
  intros HI Hel Hi.
  pose proof (append_keeps_section JSON_parse t answer s el Hel) as [_ Hlen].
  destruct (sections s !! i) as [x|] eqn:Hx.
  - assert (Hreferred : forall t', slot t' (activeComponents s) = Some i ->
      sections (state_of (append JSON_parse t answer s)) !! i = Some x).
    { intros t' E.
      assert (t <> t') as Hne by (intros ->; congruence).
      destruct (decide (t = Data)) as [->|Hd].
      - by destruct (append_other_data JSON_parse t' answer s i x HI
                       (not_eq_sym Hne) E Hx) as (_ & H & _).
      - by destruct (append_other_plain JSON_parse t t' answer s i x HI Hd Hne E Hx)
          as (_ & H & _). }
    destruct (decide (slot Code (activeComponents s) = Some i)) as [E|N1];
      [by apply (Hreferred Code)|].
    destruct (decide (slot Data (activeComponents s) = Some i)) as [E|N2];
      [by apply (Hreferred Data)|].
    destruct (decide (slot Result (activeComponents s) = Some i)) as [E|N3];
      [by apply (Hreferred Result)|].
    destruct (decide (slot Error (activeComponents s) = Some i)) as [E|N4];
      [by apply (Hreferred Error)|].
    destruct (decide (slot Text (activeComponents s) = Some i)) as [E|N5];
      [by apply (Hreferred Text)|].
    assert (HK : Kept (Some (i, x)) s).
    { split; [done|]. split; [done|]. intros t'. by destruct t'. }
    by destruct (preserves_append (Some (i, x)) JSON_parse t answer s HK)
      as [_ [H _]].
  - apply lookup_ge_None. rewrite Hlen. by apply lookup_ge_None.
Qed.

(** C9, as the code has it.  A fragment is only ever accumulated into the
    section its type's slot refers to at that moment, in either client:
    (1) a section no slot refers to is never written again, under any later
    sequence of questions and frames;
    (2) a 'start' (on an open streaming message) and an 'end' leave no slot
    referring to the section the slot of their type referred to, which is
    then never written again, so the fragments of two sections of one type
    that a 'start' or an 'end' separates are never mixed;
    (3) finishing a session and asking the next question detach nothing:
    [finishStreaming] and [sendQuestion] change neither the active
    components nor the sections, so a slot that was accumulating when the
    session finished refers to the same section in the next session;
    (4) a fragment for an accumulating slot creates no section, keeps the
    slot, and is written to no section but the one the slot refers to --
    whichever session opened that section. *)
Theorem detached_sections_are_never_written :
  (forall s i x,
      Inv s ->
      sections s !! i = Some x ->
      (forall t, slot t (activeComponents s) <> Some i) ->
      (forall events, sections (SSE.run JSON_parse events s) !! i = Some x)
      /\ (forall frames, sections (WS.run JSON_parse frames s) !! i = Some x))
  /\ (forall s content_type answer status m el x,
        Inv s ->
        is_string status "start" = true \/ is_string status "end" = true ->
        currentStreamingMessage s = Some m ->
        slot (normalize content_type) (activeComponents s) = Some el ->
        sections (state_of (dispatch JSON_parse content_type answer status s)) !! el
        = Some x ->
        (forall t,
            slot t (activeComponents
                      (state_of (dispatch JSON_parse content_type answer status s)))
            <> Some el)
        /\ (forall events,
              sections (SSE.run JSON_parse events
                          (state_of (dispatch JSON_parse content_type answer status s)))
              !! el = Some x)
        /\ (forall frames,
              sections (WS.run JSON_parse frames
                          (state_of (dispatch JSON_parse content_type answer status s)))
              !! el = Some x))
  /\ (forall s,
        (sections (state_of (SSE.finishStreaming s)) = sections s
         /\ activeComponents (state_of (SSE.finishStreaming s)) = activeComponents s)
        /\ (sections (state_of (WS.finishStreaming s)) = sections s
            /\ activeComponents (state_of (WS.finishStreaming s)) = activeComponents s)
        /\ (sections (state_of (SSE.sendQuestion s)) = sections s
            /\ activeComponents (state_of (SSE.sendQuestion s)) = activeComponents s)
        /\ (forall t,
              slot t (activeComponents
                        (state_of (SSE.sendQuestion (state_of (SSE.finishStreaming s)))))
              = slot t (activeComponents s)))
  /\ (forall s t el answer,
        Inv s ->
        slot t (activeComponents s) = Some el ->
        slot t (activeComponents (state_of (append JSON_parse t answer s))) = Some el
        /\ length (sections (state_of (append JSON_parse t answer s)))
           = length (sections s)
        /\ (forall i, i <> el ->
              sections (state_of (append JSON_parse t answer s)) !! i
              = sections s !! i)).
Proof.
  split; [|split; [|split]].
  - intros s i x HI Hx Hd.
    assert (HK : Kept (Some (i, x)) s) by done.
    split.
    + intros events.
      by destruct (Kept_SSE_run (Some (i, x)) JSON_parse events s HK) as [_ [H _]].
    + intros frames.
      by destruct (Kept_WS_run (Some (i, x)) JSON_parse frames s HK) as [_ [H _]].
  - intros s content_type answer status m el x HI Hst Hm Hel Hx.
    pose proof (start_or_end_detaches s content_type answer status m el HI Hst Hm Hel)
      as Hdet.
    assert (HK : Kept (Some (el, x))
                   (state_of (dispatch JSON_parse content_type answer status s))).
    { split; [|by split].
      by destruct (preserves_dispatch None JSON_parse content_type answer status s
                     (conj HI I)) as [H _]. }
    split; [exact Hdet|]. split.
    + intros events.
      by destruct (Kept_SSE_run (Some (el, x)) JSON_parse events _ HK) as [_ [H _]].
    + intros frames.
      by destruct (Kept_WS_run (Some (el, x)) JSON_parse frames _ HK) as [_ [H _]].
  - intros s.
    assert (Hask : forall s0,
      sections (state_of (SSE.sendQuestion s0)) = sections s0
      /\ activeComponents (state_of (SSE.sendQuestion s0)) = activeComponents s0)
      by (by intros s0).
    split; [apply SSE_finishStreaming_frame|].
    split; [apply WS_finishStreaming_frame|].
    split; [apply Hask|].
    intros t. rewrite (proj2 (Hask _)).
    by rewrite (proj2 (SSE_finishStreaming_frame s)).
  - intros s t el answer HI Hel.
    destruct (append_keeps_section JSON_parse t answer s el Hel) as [Hslot Hlen].
    split; [by rewrite Hslot|]. split; [exact Hlen|].
    intros i Hi. exact (append_writes_own_section s t el answer i HI Hel Hi).
Qed.

End Reach.

Lemma detached_sections_are_never_written_witness :
  sections (SSE.run JSON.parse next_session_fragment
              (SSE.run JSON.parse finalized_code_session newAgent)) !! 0
  = Some finalized_code_section
  /\ ((forall t,
          slot t (activeComponents
                    (state_of (dispatch JSON.parse (JString "code") (JString "")
                                 (JString "end")
                                 (SSE.run JSON.parse code_open_session newAgent))))
          <> Some 0)
      /\ (forall events,
            sections (SSE.run JSON.parse events
                        (state_of (dispatch JSON.parse (JString "code") (JString "")
                                     (JString "end")
                                     (SSE.run JSON.parse code_open_session newAgent))))
            !! 0 = Some finalized_code_section)
      /\ (forall frames,
            sections (WS.run JSON.parse frames
                        (state_of (dispatch JSON.parse (JString "code") (JString "")
                                     (JString "end")
                                     (SSE.run JSON.parse code_open_session newAgent))))
            !! 0 = Some finalized_code_section))
  /\ (slot Code (activeComponents
                   (state_of (append JSON.parse Code (JString "b=2")
                                (SSE.run JSON.parse unfinished_code_session newAgent))))
      = Some 0
      /\ length (sections
                   (state_of (append JSON.parse Code (JString "b=2")
                                (SSE.run JSON.parse unfinished_code_session newAgent))))
         = length (sections (SSE.run JSON.parse unfinished_code_session newAgent))
      /\ (forall i, i <> 0 ->
            sections (state_of (append JSON.parse Code (JString "b=2")
                                  (SSE.run JSON.parse unfinished_code_session newAgent)))
            !! i
            = sections (SSE.run JSON.parse unfinished_code_session newAgent) !! i)).
Proof.
  split; [|split].
  - refine (proj1 (proj1 (detached_sections_are_never_written JSON.parse)
                     (SSE.run JSON.parse finalized_code_session newAgent)
                     0 finalized_code_section _ _ _) next_session_fragment).
    + exact (proj1 (Kept_SSE_run None JSON.parse finalized_code_session newAgent
                      (conj Inv_newAgent I))).
    + vm_compute. reflexivity.
    + intros t. destruct t; vm_compute; discriminate.
  - refine (proj1 (proj2 (detached_sections_are_never_written JSON.parse))
              (SSE.run JSON.parse code_open_session newAgent)
              (JString "code") (JString "") (JString "end") 0 0
              finalized_code_section _ _ _ _ _).
    + exact (proj1 (Kept_SSE_run None JSON.parse code_open_session newAgent
                      (conj Inv_newAgent I))).
    + right. reflexivity.
    + vm_compute. reflexivity.
    + vm_compute. reflexivity.
    + vm_compute. reflexivity.
  - refine (proj2 (proj2 (proj2 (detached_sections_are_never_written JSON.parse)))
              (SSE.run JSON.parse unfinished_code_session newAgent)
              Code 0 (JString "b=2") _ _).
    + exact (proj1 (Kept_SSE_run None JSON.parse unfinished_code_session newAgent
                      (conj Inv_newAgent I))).
    + vm_compute. reflexivity.
Defined.
